(** * KivEnt resource managers: ModelManager and TextureManager

    A shallow embedding of [kivent_core/managers/resource_managers.pyx].
    Python dictionaries are finite maps, instance attributes are record
    fields, and every method is a computation in a state-and-exception
    monad: a raised exception keeps the state reached so far, because the
    Python code mutates its dictionaries in place and never rolls back. *)

From stdpp Require Import gmap strings list fin_maps pretty.
From Stdlib Require Import ZArith SpecFloat.

Local Open Scope string_scope.
Local Open Scope list_scope.
Local Open Scope Z_scope.

(** ** Exceptions and the monad *)

Inductive exn : Type :=
  | KeyError
  | TypeError
  | ValueError
  | ZeroDivisionError
  | OverflowError
  | IOError.

Inductive res (A : Type) : Type :=
  | Ok (a : A)
  | Raise (e : exn).
Arguments Ok {A} a.
Arguments Raise {A} e.

(** A method of an object with state [S] returning an [A]. *)
Definition M (S A : Type) : Type := S → res A * S.

Definition ret {S A} (a : A) : M S A := λ s, (Ok a, s).
Definition raise {S A} (e : exn) : M S A := λ s, (Raise e, s).
Definition bind {S A B} (m : M S A) (k : A → M S B) : M S B :=
  λ s, match m s with
       | (Ok a, s') => k a s'
       | (Raise e, s') => (Raise e, s')
       end.
Definition get {S} : M S S := λ s, (Ok s, s).
Definition modify {S} (f : S → S) : M S unit := λ s, (Ok tt, f s).
(** Lifts the result of a pure, possibly raising, expression. *)
Definition lift {S A} (r : res A) : M S A := λ s, (r, s).

Declare Scope py_scope.
Delimit Scope py_scope with py.
Notation "x <- m ;; k" := (bind m (λ x, k))
  (at level 100, m at next level, k at level 200, right associativity) : py_scope.
Notation "m ;;; k" := (bind m (λ _, k))
  (at level 100, k at level 200, right associativity) : py_scope.
Local Open Scope py_scope.

(** [d[k]] on a dictionary: [KeyError] when the key is absent. *)
Definition getitem `{Lookup K V D} (d : D) (k : K) : res V :=
  match d !! k with
  | Some v => Ok v
  | None => Raise KeyError
  end.

(** [for x in l: body x], stopping at the first exception. *)
Fixpoint for_each {S A} (l : list A) (body : A → M S unit) : M S unit :=
  match l with
  | [] => ret tt
  | x :: l' => body x ;;; for_each l' body
  end.

(** A loop that carries a local variable from one iteration to the next. *)
Fixpoint for_acc {S A B} (l : list A) (acc : B) (body : A → B → M S B) : M S B :=
  match l with
  | [] => ret acc
  | x :: l' => acc' <- body x acc;; for_acc l' acc' body
  end.

(** ** Python values and the services outside this file *)

(** The Python numbers this file computes with: texture dimensions, the
    rectangle components decoded from an atlas, and the floats of a UV
    rectangle.  Every operation may raise, as it does in Python. *)
Class PyArith : Type := {
  pyval : Type;
  py_float0 : pyval;                      (* the literal 0. *)
  py_float1 : pyval;                      (* the literal 1. *)
  as_c_float : pyval → res pyval;         (* <float>v *)
  py_add : pyval → pyval → res pyval;     (* a + b *)
  py_sub : pyval → pyval → res pyval;     (* a - b *)
  py_div : pyval → pyval → res pyval;     (* a / b *)
}.

(** A decoded texture: only its [size] attribute is read here. *)
Record Texture `{PyArith} : Type := {
  tex_label : string;
  tex_size : pyval * pyval;
}.

(** [format_registrar._vertex_formats] holds one of these per format. *)
Record FormatConfig : Type := {
  _name : string;
  _size : Z;
}.

(** A JSON atlas: image file name -> (sub-image name -> rectangle), in the
    order the dictionaries are iterated. *)
Definition atlas_json `{PyArith} : Type :=
  list (string * list (string * list pyval)).

(** The collaborators the managers call into: the vertex format registry,
    image decoding, [os.path] and the atlas file reader. *)
Class Externals `{PyArith} : Type := {
  vertex_formats : gmap string FormatConfig;
  CoreImage_texture : string → res Texture;   (* CoreImage(p, nocache=True).texture *)
  path_basename : string → string;
  path_dirname : string → string;
  path_join : string → string → string;
  path_splitext_root : string → string;       (* path.splitext(p)[0] *)
  json_load : string → res atlas_json;        (* open(p) and json.load *)
}.

(** Modelled from the spec: the MemoryBlock class is not in this file; a
    block is the triple it is constructed with, the first component being
    the number of bytes asked for. *)
Record MemoryBlock : Type := {
  size_in_bytes : N;
  type_size : N;
  master_index : N;
}.

(** Modelled from the spec: the Buffer service, "reserve N bytes from
    buffer"; the buffer is the list of reservations made from it, oldest
    first. *)
Definition Buffer : Type := list N.

Definition allocate_memory_with_buffer (b : MemoryBlock) (master_buffer : Buffer)
  : Buffer :=
  master_buffer ++ [size_in_bytes b].

Definition bytes_reserved (master_buffer : Buffer) : Z :=
  foldr (λ n acc, Z.of_N n + acc) 0 master_buffer.

(** The value stored at [memory_blocks[format]]. *)
Record BlockPair : Type := {
  indices_block : MemoryBlock;
  vertices_block : MemoryBlock;
}.

(** Modelled from the spec: the vertex and index contents of a model, which
    the VertexModel class owns; a model is not initialised by its
    constructor, [set_textured_rectangle] writes a quad and
    [copy_vertex_model] takes over the contents of another model. *)
Inductive ModelData `{PyArith} : Type :=
  | Uninitialized
  | TexturedRectangle (width height : pyval) (uvs : list pyval).

(** Modelled from the spec: the VertexModel class, "constructed with
    (vertex_count, index_count, format, index_block, vertex_block, name)". *)
Record VertexModel `{PyArith} : Type := {
  _vertex_count : N;
  _index_count : N;
  _format_config : FormatConfig;
  index_block : MemoryBlock;
  vertex_block : MemoryBlock;
  vm_name : string;
  vm_data : ModelData;
}.

Definition new_VertexModel `{PyArith} (vertex_count index_count : N)
    (format_config : FormatConfig) (index_block vertex_block : MemoryBlock)
    (name : string) : VertexModel :=
  {| _vertex_count := vertex_count; _index_count := index_count;
     _format_config := format_config; index_block := index_block;
     vertex_block := vertex_block; vm_name := name;
     vm_data := Uninitialized |}.

(** Modelled from the spec: [self.copy_vertex_model(other)] bulk-copies the
    other model's vertex and index data. *)
Definition copy_vertex_model `{PyArith} (self other : VertexModel) : VertexModel :=
  {| _vertex_count := _vertex_count self; _index_count := _index_count self;
     _format_config := _format_config self; index_block := index_block self;
     vertex_block := vertex_block self; vm_name := vm_name self;
     vm_data := vm_data other |}.

(** Modelled from the spec: [self.set_textured_rectangle(width, height, uvs)]
    writes the quad of that width and height with those UVs. *)
Definition set_textured_rectangle `{PyArith} (self : VertexModel)
    (width height : pyval) (uvs : list pyval) : VertexModel :=
  {| _vertex_count := _vertex_count self; _index_count := _index_count self;
     _format_config := _format_config self; index_block := index_block self;
     vertex_block := vertex_block self; vm_name := vm_name self;
     vm_data := TexturedRectangle width height uvs |}.

(** ** ModelManager *)

Record ModelManager `{PyArith} : Type := {
  allocation_size : N;
  memory_blocks : gmap string BlockPair;
  _models : gmap string VertexModel;
  _key_counts : gmap string Z;
  _model_register : gmap string (gmap N string);
}.

Section ModelManager.
Context {arith : PyArith} {ext : Externals}.

Definition set_memory_blocks (f : gmap string BlockPair → gmap string BlockPair)
    (self : ModelManager) : ModelManager :=
  {| allocation_size := allocation_size self;
     memory_blocks := f (memory_blocks self);
     _models := _models self; _key_counts := _key_counts self;
     _model_register := _model_register self |}.

Definition set_models (f : gmap string VertexModel → gmap string VertexModel)
    (self : ModelManager) : ModelManager :=
  {| allocation_size := allocation_size self;
     memory_blocks := memory_blocks self;
     _models := f (_models self); _key_counts := _key_counts self;
     _model_register := _model_register self |}.

Definition set_key_counts (f : gmap string Z → gmap string Z)
    (self : ModelManager) : ModelManager :=
  {| allocation_size := allocation_size self;
     memory_blocks := memory_blocks self;
     _models := _models self; _key_counts := f (_key_counts self);
     _model_register := _model_register self |}.

Definition set_model_register
    (f : gmap string (gmap N string) → gmap string (gmap N string))
    (self : ModelManager) : ModelManager :=
  {| allocation_size := allocation_size self;
     memory_blocks := memory_blocks self;
     _models := _models self; _key_counts := _key_counts self;
     _model_register := f (_model_register self) |}.

(** [ModelManager.__init__] *)
Definition ModelManager_init (allocation_size : N) : ModelManager :=
  {| allocation_size := allocation_size; memory_blocks := ∅;
     _models := ∅; _key_counts := ∅; _model_register := ∅ |}.

Definition register_entity_with_model (entity_id : N) (system_id : string)
    (model_name : string) : M ModelManager unit :=
  self <- get;;
  match _model_register self !! model_name with
  | None =>
      modify (set_model_register <[model_name := {[entity_id := system_id]}]>)
  | Some bucket =>
      modify (set_model_register
                <[model_name := <[entity_id := system_id]> bucket]>)
  end.

(** [del self._model_register[model_name][entity_id]] *)
Definition unregister_entity_with_model (entity_id : N) (model_name : string)
    : M ModelManager unit :=
  self <- get;;
  bucket <- lift (getitem (_model_register self) model_name);;
  _ <- lift (getitem bucket entity_id);;
  modify (set_model_register <[model_name := delete entity_id bucket]>).

(** [str(n)] for a Python integer. *)
Definition str (n : Z) : string := pretty n.

Definition load_model (format_name : string) (vertex_count index_count : N)
    (name : string) (do_copy : bool) : M ModelManager string :=
  format_config <- lift (getitem vertex_formats format_name);;
  let construct (name : string) : M ModelManager string :=
    self <- get;;
    blocks <- lift (getitem (memory_blocks self) format_name);;
    let vertex_block := vertices_block blocks in
    let index_block := indices_block blocks in
    let model := new_VertexModel vertex_count index_count format_config
                   index_block vertex_block name in
    modify (set_models <[name := model]>);;;
    ret name in
  self <- get;;
  match _key_counts self !! name with
  | None =>
      modify (set_key_counts <[name := 0]>);;;
      construct name
  | Some count =>
      if negb do_copy then ret name
      else
        let name := name +:+ "_" +:+ str count in
        self <- get;;
        old <- lift (getitem (_key_counts self) name);;
        modify (set_key_counts <[name := old + 1]>);;;
        construct name
  end.

Definition copy_model (model_to_copy : string) (model_name : option string)
    : M ModelManager string :=
  self <- get;;
  copy_model <- lift (getitem (_models self) model_to_copy);;
  let format_name := _name (_format_config copy_model) in
  let model_name := match model_name with
                    | None => model_to_copy
                    | Some n => n
                    end in
  real_name <- load_model format_name (_vertex_count copy_model)
                 (_index_count copy_model) model_name true;;
  self <- get;;
  target <- lift (getitem (_models self) real_name);;
  modify (set_models <[real_name := copy_vertex_model target copy_model]>);;;
  ret real_name.

(** The reserved-capacity line handed to the logger: its arguments divide
    by the per-vertex size of the format. *)
Definition log_reserved (format_config : FormatConfig)
    (vertex_size index_size : Z) : res unit :=
  if decide (_size format_config = 0) then Raise ZeroDivisionError
  else Ok tt.

(** [allocate] also writes into the buffer it is handed, so it runs on the
    manager paired with that buffer.  [total_count] is a C unsigned int:
    storing a Python integer outside its range raises. *)
Definition allocate (formats_to_allocate : gmap string (Z * Z))
    : M (ModelManager * Buffer) Z :=
  st <- get;;
  let size := allocation_size (fst st) in
  let formats_to_allocate :=
    if decide (formats_to_allocate = ∅)
    then (λ _, (Z.of_N (size - size / 4), Z.of_N (size / 4))) <$> vertex_formats
    else formats_to_allocate in
  for_acc (map_to_list formats_to_allocate) 0
    (λ '(format, (vertex_size, index_size)) total_count,
       format_config <- lift (getitem vertex_formats format);;
       let indices_block :=
         {| size_in_bytes := size / 2; type_size := 1; master_index := 1 |} in
       let vertices_block :=
         {| size_in_bytes := size / 2; type_size := 1; master_index := 1 |} in
       modify (λ st, (fst st, allocate_memory_with_buffer vertices_block (snd st)));;;
       modify (λ st, (fst st, allocate_memory_with_buffer indices_block (snd st)));;;
       modify (λ st, (set_memory_blocks
                        <[format := {| indices_block := indices_block;
                                       vertices_block := vertices_block |}]>
                        (fst st), snd st));;;
       let total_count := total_count + (vertex_size + index_size) in
       if decide (0 ≤ total_count < 2 ^ 32) then
         lift (log_reserved format_config vertex_size index_size);;;
         ret total_count
       else raise OverflowError).

Definition unload_model (model_name : string) : M ModelManager unit :=
  self <- get;;
  _ <- lift (getitem (_models self) model_name);;
  modify (set_models (delete model_name));;;
  modify (set_model_register (delete model_name));;;
  modify (set_key_counts (delete model_name)).

(** The outcome the specification promises for two copying loads of the
    same base name: the names [n_0] and [n_1], each holding a model. *)
Definition copies_named_0_and_1 (self : ModelManager) (format_name : string)
    (vertex_count index_count : N) (name : string) : Prop :=
  ∃ self1 self2,
    load_model format_name vertex_count index_count name true self
    = (Ok (name +:+ "_0"), self1)
    ∧ load_model format_name vertex_count index_count name true self1
      = (Ok (name +:+ "_1"), self2)
    ∧ is_Some (_models self2 !! (name +:+ "_0"))
    ∧ is_Some (_models self2 !! (name +:+ "_1")).

(** The renderer recorded for [entity_id] under [model_name], if any. *)
Definition registration (self : ModelManager) (model_name : string)
    (entity_id : N) : option string :=
  _model_register self !! model_name ≫= (.!! entity_id).

End ModelManager.

(** ** TextureManager *)

Record TextureManager `{PyArith} : Type := {
  _textures : gmap Z Texture;            (* texkey -> texture *)
  _keys : gmap string Z;                 (* name -> texkey *)
  _key_index : gmap Z string;            (* texkey -> name *)
  _texkey_index : gmap Z Z;              (* texkey -> texkey of its atlas *)
  _key_count : Z;
  _sizes : gmap Z (pyval * pyval);       (* texkey -> (w, h) *)
  _uvs : gmap Z (list pyval);            (* texkey -> uvs *)
  _groups : gmap Z (list Z);             (* atlas texkey -> texkeys in it *)
}.

Section TextureManager.
Context {arith : PyArith} {ext : Externals}.

Definition set_textures (f : gmap Z Texture → gmap Z Texture)
    (self : TextureManager) : TextureManager :=
  {| _textures := f (_textures self); _keys := _keys self;
     _key_index := _key_index self; _texkey_index := _texkey_index self;
     _key_count := _key_count self; _sizes := _sizes self;
     _uvs := _uvs self; _groups := _groups self |}.

Definition set_keys (f : gmap string Z → gmap string Z)
    (self : TextureManager) : TextureManager :=
  {| _textures := _textures self; _keys := f (_keys self);
     _key_index := _key_index self; _texkey_index := _texkey_index self;
     _key_count := _key_count self; _sizes := _sizes self;
     _uvs := _uvs self; _groups := _groups self |}.

Definition set_key_index (f : gmap Z string → gmap Z string)
    (self : TextureManager) : TextureManager :=
  {| _textures := _textures self; _keys := _keys self;
     _key_index := f (_key_index self); _texkey_index := _texkey_index self;
     _key_count := _key_count self; _sizes := _sizes self;
     _uvs := _uvs self; _groups := _groups self |}.

Definition set_texkey_index (f : gmap Z Z → gmap Z Z)
    (self : TextureManager) : TextureManager :=
  {| _textures := _textures self; _keys := _keys self;
     _key_index := _key_index self; _texkey_index := f (_texkey_index self);
     _key_count := _key_count self; _sizes := _sizes self;
     _uvs := _uvs self; _groups := _groups self |}.

Definition set_key_count (f : Z → Z) (self : TextureManager) : TextureManager :=
  {| _textures := _textures self; _keys := _keys self;
     _key_index := _key_index self; _texkey_index := _texkey_index self;
     _key_count := f (_key_count self); _sizes := _sizes self;
     _uvs := _uvs self; _groups := _groups self |}.

Definition set_sizes (f : gmap Z (pyval * pyval) → gmap Z (pyval * pyval))
    (self : TextureManager) : TextureManager :=
  {| _textures := _textures self; _keys := _keys self;
     _key_index := _key_index self; _texkey_index := _texkey_index self;
     _key_count := _key_count self; _sizes := f (_sizes self);
     _uvs := _uvs self; _groups := _groups self |}.

Definition set_uvs (f : gmap Z (list pyval) → gmap Z (list pyval))
    (self : TextureManager) : TextureManager :=
  {| _textures := _textures self; _keys := _keys self;
     _key_index := _key_index self; _texkey_index := _texkey_index self;
     _key_count := _key_count self; _sizes := _sizes self;
     _uvs := f (_uvs self); _groups := _groups self |}.

Definition set_groups (f : gmap Z (list Z) → gmap Z (list Z))
    (self : TextureManager) : TextureManager :=
  {| _textures := _textures self; _keys := _keys self;
     _key_index := _key_index self; _texkey_index := _texkey_index self;
     _key_count := _key_count self; _sizes := _sizes self;
     _uvs := _uvs self; _groups := f (_groups self) |}.

(** [TextureManager.__init__] *)
Definition TextureManager_init : TextureManager :=
  {| _textures := ∅; _keys := ∅; _key_index := ∅; _texkey_index := ∅;
     _key_count := 0; _sizes := ∅; _uvs := ∅; _groups := ∅ |}.

(** [del d[k]] on the dictionary behind a field: [KeyError] when absent. *)
Definition delitem `{Lookup K V D, Delete K D}
    (field : TextureManager → D)
    (set_field : (D → D) → TextureManager → TextureManager) (k : K)
    : M TextureManager unit :=
  self <- get;;
  _ <- lift (getitem (field self) k);;
  modify (set_field (delete k)).

Definition load_image (source : string) : M TextureManager Z :=
  texture <- lift (CoreImage_texture source);;
  let name := path_splitext_root (path_basename source) in
  self <- get;;
  if decide (is_Some (_keys self !! name)) then raise KeyError
  else
    let key_count := _key_count self in
    let size := tex_size texture in
    modify (set_textures <[key_count := texture]>);;;
    modify (set_keys <[name := key_count]>);;;
    modify (set_sizes <[key_count := size]>);;;
    modify (set_key_index <[key_count := name]>);;;
    modify (set_texkey_index <[key_count := key_count]>);;;
    modify (set_uvs <[key_count := [py_float0; py_float0; py_float1; py_float1]]>);;;
    modify (set_groups <[key_count := [key_count]]>);;;
    modify (set_key_count (λ n, n + 1));;;
    ret key_count.

Definition load_texture (name : string) (texture : Texture)
    : M TextureManager Z :=
  self <- get;;
  if decide (is_Some (_keys self !! name)) then raise KeyError
  else
    let key_count := _key_count self in
    modify (set_textures <[key_count := texture]>);;;
    let size := tex_size texture in
    modify (set_sizes <[key_count := size]>);;;
    modify (set_keys <[name := key_count]>);;;
    modify (set_key_index <[key_count := name]>);;;
    modify (set_texkey_index <[key_count := key_count]>);;;
    modify (set_uvs <[key_count := [py_float0; py_float0; py_float1; py_float1]]>);;;
    modify (set_groups <[key_count := [key_count]]>);;;
    modify (set_key_count (λ n, n + 1));;;
    ret key_count.

(** The body of the loop of [unload_texture]. *)
Definition unload_texture_member (key : Z) : M TextureManager unit :=
  self <- get;;
  name <- lift (getitem (_key_index self) key);;
  delitem _key_index set_key_index key;;;
  delitem _uvs set_uvs key;;;
  delitem _texkey_index set_texkey_index key;;;
  delitem _keys set_keys name;;;
  delitem _sizes set_sizes key.

Definition unload_texture (name : string) : M TextureManager unit :=
  self <- get;;
  match _keys self !! name with
  | None => raise KeyError
  | Some key_index =>
      texture_keys <- lift (getitem (_groups self) key_index);;
      for_each texture_keys unload_texture_member;;;
      delitem _groups set_groups key_index;;;
      delitem _textures set_textures key_index
  end.

Definition get_texkey_from_name (name : string) : M TextureManager Z :=
  self <- get;; lift (getitem (_keys self) name).

Definition get_uvs (tex_key : Z) : M TextureManager (list pyval) :=
  self <- get;; lift (getitem (_uvs self) tex_key).

Definition get_size (tex_key : Z) : M TextureManager (pyval * pyval) :=
  self <- get;; lift (getitem (_sizes self) tex_key).

Definition get_texture (tex_key : Z) : M TextureManager Texture :=
  self <- get;; lift (getitem (_textures self) tex_key).

Definition get_groupkey_from_texkey (tex_key : Z) : M TextureManager Z :=
  self <- get;; lift (getitem (_texkey_index self) tex_key).

Definition get_texname_from_texkey (tex_key : Z) : M TextureManager string :=
  self <- get;; lift (getitem (_key_index self) tex_key).

Definition get_texkey_in_group (tex_key group_key : Z) : M TextureManager bool :=
  self <- get;;
  group <- lift (getitem (_groups self) group_key);;
  ret (bool_decide (tex_key ∈ group)).

(** The body of the inner loop of [load_atlas]: registers the sub-image
    [key] with rectangle [rect] in the atlas [atlas_key], whose image is
    [w] by [h] pixels. *)
Definition load_atlas_entry (atlas_key : Z) (w h : pyval)
    (entry : string * list pyval) : M TextureManager unit :=
  let '(key, rect) := entry in
  match rect with
  | [kx; ky; kw; kh] =>
      self <- get;;
      let key_index := _key_count self in
      modify (set_keys <[key := key_index]>);;;
      modify (set_key_index <[key_index := key]>);;;
      modify (set_texkey_index <[key_index := atlas_key]>);;;
      modify (set_sizes <[key_index := (kw, kh)]>);;;
      let x1 := kx in
      let y1 := ky in
      x2 <- lift (py_add x1 kw);;
      y2 <- lift (py_add y1 kh);;
      u1 <- lift (py_div x1 w);;
      t1 <- lift (py_div y1 h);;
      v1 <- lift (py_sub py_float1 t1);;
      u2 <- lift (py_div x2 w);;
      t2 <- lift (py_div y2 h);;
      v2 <- lift (py_sub py_float1 t2);;
      modify (set_uvs <[key_index := [u1; v1; u2; v2]]>);;;
      modify (set_key_count (λ n, n + 1));;;
      modify (set_groups (alter (λ group_list, group_list ++ [key_index]) atlas_key))
  | _ => raise ValueError
  end.

(** The body of the outer loop of [load_atlas]. *)
Definition load_atlas_image (dirname : string)
    (item : string * list (string * list pyval)) : M TextureManager unit :=
  let '(imgname, atlas_content) := item in
  texture <- lift (CoreImage_texture (path_join dirname imgname));;
  let name := path_basename imgname in
  let size := tex_size texture in
  w <- lift (as_c_float (fst size));;
  h <- lift (as_c_float (snd size));;
  atlas_key <- load_texture name texture;;
  self <- get;;
  _ <- lift (getitem (_groups self) atlas_key);;
  for_each atlas_content (load_atlas_entry atlas_key w h).

Definition load_atlas (source : string) : M TextureManager unit :=
  let dirname := path_dirname source in
  atlas_data <- lift (json_load source);;
  for_each atlas_data (load_atlas_image dirname).

End TextureManager.

(** [ModelManager.load_textured_rectangle] reads the module-level
    [texture_manager], so it runs on both managers.  Its signature declares
    [float width, float height]: the two arguments are converted to C
    floats, in that order, before the body runs, and a value that does not
    convert raises there. *)
Definition load_textured_rectangle {arith : PyArith} {ext : Externals}
    (format_name : string)
    (width height : pyval) (texture_key : string) (name : string)
    (do_copy : bool) : M (ModelManager * TextureManager) string :=
  let on_models {A} (m : M ModelManager A) : M (ModelManager * TextureManager) A :=
    λ st, let '(r, mm) := m (fst st) in (r, (mm, snd st)) in
  let on_textures {A} (m : M TextureManager A) : M (ModelManager * TextureManager) A :=
    λ st, let '(r, tm) := m (snd st) in (r, (fst st, tm)) in
  width <- lift (as_c_float width);;
  height <- lift (as_c_float height);;
  model_name <- on_models (load_model format_name 4 6 name do_copy);;
  st <- get;;
  model <- lift (getitem (_models (fst st)) model_name);;
  texkey <- on_textures (get_texkey_from_name texture_key);;
  uvs <- on_textures (get_uvs texkey);;
  on_models (modify (set_models
    <[model_name := set_textured_rectangle model width height uvs]>));;;
  ret model_name.

(** ** What the specification says, in terms of the managers *)

#[global] Instance res_ret : MRet res := @Ok.
#[global] Instance res_bind : MBind res := λ A B k r,
  match r with
  | Ok a => k a
  | Raise e => Raise e
  end.

Section Statements.
Context {arith : PyArith} {ext : Externals}.

(** The UV rectangle of the specification,
    [[x/W, 1 - y/H, (x+w)/W, 1 - (y+h)/H]], in Python arithmetic; [W] and
    [H] are the pixel size of the parent image as C floats. *)
Definition uv_rectangle (W H x y w h : pyval) : res (list pyval) :=
  u1 ← py_div x W;
  yH ← py_div y H;
  v1 ← py_sub py_float1 yH;
  xw ← py_add x w;
  u2 ← py_div xw W;
  yh ← py_add y h;
  yhH ← py_div yh H;
  v2 ← py_sub py_float1 yhH;
  mret [u1; v1; u2; v2].

(** Every name an atlas registers: per image its base name, then the
    names of its sub-images. *)
Definition atlas_names (atlas_data : atlas_json) : list string :=
  flat_map (λ item, path_basename (fst item) :: map fst (snd item)) atlas_data.

(** An image of an atlas that can be registered: it decodes, its size
    casts to C floats and each of its rectangles has four components the
    UV arithmetic is defined on. *)
Definition image_loadable (dirname : string)
    (item : string * list (string * list pyval)) : Prop :=
  ∃ texture W H,
    CoreImage_texture (path_join dirname (fst item)) = Ok texture
    ∧ as_c_float (fst (tex_size texture)) = Ok W
    ∧ as_c_float (snd (tex_size texture)) = Ok H
    ∧ ∀ key rect, (key, rect) ∈ snd item →
        ∃ x y w h uvs,
          rect = [x; y; w; h] ∧ uv_rectangle W H x y w h = Ok uvs.

(** [key] has left the four tables that are keyed by texkey. *)
Definition texkey_forgotten (self : TextureManager) (key : Z) : Prop :=
  _key_index self !! key = None
  ∧ _uvs self !! key = None
  ∧ _texkey_index self !! key = None
  ∧ _sizes self !! key = None.

(** [unload_texture(name)] unloads the group the texture called [name]
    is a member of: the call returns, the group entry is gone, and so is
    every member, from every table and by name. *)
Definition unloads_group (self : TextureManager) (name : string) : Prop :=
  ∃ key group_key members self',
    _keys self !! name = Some key
    ∧ _groups self !! group_key = Some members
    ∧ key ∈ members
    ∧ unload_texture name self = (Ok tt, self')
    ∧ _groups self' !! group_key = None
    ∧ ∀ member member_name,
        member ∈ members →
        _key_index self !! member = Some member_name →
        texkey_forgotten self' member
        ∧ _keys self' !! member_name = None
        ∧ get_texkey_from_name member_name self' = (Raise KeyError, self').

(** The records [unload_texture] expects of the group [group_key]: its
    texture, and for each member one name and an entry in every table,
    no member and no name occurring twice. *)
Definition group_recorded (self : TextureManager) (group_key : Z)
    (members : list Z) : Prop :=
  NoDup members
  ∧ group_key ∈ members
  ∧ is_Some (_textures self !! group_key)
  ∧ (∀ key, key ∈ members →
       ∃ name, _key_index self !! key = Some name
               ∧ is_Some (_keys self !! name)
               ∧ is_Some (_uvs self !! key)
               ∧ is_Some (_texkey_index self !! key)
               ∧ is_Some (_sizes self !! key))
  ∧ (∀ key1 key2 name, key1 ∈ members → key2 ∈ members →
       _key_index self !! key1 = Some name →
       _key_index self !! key2 = Some name → key1 = key2).

(** The manager once [key], called [name], has been taken out. *)
Definition forget (key : Z) (name : string) (self : TextureManager)
    : TextureManager :=
  set_sizes (delete key)
    (set_keys (delete name)
       (set_texkey_index (delete key)
          (set_uvs (delete key) (set_key_index (delete key) self)))).

(** The manager once [load_texture(name, texture)] has returned. *)
Definition with_texture (name : string) (texture : Texture)
    (self : TextureManager) : TextureManager :=
  let key_count := _key_count self in
  set_key_count (λ n, n + 1)
    (set_groups <[key_count := [key_count]]>
       (set_uvs <[key_count := [py_float0; py_float0; py_float1; py_float1]]>
          (set_texkey_index <[key_count := key_count]>
             (set_key_index <[key_count := name]>
                (set_keys <[name := key_count]>
                   (set_sizes <[key_count := tex_size texture]>
                      (set_textures <[key_count := texture]> self))))))).

(** The manager once the sub-image [key] of the atlas [atlas_key] has
    been registered with size [(w, h)] and UVs [uvs]. *)
Definition with_entry (atlas_key : Z) (key : string) (w h : pyval)
    (uvs : list pyval) (self : TextureManager) : TextureManager :=
  let key_index := _key_count self in
  set_groups (alter (λ group_list, group_list ++ [key_index]) atlas_key)
    (set_key_count (λ n, n + 1)
       (set_uvs <[key_index := uvs]>
          (set_sizes <[key_index := (w, h)]>
             (set_texkey_index <[key_index := atlas_key]>
                (set_key_index <[key_index := key]>
                   (set_keys <[key := key_index]> self)))))).

(** [name] resolves to a texkey below the counter whose recorded size
    and UVs are [size] and [uvs]. *)
Definition recorded (self : TextureManager) (name : string)
    (size : pyval * pyval) (uvs : list pyval) : Prop :=
  ∃ texkey,
    _keys self !! name = Some texkey
    ∧ _sizes self !! texkey = Some size
    ∧ _uvs self !! texkey = Some uvs
    ∧ texkey < _key_count self.

(** Every key a name resolves to is non-negative and below the counter. *)
Definition below (self : TextureManager) : Prop :=
  0 ≤ _key_count self
  ∧ ∀ name key, _keys self !! name = Some key → 0 ≤ key < _key_count self.

(** From [self] to [self'] the counter has not gone down, and a name
    resolves as before or to a key that is at least the old counter. *)
Definition grows (self self' : TextureManager) : Prop :=
  _key_count self ≤ _key_count self'
  ∧ ∀ name key, _keys self' !! name = Some key →
      _keys self !! name = Some key ∨ _key_count self ≤ key.

(** From [self] to [self'] names were only taken out and the counter was
    left alone. *)
Definition shrinks (self self' : TextureManager) : Prop :=
  _key_count self' = _key_count self ∧ _keys self' ⊆ _keys self.

(** From [self] to [self'] the counter has not gone down and what is
    recorded for the keys below it is as it was. *)
Definition persists (self self' : TextureManager) : Prop :=
  _key_count self ≤ _key_count self'
  ∧ ∀ key, key < _key_count self →
      _key_index self' !! key = _key_index self !! key
      ∧ _sizes self' !! key = _sizes self !! key
      ∧ _uvs self' !! key = _uvs self !! key.

(** One call on the texture manager. *)
Inductive call : Type :=
  | Load_image (source : string)
  | Load_texture (name : string) (texture : Texture)
  | Load_atlas (source : string)
  | Unload_texture (name : string).

Definition void {S A} (m : M S A) : M S unit := _ <- m;; ret tt.

Definition perform (c : call) : M TextureManager unit :=
  match c with
  | Load_image source => void (load_image source)
  | Load_texture name texture => void (load_texture name texture)
  | Load_atlas source => load_atlas source
  | Unload_texture name => unload_texture name
  end.

(** The managers a sequence of calls goes through, oldest first; a call
    that raises leaves the manager it had reached. *)
Fixpoint history (calls : list call) (self : TextureManager)
    : list TextureManager :=
  self :: match calls with
          | [] => []
          | c :: calls' => history calls' (snd (perform c self))
          end.

(** The inner loop of [load_atlas] stops in the UV arithmetic of a
    sub-image, lines 432-433: its rectangle was unpacked into four
    components at line 425 and its key was recorded at lines 427-430, but
    the counter was not advanced.  An entry whose rectangle has four
    components can raise nowhere else. *)
Fixpoint entries_raise_in_uvs (atlas_key : Z) (w h : pyval)
    (entries : list (string * list pyval)) (self : TextureManager) : Prop :=
  match entries with
  | [] => False
  | entry :: entries' =>
      match load_atlas_entry atlas_key w h entry self with
      | (Ok _, self') => entries_raise_in_uvs atlas_key w h entries' self'
      | (Raise _, _) => length (snd entry) = 4%nat
      end
  end.

(** The outer loop of [load_atlas] stops in the UV arithmetic of a
    sub-image of the first image that raises: that image decoded, its size
    was cast and it was registered, and its inner loop stopped there. *)
Fixpoint images_raise_in_uvs (dirname : string) (atlas_data : atlas_json)
    (self : TextureManager) : Prop :=
  match atlas_data with
  | [] => False
  | item :: atlas_data' =>
      match load_atlas_image dirname item self with
      | (Ok _, self') => images_raise_in_uvs dirname atlas_data' self'
      | (Raise _, _) =>
          ∃ texture w h atlas_key self1,
            CoreImage_texture (path_join dirname (fst item)) = Ok texture
            ∧ as_c_float (fst (tex_size texture)) = Ok w
            ∧ as_c_float (snd (tex_size texture)) = Ok h
            ∧ load_texture (path_basename (fst item)) texture self
              = (Ok atlas_key, self1)
            ∧ entries_raise_in_uvs atlas_key w h (snd item) self1
      end
  end.

(** [load_atlas(source)] on [self] raises in the UV arithmetic of a
    sub-image. *)
Definition raises_in_uvs (source : string) (self : TextureManager) : Prop :=
  ∃ atlas_data,
    json_load source = Ok atlas_data
    ∧ images_raise_in_uvs (path_dirname source) atlas_data self.

(** No [load_atlas] among the calls raises in the UV arithmetic of a
    sub-image; the calls may raise anywhere else. *)
Fixpoint atlases_counted (calls : list call) (self : TextureManager) : Prop :=
  match calls with
  | [] => True
  | c :: calls' =>
      match c with
      | Load_atlas source => ¬ raises_in_uvs source self
      | _ => True
      end
      ∧ atlases_counted calls' (snd (perform c self))
  end.

(** No [load_atlas] among the calls raises. *)
Fixpoint atlases_complete (calls : list call) (self : TextureManager) : Prop :=
  match calls with
  | [] => True
  | c :: calls' =>
      match c with
      | Load_atlas _ => fst (perform c self) = Ok tt
      | _ => True
      end
      ∧ atlases_complete calls' (snd (perform c self))
  end.

(** The tables of the manager agree with each other: names and keys
    correspond one to one; every named key is below the counter, has UVs
    and a size and is a member of the group of its atlas; every group has
    its texture, lists its own key, lists no key twice, and its members are
    named keys that point back to it. *)
Definition consistent (self : TextureManager) : Prop :=
  (∀ name key,
     _keys self !! name = Some key ↔ _key_index self !! key = Some name)
  ∧ (∀ key, is_Some (_key_index self !! key) →
       key < _key_count self
       ∧ is_Some (_uvs self !! key)
       ∧ is_Some (_sizes self !! key)
       ∧ ∃ group_key members,
           _texkey_index self !! key = Some group_key
           ∧ _groups self !! group_key = Some members
           ∧ key ∈ members)
  ∧ (∀ group_key members, _groups self !! group_key = Some members →
       NoDup members
       ∧ group_key ∈ members
       ∧ is_Some (_textures self !! group_key)
       ∧ ∀ key, key ∈ members →
           _texkey_index self !! key = Some group_key
           ∧ is_Some (_key_index self !! key)).

(** The names the atlas at [source] registers are pairwise different and
    none of them is registered in [self]. *)
Definition atlas_names_new (source : string) (self : TextureManager) : Prop :=
  ∀ atlas_data, json_load source = Ok atlas_data →
    NoDup (atlas_names atlas_data)
    ∧ ∀ name, name ∈ atlas_names atlas_data → _keys self !! name = None.

(** Every [load_atlas] among the calls returns and brings only new names. *)
Fixpoint atlases_clean (calls : list call) (self : TextureManager) : Prop :=
  match calls with
  | [] => True
  | c :: calls' =>
      match c with
      | Load_atlas source =>
          fst (perform c self) = Ok tt ∧ atlas_names_new source self
      | _ => True
      end
      ∧ atlases_clean calls' (snd (perform c self))
  end.


(** The byte counts of the entries of a mapping handed to [allocate],
    added up. *)
Definition bytes_of (entries : list (string * (Z * Z))) : Z :=
  foldr (λ entry total, fst (snd entry) + snd (snd entry) + total) 0 entries.

Definition bytes_requested (formats_to_allocate : gmap string (Z * Z)) : Z :=
  bytes_of (map_to_list formats_to_allocate).

(** The pools [allocate] constructs for each format of [self], lines
    156-157: both of half the allocation size. *)
Definition half_pools (self : ModelManager) : BlockPair :=
  let block := {| size_in_bytes := allocation_size self / 2;
                  type_size := 1; master_index := 1 |} in
  {| indices_block := block; vertices_block := block |}.

(** The outcome claimed for every [load_textured_rectangle] with a
    texture name that is not registered: the call raises and leaves, under
    some name, a model that was not stored before the call and was never
    written to. *)
Definition leaves_new_model (models : ModelManager) (textures : TextureManager)
    (format_name : string) (width height : pyval)
    (texture_key name : string) (do_copy : bool) : Prop :=
  ∃ e models' textures' real model,
    load_textured_rectangle format_name width height texture_key name do_copy
      (models, textures)
    = (Raise e, (models', textures'))
    ∧ _models models !! real = None
    ∧ _models models' !! real = Some model
    ∧ vm_data model = Uninitialized.

(** Every name a model is stored under has a counter. *)
Definition models_counted (self : ModelManager) : Prop :=
  ∀ name, is_Some (_models self !! name) → is_Some (_key_counts self !! name).

(** No table of the manager has an entry under the value of the
    counter, the key the next registration takes. *)
Definition counter_free (self : TextureManager) : Prop :=
  _textures self !! _key_count self = None
  ∧ _key_index self !! _key_count self = None
  ∧ _texkey_index self !! _key_count self = None
  ∧ _sizes self !! _key_count self = None
  ∧ _uvs self !! _key_count self = None
  ∧ _groups self !! _key_count self = None.

End Statements.

(** ** A concrete Python: integers, IEEE 754 doubles and [None]

    The instance the examples are evaluated in.  Floats are the binary64
    numbers of [SpecFloat]; [<float>v] rounds to binary32 on the way. *)

Module Py.

Inductive value : Type :=
  | Int (z : Z)
  | Float (f : spec_float)
  | None_.

Definition prec : Z := 53.
Definition emax : Z := 1024.

(** [float(z)]: nearest double, [OverflowError] beyond the range. *)
Definition float_of_int (z : Z) : res spec_float :=
  match binary_normalize prec emax z 0 false with
  | S754_infinity _ => Raise OverflowError
  | f => Ok f
  end.

Definition to_float (v : value) : res spec_float :=
  match v with
  | Int z => float_of_int z
  | Float f => Ok f
  | None_ => Raise TypeError
  end.

(** A double rounded to single precision and widened again. *)
Definition round_to_single (f : spec_float) : spec_float :=
  match f with
  | S754_finite s m e =>
      match binary_normalize 24 128 (cond_Zopp s (Zpos m)) e s with
      | S754_finite s' m' e' =>
          binary_normalize prec emax (cond_Zopp s' (Zpos m')) e' s'
      | g => g
      end
  | g => g
  end.

Definition c_float (v : value) : res value :=
  match to_float v with
  | Ok f => Ok (Float (round_to_single f))
  | Raise e => Raise e
  end.

Definition float_op (op : spec_float → spec_float → spec_float)
    (a b : value) : res value :=
  match to_float a with
  | Ok x => match to_float b with
            | Ok y => Ok (Float (op x y))
            | Raise e => Raise e
            end
  | Raise e => Raise e
  end.

Definition add (a b : value) : res value :=
  match a, b with
  | Int x, Int y => Ok (Int (x + y))
  | None_, _ | _, None_ => Raise TypeError
  | _, _ => float_op (SFadd prec emax) a b
  end.

Definition sub (a b : value) : res value :=
  match a, b with
  | Int x, Int y => Ok (Int (x - y))
  | None_, _ | _, None_ => Raise TypeError
  | _, _ => float_op (SFsub prec emax) a b
  end.

Definition is_zero (v : value) : bool :=
  match v with
  | Int 0 | Float (S754_zero _) => true
  | _ => false
  end.

(** [a / b] for a float divisor [b]. *)
Definition div (a b : value) : res value :=
  match a, b with
  | None_, _ | _, None_ => Raise TypeError
  | _, _ => if is_zero b then Raise ZeroDivisionError
            else float_op (SFdiv prec emax) a b
  end.

#[export] Instance arith : PyArith := {|
  pyval := value;
  py_float0 := Float (S754_zero false);
  py_float1 := Float (binary_normalize prec emax 1 0 false);
  as_c_float := c_float;
  py_add := add;
  py_sub := sub;
  py_div := div;
|}.

End Py.

(** ** A small world to run the managers in *)

Module Demo.

#[local] Existing Instance Py.arith.

Fixpoint has_sep (p : string) : bool :=
  match p with
  | EmptyString => false
  | String c r => Ascii.eqb c (Ascii.ascii_of_nat 47) || has_sep r
  end.

Fixpoint basename (p : string) : string :=
  match p with
  | EmptyString => EmptyString
  | String c r => if has_sep p then basename r else p
  end.

Fixpoint dirname (p : string) : string :=
  match p with
  | EmptyString => EmptyString
  | String c r => if has_sep r then String c (dirname r) else EmptyString
  end.

Definition join (d f : string) : string :=
  if String.eqb d EmptyString then f else d +:+ "/" +:+ f.

Fixpoint has_dot (p : string) : bool :=
  match p with
  | EmptyString => false
  | String c r => Ascii.eqb c (Ascii.ascii_of_nat 46) || has_dot r
  end.

Fixpoint splitext_root (p : string) : string :=
  match p with
  | EmptyString => EmptyString
  | String c r => if has_dot p then
                    (if has_dot r then String c (splitext_root r) else EmptyString)
                  else p
  end.

Definition pixels (w h : Z) : pyval * pyval := (Py.Int w, Py.Int h).
Definition rect (x y w h : Z) : list pyval :=
  [Py.Int x; Py.Int y; Py.Int w; Py.Int h].

(** The image files: [sheet.png] and [tiles.png] are 100 by 100 pixels,
    [sprite.png] is 64 by 32. *)
Definition images (p : string) : res Texture :=
  if String.eqb p "sheet.png" then
    Ok {| tex_label := "sheet.png"; tex_size := pixels 100 100 |}
  else if String.eqb p "tiles.png" then
    Ok {| tex_label := "tiles.png"; tex_size := pixels 100 100 |}
  else if String.eqb p "sprite.png" then
    Ok {| tex_label := "sprite.png"; tex_size := pixels 64 32 |}
  else Raise IOError.

(** The atlas files.  [atlas.json] packs two sub-images into [sheet.png];
    [clash.json] names a sub-image of [tiles.png] like the stand-alone
    texture [sprite]; [broken.json] has a [null] where a width belongs. *)
Definition atlases (p : string) : res atlas_json :=
  if String.eqb p "atlas.json" then
    Ok [("sheet.png", [("a", rect 10 10 20 20); ("b", rect 40 0 8 8)])]
  else if String.eqb p "clash.json" then
    Ok [("tiles.png", [("sprite", rect 10 10 20 20)])]
  else if String.eqb p "broken.json" then
    Ok [("sheet.png", [("a", [Py.Int 0; Py.Int 0; Py.None_; Py.Int 1])])]
  else Raise IOError.

Definition formats : gmap string FormatConfig :=
  {[ "vertex_format_4f" := {| _name := "vertex_format_4f"; _size := 16 |} ]}.

Definition env : Externals := {|
  vertex_formats := formats;
  CoreImage_texture := images;
  path_basename := basename;
  path_dirname := dirname;
  path_join := join;
  path_splitext_root := splitext_root;
  json_load := atlases;
|}.
#[local] Existing Instance env.

(** A manager created with the default allocation size, after
    [allocate(buffer, {})]. *)
Definition allocated : ModelManager :=
  fst (snd (allocate ∅ (ModelManager_init (100 * 1024), []))).

(** The same manager once [load_model(F, 4, 6, "n")] has been called. *)
Definition with_n : ModelManager :=
  snd (load_model "vertex_format_4f" 4 6 "n" false allocated).

Definition sprite : Texture :=
  {| tex_label := "sprite.png"; tex_size := pixels 64 32 |}.

(** The texture manager after [load_atlas("atlas.json")]. *)
Definition with_atlas : TextureManager :=
  snd (load_atlas "atlas.json" TextureManager_init).

(** The texture manager after [load_texture("sprite", sprite)]. *)
Definition with_sprite : TextureManager :=
  snd (load_texture "sprite" sprite TextureManager_init).

(** The pools [allocate] reserves for a format of this manager. *)
Definition half_block : MemoryBlock :=
  {| size_in_bytes := 51200; type_size := 1; master_index := 1 |}.

Definition pools : BlockPair :=
  {| indices_block := half_block; vertices_block := half_block |}.

(** The manager with entities 1 and 2 registered under the model ["n"]. *)
Definition registered : ModelManager :=
  snd (register_entity_with_model 2 "renderer" "n"
         (snd (register_entity_with_model 1 "renderer" "n" with_n))).

(** A session in which every atlas loads; the second [load_image] raises
    on the name [sprite]. *)
Definition session : list call :=
  [Load_image "sprite.png"; Load_atlas "atlas.json";
   Unload_texture "sheet.png"; Load_image "sprite.png";
   Load_texture "hud" sprite].



(** The manager [with_n] once [load_model(F, 4, 6, "n_0")] has been
    called as well. *)
Definition with_n_0 : ModelManager :=
  snd (load_model "vertex_format_4f" 4 6 "n_0" false with_n).

(** A mapping for [allocate] that asks for 3000 bytes of vertex data and
    no index data. *)
Definition request : gmap string (Z * Z) :=
  {[ "vertex_format_4f" := (3000, 0) ]}.

(** The texture manager after [load_image("sprite.png")] and
    [load_atlas("atlas.json")], the first two calls of [session]. *)
Definition with_sprite_and_atlas : TextureManager :=
  snd (perform (Load_atlas "atlas.json")
         (snd (perform (Load_image "sprite.png") TextureManager_init))).

(** A second world with the same image files, whose only atlas,
    [gallery.json], packs [sheet.png] and an image that is missing. *)
Definition gallery_atlases (p : string) : res atlas_json :=
  if String.eqb p "gallery.json" then
    Ok [("sheet.png", [("a", rect 10 10 20 20)]);
        ("lost.png", [("c", rect 0 0 1 1)])]
  else Raise IOError.

Definition gallery : Externals := {|
  vertex_formats := formats;
  CoreImage_texture := images;
  path_basename := basename;
  path_dirname := dirname;
  path_join := join;
  path_splitext_root := splitext_root;
  json_load := gallery_atlases;
|}.

End Demo.

(** * Properties *)

Ltac unfold_monad :=
  unfold bind, get, modify, lift, ret, raise, getitem in *.

Section ModelManagerProperties.
Context {arith : PyArith} {ext : Externals}.

Lemma registration_insert (self : ModelManager) m bucket m' e' :
  registration (set_model_register <[m := bucket]> self) m' e'
  = if decide (m = m') then bucket !! e' else registration self m' e'.
Proof.
  unfold registration; simpl. rewrite lookup_insert.
  by destruct (decide (m = m')).
Qed.

(** C9: [unregister_entity_with_model(entity_id, model_name)] removes
    exactly the entry of that entity under that model name and raises
    [KeyError], changing nothing, when there is no such entry; every
    other registration, in particular that of another entity under the
    same model name, is kept and can still be unregistered. *)
Theorem unregister_entity_with_model_exact (self : ModelManager)
    (entity_id : N) (model_name : string) :
  match registration self model_name entity_id with
  | Some _ =>
      ∃ self',
        unregister_entity_with_model entity_id model_name self = (Ok tt, self')
        ∧ registration self' model_name entity_id = None
        ∧ (∀ m e, (m, e) ≠ (model_name, entity_id) →
             registration self' m e = registration self m e)
        ∧ (∀ e, e ≠ entity_id → is_Some (registration self model_name e) →
             ∃ self'', unregister_entity_with_model e model_name self'
                       = (Ok tt, self''))
        ∧ _models self' = _models self
        ∧ _key_counts self' = _key_counts self
        ∧ memory_blocks self' = memory_blocks self
  | None =>
      unregister_entity_with_model entity_id model_name self
      = (Raise KeyError, self)
  end.
Proof.
  unfold unregister_entity_with_model. unfold_monad.
  destruct (registration self model_name entity_id) as [sys|] eqn:Hreg;
    unfold registration in Hreg;
    destruct (_model_register self !! model_name) as [bucket|] eqn:Hb;
    simpl in *; try done.
  - rewrite Hreg.
    eexists; split; [done|].
    split; [|split; [|split]].
    + rewrite registration_insert, decide_True by done. apply lookup_delete_eq.
    + intros m e Hne. rewrite registration_insert.
      destruct (decide (model_name = m)) as [<-|]; [|done].
      unfold registration. rewrite Hb. simpl.
      apply lookup_delete_ne. congruence.
    + intros e Hne [sys' Hsys]. unfold registration in Hsys.
      rewrite Hb in Hsys; simpl in Hsys.
      simpl. rewrite lookup_insert_eq.
      rewrite lookup_delete_ne, Hsys by done. eauto.
    + done.
  - by rewrite Hreg.
Qed.

(** *** The three branches of [load_model] *)

Lemma load_model_unseen (self : ModelManager) F v i n do_copy fc blocks :
  vertex_formats !! F = Some fc →
  memory_blocks self !! F = Some blocks →
  _key_counts self !! n = None →
  load_model F v i n do_copy self
  = (Ok n,
     set_models
       <[n := new_VertexModel v i fc (indices_block blocks)
                (vertices_block blocks) n]>
       (set_key_counts <[n := 0]> self)).
Proof.
  intros Hfc Hblocks Hn. unfold load_model. unfold_monad.
  rewrite Hfc, Hn. simpl. by rewrite Hblocks.
Qed.

Lemma load_model_seen (self : ModelManager) F v i n :
  is_Some (vertex_formats !! F) →
  is_Some (_key_counts self !! n) →
  load_model F v i n false self = (Ok n, self).
Proof.
  intros [fc Hfc] [c Hn]. unfold load_model. unfold_monad.
  by rewrite Hfc, Hn.
Qed.

Lemma load_model_copy (self : ModelManager) F v i n fc c :
  vertex_formats !! F = Some fc →
  _key_counts self !! n = Some c →
  load_model F v i n true self
  = let derived := n +:+ "_" +:+ str c in
    match _key_counts self !! derived with
    | None => (Raise KeyError, self)
    | Some old =>
        let self' := set_key_counts <[derived := old + 1]> self in
        match memory_blocks self !! F with
        | None => (Raise KeyError, self')
        | Some blocks =>
            (Ok derived,
             set_models
               <[derived := new_VertexModel v i fc (indices_block blocks)
                              (vertices_block blocks) derived]> self')
        end
    end.
Proof.
  intros Hfc Hn. unfold load_model. unfold_monad.
  rewrite Hfc, Hn. simpl.
  destruct (_key_counts self !! (n +:+ "_" +:+ str c)); simpl; [|done].
  by destruct (memory_blocks self !! F).
Qed.

(** A load that returns leaves a counter entry for the requested name and
    was given a registered format. *)
Lemma load_model_returned (self self' : ModelManager) F v i n do_copy r :
  load_model F v i n do_copy self = (Ok r, self') →
  is_Some (vertex_formats !! F) ∧ is_Some (_key_counts self' !! n).
Proof.
  unfold load_model. unfold_monad. intros Hrun.
  destruct (vertex_formats !! F) as [fc|]; [|done]. split; [done|].
  destruct (_key_counts self !! n) as [c|] eqn:Hn; simpl in Hrun.
  - destruct do_copy; simpl in Hrun.
    + destruct (_key_counts self !! (n +:+ "_" +:+ str c)) as [old|];
        simpl in Hrun; [|done].
      destruct (memory_blocks self !! F); simplify_eq/=.
      rewrite lookup_insert. case_decide; eauto.
    + simplify_eq. eauto.
  - destruct (memory_blocks self !! F); simplify_eq/=.
    rewrite lookup_insert_eq. eauto.
Qed.

Lemma append_suffix_ne (n suffix : string) :
  suffix ≠ EmptyString → n +:+ suffix ≠ n.
Proof.
  intros Hs. induction n as [|c n IH]; simpl; [done|].
  intros Heq. apply IH. by injection Heq.
Qed.

Lemma append_inv_head (n a b : string) : n +:+ a = n +:+ b → a = b.
Proof.
  induction n as [|c n IH]; simpl; [done|]. intros Heq. apply IH.
  by injection Heq.
Qed.

(** What a copying load that returns has done: the name was new and is
    returned as it is, or it had the counter [c] and the derived name is
    returned, the counter of the name itself staying at [c]. *)
Lemma load_model_copy_returned (self self' : ModelManager) F v i n r :
  load_model F v i n true self = (Ok r, self') →
  (_key_counts self !! n = None ∧ r = n)
  ∨ ∃ c, _key_counts self !! n = Some c
         ∧ r = n +:+ "_" +:+ str c
         ∧ _key_counts self' !! n = Some c.
Proof.
  intros Hrun.
  destruct (load_model_returned _ _ _ _ _ _ _ _ Hrun) as [[fc Hfc] _].
  destruct (_key_counts self !! n) as [c|] eqn:Hn.
  - right. exists c. split; [done|].
    rewrite (load_model_copy _ _ _ _ _ _ _ Hfc Hn) in Hrun. simpl in Hrun.
    destruct (_key_counts self !! (n +:+ "_" +:+ str c)); [|done].
    destruct (memory_blocks self !! F); [|done].
    injection Hrun as <- <-. split; [done|]. simpl.
    rewrite lookup_insert_ne; [done|]. by apply append_suffix_ne.
  - left. split; [done|].
    revert Hrun. unfold load_model. unfold_monad. rewrite Hfc, Hn. simpl.
    destruct (memory_blocks self !! F); simpl; congruence.
Qed.

(** No manager at all does what C1 states: a first copy named [n_0] leaves
    the counter of [n] where it was, so a second copy that returns is
    named [n_0] again. *)
Lemma copies_never_named_0_and_1 (self : ModelManager) F v i n :
  ¬ copies_named_0_and_1 self F v i n.
Proof.
  intros (self1 & self2 & Hfirst & Hsecond & _).
  apply load_model_copy_returned in Hfirst as [[_ Hname]|(c & _ & Hname & Hc)].
  - exact (append_suffix_ne n "_0" ltac:(done) Hname).
  - apply load_model_copy_returned in Hsecond
      as [[Hnone _]|(c' & Hc' & Hname' & _)]; [congruence|].
    assert (c' = c) as -> by congruence.
    rewrite <- Hname in Hname'. by apply append_inv_head in Hname'.
Qed.

(** C5: a second [load_model] of the same name without [do_copy] returns
    that name again and changes nothing in the manager: no second model
    is created. *)
Theorem load_model_again_shares (self self1 : ModelManager)
    (F : string) (v i v' i' : N) (n r : string) :
  load_model F v i n false self = (Ok r, self1) →
  r = n ∧ load_model F v' i' n false self1 = (Ok n, self1).
Proof.
  intros Hfirst.
  destruct (load_model_returned _ _ _ _ _ _ _ _ Hfirst) as [Hfc Hseen].
  split; [|by apply load_model_seen].
  revert Hfirst. unfold load_model. unfold_monad.
  destruct Hfc as [fc ->].
  destruct (_key_counts self !! n); simpl; [congruence|].
  destruct (memory_blocks self !! F); simpl; congruence.
Qed.

(** C1 (amended): for a registered and allocated format, the first
    copying load of a name without a counter entry returns that very name
    and stores a fresh model under it; a second copying load that returns
    gives the derived name [n_0], which differs from [n], and both names
    then hold a model. *)
Theorem load_model_copy_twice (self : ModelManager) (F : string)
    (v i : N) (n : string) (fc : FormatConfig) (blocks : BlockPair) :
  vertex_formats !! F = Some fc →
  memory_blocks self !! F = Some blocks →
  _key_counts self !! n = None →
  ∃ self1,
    load_model F v i n true self = (Ok n, self1)
    ∧ _models self1 !! n
      = Some (new_VertexModel v i fc (indices_block blocks)
                (vertices_block blocks) n)
    ∧ _key_counts self1 !! n = Some 0
    ∧ ∀ r self2,
        load_model F v i n true self1 = (Ok r, self2) →
        r = n +:+ "_0" ∧ r ≠ n
        ∧ _models self2 !! n = _models self1 !! n
        ∧ _models self2 !! r
          = Some (new_VertexModel v i fc (indices_block blocks)
                    (vertices_block blocks) r).
Proof.
  intros Hfc Hblocks Hn.
  eexists. split; [by apply load_model_unseen|].
  simpl. rewrite !lookup_insert_eq. do 2 (split; [done|]).
  intros r self2.
  erewrite load_model_copy; [|done|by simpl; rewrite lookup_insert_eq].
  assert (n +:+ "_0" ≠ n) as Hne by by apply append_suffix_ne.
  simpl. rewrite Hblocks.
  destruct (<[n:=0]> (_key_counts self) !! _); [|done].
  intros [= <- <-]. simpl.
  change (n +:+ "_" +:+ "0") with (n +:+ "_0").
  repeat split; [done| |apply lookup_insert_eq].
  rewrite lookup_insert_ne by done. apply lookup_insert_eq.
Qed.

(** C6: [copy_model(n)] on a model that was loaded under [n] and never
    copied raises [KeyError] and copies nothing: the counter that
    [load_model] increments belongs to the derived name, which has none. *)
Theorem copy_model_raises (self : ModelManager) (n : string)
    (model : VertexModel) (c : Z) :
  _models self !! n = Some model →
  is_Some (vertex_formats !! _name (_format_config model)) →
  _key_counts self !! n = Some c →
  _key_counts self !! (n +:+ "_" +:+ str c) = None →
  copy_model n None self = (Raise KeyError, self).
Proof.
  intros Hmodel [fc Hfc] Hn Hderived.
  unfold copy_model. unfold bind at 1 2. unfold get at 1, lift at 1, getitem at 1.
  rewrite Hmodel. unfold bind at 1.
  rewrite (load_model_copy _ _ _ _ _ _ _ Hfc Hn). simpl.
  by rewrite Hderived.
Qed.

(** Copying to an explicit name that was never seen works as documented:
    the copy has the counts, format and contents of the source, which
    stays as it was. *)
Lemma copy_model_to_unseen_name (self : ModelManager) (n target : string)
    (model : VertexModel) (fc : FormatConfig) (blocks : BlockPair) :
  _models self !! n = Some model →
  vertex_formats !! _name (_format_config model) = Some fc →
  memory_blocks self !! _name (_format_config model) = Some blocks →
  _key_counts self !! target = None →
  n ≠ target →
  ∃ self' copy,
    copy_model n (Some target) self = (Ok target, self')
    ∧ _models self' !! target = Some copy
    ∧ _vertex_count copy = _vertex_count model
    ∧ _index_count copy = _index_count model
    ∧ _format_config copy = fc
    ∧ vm_data copy = vm_data model
    ∧ _models self' !! n = Some model.
Proof.
  intros Hmodel Hfc Hblocks Htarget Hne.
  unfold copy_model. unfold bind at 1 2. unfold get at 1, lift at 1, getitem at 1.
  rewrite Hmodel. unfold bind at 1.
  rewrite (load_model_unseen _ _ _ _ _ _ _ _ Hfc Hblocks Htarget).
  unfold_monad. simpl. rewrite lookup_insert_eq. simpl.
  eexists _, _. split; [done|]. simpl.
  rewrite lookup_insert_eq, !lookup_insert_ne by done. done.
Qed.

(** C2: whatever byte counts a format is given in the mapping, both of
    its pools are constructed with half of [allocation_size] and reserve
    that much from the buffer, while the value returned is the sum of the
    byte counts of the mapping. *)
Theorem allocate_pools_ignore_mapping (self : ModelManager)
    (master_buffer : Buffer) (F : string) (vertex_size index_size : Z)
    (fc : FormatConfig) :
  vertex_formats !! F = Some fc →
  _size fc ≠ 0 →
  0 ≤ vertex_size + index_size < 2 ^ 32 →
  let half := (allocation_size self / 2)%N in
  let block :=
    {| size_in_bytes := half; type_size := 1; master_index := 1 |} in
  allocate {[F := (vertex_size, index_size)]} (self, master_buffer)
  = (Ok (vertex_size + index_size),
     (set_memory_blocks
        <[F := {| indices_block := block; vertices_block := block |}]> self,
      (master_buffer ++ [half]) ++ [half])).
Proof.
  intros Hfc Hsize Hrange half block. unfold allocate.
  unfold bind at 1. unfold get at 1. simpl.
  rewrite decide_False by apply insert_non_empty.
  rewrite map_to_list_singleton. simpl.
  unfold_monad. rewrite Hfc. simpl.
  rewrite decide_True by done.
  unfold log_reserved. by rewrite decide_False.
Qed.

End ModelManagerProperties.

Section TextureManagerProperties.
Context {arith : PyArith} {ext : Externals}.

(** *** Loops *)

Lemma for_each_cons {S A} (x : A) (l : list A) (body : A → M S unit) (s : S) :
  for_each (x :: l) body s
  = match body x s with
    | (Ok _, s') => for_each l body s'
    | (Raise e, s') => (Raise e, s')
    end.
Proof. done. Qed.


(** An invariant every returning iteration maintains holds after a loop
    that returns. *)
Lemma for_each_returns_inv {S A} (I : S → Prop) (l : list A)
    (body : A → M S unit) :
  (∀ x s s', I s → body x s = (Ok tt, s') → I s') →
  ∀ s s', I s → for_each l body s = (Ok tt, s') → I s'.
Proof.
  intros Hbody. induction l as [|x l IH]; intros s s' HI.
  - by intros [= <-].
  - rewrite for_each_cons.
    destruct (body x s) as [[[]|e] s1] eqn:Hx; [|done].
    intros Hrest. eapply IH; [|done]. by eapply Hbody.
Qed.

(** *** Unloading *)

Lemma unload_texture_member_recorded (self : TextureManager) key name :
  _key_index self !! key = Some name →
  is_Some (_keys self !! name) →
  is_Some (_uvs self !! key) →
  is_Some (_texkey_index self !! key) →
  is_Some (_sizes self !! key) →
  unload_texture_member key self = (Ok tt, forget key name self).
Proof.
  intros Hname [? Hk] [? Hu] [? Ht] [? Hs].
  unfold unload_texture_member, delitem. unfold_monad.
  rewrite Hname; simpl. rewrite Hu; simpl. rewrite Ht; simpl.
  rewrite Hk; simpl. by rewrite Hs.
Qed.

Lemma unload_members_recorded (members : list Z) :
  ∀ self : TextureManager,
    NoDup members →
    (∀ key, key ∈ members →
       ∃ name, _key_index self !! key = Some name
               ∧ is_Some (_keys self !! name)
               ∧ is_Some (_uvs self !! key)
               ∧ is_Some (_texkey_index self !! key)
               ∧ is_Some (_sizes self !! key)) →
    (∀ key1 key2 name, key1 ∈ members → key2 ∈ members →
       _key_index self !! key1 = Some name →
       _key_index self !! key2 = Some name → key1 = key2) →
    ∃ self',
      for_each members unload_texture_member self = (Ok tt, self')
      ∧ _groups self' = _groups self
      ∧ _textures self' = _textures self
      ∧ _key_index self' ⊆ _key_index self
      ∧ _keys self' ⊆ _keys self
      ∧ _uvs self' ⊆ _uvs self
      ∧ _texkey_index self' ⊆ _texkey_index self
      ∧ _sizes self' ⊆ _sizes self
      ∧ ∀ key name, key ∈ members → _key_index self !! key = Some name →
          texkey_forgotten self' key ∧ _keys self' !! name = None.
Proof.
  induction members as [|key members IH]; intros self Hnodup Hrec Hinj.
  - exists self. do 3 (split; [done|]). do 5 (split; [reflexivity|]).
    intros ?? Hin. by apply elem_of_nil in Hin.
  - apply NoDup_cons in Hnodup as [Hkey Hnodup].
    destruct (Hrec key) as (name & Hname & Hk & Hu & Ht & Hs);
      [by left|].
    rewrite for_each_cons.
    rewrite (unload_texture_member_recorded _ _ _ Hname Hk Hu Ht Hs).
    assert (∀ key', key' ∈ members → key' ≠ key) as Hother
      by (intros key' Hin ->; done).
    assert (∀ key' name', key' ∈ members →
              _key_index self !! key' = Some name' → name' ≠ name)
      as Hother_name.
    { intros key' name' Hin Hname' ->.
      apply (Hother key' Hin).
      by apply (Hinj key' key name); [right|left|..]. }
    destruct (IH (forget key name self) Hnodup)
      as (self' & Hrun & Hg & Htex & Hki & Hks & Huv & Hti & Hsz & Hgone).
    { intros key' Hin.
      destruct (Hrec key') as (name' & Hname' & Hk' & Hu' & Ht' & Hs');
        [by right|].
      exists name'. simpl.
      rewrite !lookup_delete_ne
        by (first [by apply not_eq_sym, Hother
                  |by apply not_eq_sym, (Hother_name key')]).
      done. }
    { intros key1 key2 name' Hin1 Hin2. simpl.
      rewrite !lookup_delete_ne by (by apply not_eq_sym, Hother).
      apply Hinj; by right. }
    exists self'. split; [done|]. simpl in *.
    split; [done|]. split; [done|].
    split; [etrans; [done|apply delete_subseteq]|].
    split; [etrans; [done|apply delete_subseteq]|].
    split; [etrans; [done|apply delete_subseteq]|].
    split; [etrans; [done|apply delete_subseteq]|].
    split; [etrans; [done|apply delete_subseteq]|].
    intros key' name' Hin Hname'.
    apply elem_of_cons in Hin as [->|Hin].
    + assert (name' = name) as -> by congruence.
      unfold texkey_forgotten.
      repeat split;
        (eapply lookup_weaken_None; [|done]); apply lookup_delete_eq.
    + apply Hgone; [done|].
      rewrite lookup_delete_ne by (by apply not_eq_sym, Hother). done.
Qed.

Lemma unload_texture_anchor_run (self self1 : TextureManager) name key
    members :
  _keys self !! name = Some key →
  _groups self !! key = Some members →
  is_Some (_textures self !! key) →
  for_each members unload_texture_member self = (Ok tt, self1) →
  _groups self1 = _groups self →
  _textures self1 = _textures self →
  unload_texture name self
  = (Ok tt, set_textures (delete key) (set_groups (delete key) self1)).
Proof.
  intros Hkey Hgroup [texture Htex] Hrun Hg Ht.
  unfold unload_texture, delitem.
  unfold bind at 1. unfold get at 1. rewrite Hkey.
  unfold bind at 1. unfold lift at 1, getitem at 1. rewrite Hgroup.
  unfold bind at 1. rewrite Hrun.
  unfold_monad. rewrite Hg, Hgroup. simpl. by rewrite Ht, Htex.
Qed.

Lemma unload_texture_recorded_group (self : TextureManager) name key members :
  _keys self !! name = Some key →
  _groups self !! key = Some members →
  group_recorded self key members →
  unloads_group self name.
Proof.
  intros Hkey Hgroup (Hnodup & Hin & Htex & Hrec & Hinj).
  destruct (unload_members_recorded members self Hnodup Hrec Hinj)
    as (self1 & Hrun & Hg & Ht & Hki & Hks & Huv & Hti & Hsz & Hgone).
  exists key, key, members.
  exists (set_textures (delete key) (set_groups (delete key) self1)).
  do 3 (split; [done|]).
  split; [by eapply unload_texture_anchor_run|].
  split; [apply lookup_delete_eq|].
  intros member member_name Hmember Hname.
  destruct (Hgone member member_name Hmember Hname) as [Hforgot Hnone].
  split; [done|]. split; [done|].
  unfold get_texkey_from_name. unfold_monad. simpl. by rewrite Hnone.
Qed.

(** C3 (amended): [unload_texture(name)] raises [KeyError] and changes
    nothing when [name] is not registered; when [name] is the name of a
    group's anchor, with the group recorded as the loaders record it, the
    call returns and has removed the group entry and every member of the
    group, from all tables and by name; when [name] is registered but its
    key owns no group, as for a sub-texture of an atlas, the call raises
    [KeyError] and changes nothing. *)
Theorem unload_texture_by_anchor (self : TextureManager) (name : string) :
  match _keys self !! name with
  | None => unload_texture name self = (Raise KeyError, self)
  | Some key =>
      match _groups self !! key with
      | None => unload_texture name self = (Raise KeyError, self)
      | Some members =>
          group_recorded self key members → unloads_group self name
      end
  end.
Proof.
  destruct (_keys self !! name) as [key|] eqn:Hkey;
    [|by unfold unload_texture; unfold_monad; rewrite Hkey].
  destruct (_groups self !! key) as [members|] eqn:Hgroup;
    [|by unfold unload_texture; unfold_monad; rewrite Hkey; simpl;
         rewrite Hgroup].
  by apply unload_texture_recorded_group.
Qed.

(** *** Loading an atlas *)

Ltac split_arith H :=
  repeat match type of H with
         | context [match ?r with Ok _ => _ | Raise _ => _ end] =>
             destruct r eqn:?; simpl in H; try discriminate H
         end.

Lemma load_texture_unseen (self : TextureManager) name texture :
  _keys self !! name = None →
  load_texture name texture self
  = (Ok (_key_count self), with_texture name texture self).
Proof.
  intros Hname. unfold load_texture. unfold_monad.
  rewrite decide_False; [done|]. rewrite Hname. by intros [].
Qed.

Lemma load_atlas_entry_defined (self : TextureManager) atlas_key W H
    key x y w h uvs :
  uv_rectangle W H x y w h = Ok uvs →
  load_atlas_entry atlas_key W H (key, [x; y; w; h]) self
  = (Ok tt, with_entry atlas_key key w h uvs self).
Proof.
  unfold uv_rectangle, mbind, res_bind, mret, res_ret. intros Huv.
  split_arith Huv. injection Huv as <-.
  unfold load_atlas_entry. unfold_monad. simpl.
  repeat match goal with
         | E : ?lhs = Ok _ |- context [?lhs] => rewrite E; simpl
         end.
  done.
Qed.

Lemma with_entry_recorded (self : TextureManager) atlas_key key w h uvs :
  recorded (with_entry atlas_key key w h uvs self) key (w, h) uvs.
Proof.
  exists (_key_count self). simpl. rewrite !lookup_insert_eq.
  repeat split; lia.
Qed.

Lemma with_entry_frame (self : TextureManager) atlas_key key w h uvs
    name size uvs' :
  name ≠ key →
  recorded self name size uvs' →
  recorded (with_entry atlas_key key w h uvs self) name size uvs'.
Proof.
  intros Hne (texkey & Hk & Hs & Hu & Hlt). exists texkey. simpl.
  rewrite !lookup_insert_ne by (done || lia).
  repeat split; (done || lia).
Qed.

Lemma with_texture_frame (self : TextureManager) anchor texture
    name size uvs :
  name ≠ anchor →
  recorded self name size uvs →
  recorded (with_texture anchor texture self) name size uvs.
Proof.
  intros Hne (texkey & Hk & Hs & Hu & Hlt). exists texkey. simpl.
  rewrite !lookup_insert_ne by (done || lia).
  repeat split; (done || lia).
Qed.

Lemma load_atlas_entries_recorded atlas_key W H
    (atlas_content : list (string * list pyval)) :
  ∀ self : TextureManager,
    NoDup (map fst atlas_content) →
    (∀ key rect, (key, rect) ∈ atlas_content →
       ∃ x y w h uvs, rect = [x; y; w; h] ∧ uv_rectangle W H x y w h = Ok uvs) →
    ∃ self',
      for_each atlas_content (load_atlas_entry atlas_key W H) self = (Ok tt, self')
      ∧ (∀ key x y w h, (key, [x; y; w; h]) ∈ atlas_content →
           ∃ uvs, uv_rectangle W H x y w h = Ok uvs
                  ∧ recorded self' key (w, h) uvs)
      ∧ (∀ name size uvs, name ∉ map fst atlas_content →
           recorded self name size uvs → recorded self' name size uvs)
      ∧ (∀ name, is_Some (_keys self' !! name) →
           name ∈ map fst atlas_content ∨ is_Some (_keys self !! name)).
Proof.
  induction atlas_content as [|[key rect] rest IH]; intros self Hnodup Hok.
  - exists self. split; [done|]. split; [|by auto].
    intros ????? Hin. by apply elem_of_nil in Hin.
  - simpl in Hnodup. apply NoDup_cons in Hnodup as [Hkey Hnodup].
    destruct (Hok key rect) as (x & y & w & h & uvs & -> & Huv); [by left|].
    destruct (IH (with_entry atlas_key key w h uvs self) Hnodup)
      as (self' & Hrun & Hnew & Hframe & Hdom).
    { intros key' rect' Hin. apply (Hok key'). by right. }
    exists self'. split.
    { rewrite for_each_cons.
      by rewrite (load_atlas_entry_defined _ _ _ _ _ _ _ _ _ _ Huv). }
    split; [|split].
    + intros key' x' y' w' h' Hin.
      apply elem_of_cons in Hin as [[= -> -> -> -> ->]|Hin]; [|by apply Hnew].
      exists uvs. split; [done|].
      apply Hframe; [done|]. apply with_entry_recorded.
    + intros name size uvs' Hname Hrec. simpl in Hname.
      apply not_elem_of_cons in Hname as [Hne Hname].
      apply Hframe; [done|]. by apply with_entry_frame.
    + intros name Hsome. simpl.
      destruct (Hdom name Hsome) as [Hin|Hin]; [left; by right|].
      simpl in Hin. rewrite lookup_insert in Hin.
      case_decide; [subst; left; left|by right].
Qed.

Lemma load_atlas_image_loadable (self : TextureManager) dirname imgname
    atlas_content texture W H :
  CoreImage_texture (path_join dirname imgname) = Ok texture →
  as_c_float (fst (tex_size texture)) = Ok W →
  as_c_float (snd (tex_size texture)) = Ok H →
  _keys self !! path_basename imgname = None →
  load_atlas_image dirname (imgname, atlas_content) self
  = for_each atlas_content (load_atlas_entry (_key_count self) W H)
      (with_texture (path_basename imgname) texture self).
Proof.
  intros Himg HW HH Hname. unfold load_atlas_image.
  unfold bind at 1, lift at 1. rewrite Himg.
  unfold bind at 1, lift at 1. rewrite HW.
  unfold bind at 1, lift at 1. rewrite HH.
  unfold bind at 1. rewrite (load_texture_unseen _ _ _ Hname).
  unfold_monad. simpl. by rewrite lookup_insert_eq.
Qed.

Lemma load_atlas_images_recorded dirname (atlas_data : atlas_json) :
  ∀ self : TextureManager,
    NoDup (atlas_names atlas_data) →
    (∀ item, item ∈ atlas_data →
       image_loadable dirname item
       ∧ _keys self !! path_basename (fst item) = None) →
    ∃ self',
      for_each atlas_data (load_atlas_image dirname) self = (Ok tt, self')
      ∧ (∀ imgname atlas_content texture W H key x y w h,
           (imgname, atlas_content) ∈ atlas_data →
           CoreImage_texture (path_join dirname imgname) = Ok texture →
           as_c_float (fst (tex_size texture)) = Ok W →
           as_c_float (snd (tex_size texture)) = Ok H →
           (key, [x; y; w; h]) ∈ atlas_content →
           ∃ uvs, uv_rectangle W H x y w h = Ok uvs
                  ∧ recorded self' key (w, h) uvs)
      ∧ (∀ name size uvs, name ∉ atlas_names atlas_data →
           recorded self name size uvs → recorded self' name size uvs)
      ∧ (∀ name, is_Some (_keys self' !! name) →
           name ∈ atlas_names atlas_data ∨ is_Some (_keys self !! name)).
Proof.
  induction atlas_data as [|[imgname atlas_content] rest IH];
    intros self Hnodup Hok.
  - exists self. split; [done|]. split; [|by auto].
    intros ?????????? Hin. by apply elem_of_nil in Hin.
  - change (atlas_names ((imgname, atlas_content) :: rest))
      with (path_basename imgname
            :: (map fst atlas_content ++ atlas_names rest)) in *.
    apply NoDup_cons in Hnodup as [Hanchor Hnodup].
    apply NoDup_app in Hnodup as (Hsubs & Hdisjoint & Hrest).
    apply not_elem_of_app in Hanchor as [Hanchor_subs Hanchor_rest].
    destruct (Hok (imgname, atlas_content)) as
      [(texture & W & H & Himg & HW & HH & Hrects) Hfresh]; [by left|].
    simpl in Himg, Hrects, Hfresh.
    destruct (load_atlas_entries_recorded (_key_count self) W H atlas_content
                (with_texture (path_basename imgname) texture self)
                Hsubs Hrects)
      as (self1 & Hrun1 & Hnew1 & Hframe1 & Hdom1).
    destruct (IH self1 Hrest) as (self' & Hrun & Hnew & Hframe & Hdom).
    { intros item Hin. split; [apply Hok; by right|].
      destruct (_keys self1 !! path_basename (fst item)) eqn:Hk; [|done].
      exfalso.
      assert (path_basename (fst item) ∈ atlas_names rest) as Hin_rest.
      { unfold atlas_names. apply list_elem_of_In, in_flat_map.
        exists item. split; [by apply list_elem_of_In|by left]. }
      destruct (Hdom1 (path_basename (fst item))) as [Hin1|Hin1]; [by eauto|..].
      - by apply (Hdisjoint _ Hin1).
      - simpl in Hin1. rewrite lookup_insert in Hin1. case_decide.
        + apply Hanchor_rest. congruence.
        + destruct (Hok item) as [_ Hnone]; [by right|].
          rewrite Hnone in Hin1. by destruct Hin1. }
    exists self'. split.
    { rewrite for_each_cons.
      rewrite (load_atlas_image_loadable _ _ _ _ _ _ _ Himg HW HH Hfresh).
      by rewrite Hrun1. }
    split; [|split].
    + intros imgname' content' texture' W' H' key x y w h Hin Himg' HW' HH' Hentry.
      apply elem_of_cons in Hin as [[= -> ->]|Hin];
        [|by eapply Hnew].
      assert (texture' = texture) as -> by congruence.
      assert (W' = W) as -> by congruence.
      assert (H' = H) as -> by congruence.
      destruct (Hnew1 key x y w h Hentry) as (uvs & Huv & Hrec).
      exists uvs. split; [done|]. apply Hframe; [|done].
      intros Hin_rest. apply (Hdisjoint key); [|done].
      apply list_elem_of_In.
      apply (in_map fst _ (key, [x; y; w; h])). by apply list_elem_of_In.
    + intros name size uvs Hname Hrec.
      apply not_elem_of_cons in Hname as [Hne Hname].
      apply not_elem_of_app in Hname as [Hname_subs Hname_rest].
      apply Hframe; [done|]. apply Hframe1; [done|].
      by apply with_texture_frame.
    + intros name Hsome.
      destruct (Hdom name Hsome) as [Hin|Hin];
        [left; right; apply elem_of_app; by right|].
      destruct (Hdom1 name Hin) as [Hin1|Hin1];
        [left; right; apply elem_of_app; by left|].
      simpl in Hin1. rewrite lookup_insert in Hin1.
      case_decide; [subst; left; left|by right].
Qed.

(** An atlas whose names are all different, whose anchors are new and
    whose images and rectangles are in order loads, and each of its
    sub-images then resolves by name to its size and UV rectangle. *)
Lemma load_atlas_returns (self : TextureManager) (source : string)
    (atlas_data : atlas_json) :
  json_load source = Ok atlas_data →
  NoDup (atlas_names atlas_data) →
  (∀ item, item ∈ atlas_data →
     image_loadable (path_dirname source) item
     ∧ _keys self !! path_basename (fst item) = None) →
  ∃ self',
    load_atlas source self = (Ok tt, self')
    ∧ ∀ imgname atlas_content texture W H key x y w h,
        (imgname, atlas_content) ∈ atlas_data →
        CoreImage_texture (path_join (path_dirname source) imgname)
        = Ok texture →
        as_c_float (fst (tex_size texture)) = Ok W →
        as_c_float (snd (tex_size texture)) = Ok H →
        (key, [x; y; w; h]) ∈ atlas_content →
        ∃ texkey uvs,
          get_texkey_from_name key self' = (Ok texkey, self')
          ∧ get_size texkey self' = (Ok (w, h), self')
          ∧ uv_rectangle W H x y w h = Ok uvs
          ∧ get_uvs texkey self' = (Ok uvs, self').
Proof.
  intros Hjson Hnodup Hok.
  destruct (load_atlas_images_recorded (path_dirname source) atlas_data
              self Hnodup Hok) as (self' & Hrun & Hnew & _).
  exists self'. split.
  { unfold load_atlas. unfold bind at 1, lift at 1. by rewrite Hjson. }
  intros imgname atlas_content texture W H key x y w h Hin Himg HW HH Hentry.
  destruct (Hnew _ _ _ _ _ _ _ _ _ _ Hin Himg HW HH Hentry)
    as (uvs & Huv & texkey & Hkey & Hsize & Huvs & _).
  exists texkey, uvs.
  unfold get_texkey_from_name, get_size, get_uvs. unfold_monad.
  by rewrite Hkey, Hsize, Huvs.
Qed.

(** *** The key counter *)

#[local] Instance grows_refl : Reflexive grows.
Proof. intros s. split; [lia|auto]. Qed.

#[local] Instance grows_trans : Transitive grows.
Proof.
  intros s1 s2 s3 [Hc12 Hk12] [Hc23 Hk23]. split; [lia|].
  intros name key Hkey.
  destruct (Hk23 name key Hkey) as [Hkey2|]; [|right; lia].
  destruct (Hk12 name key Hkey2); [by left|right; lia].
Qed.

#[local] Instance shrinks_refl : Reflexive shrinks.
Proof. by intros s. Qed.

#[local] Instance shrinks_trans : Transitive shrinks.
Proof.
  intros s1 s2 s3 [Hc12 Hk12] [Hc23 Hk23].
  split; [congruence|by etrans].
Qed.




Lemma with_texture_below (s : TextureManager) name texture :
  below s → below (with_texture name texture s).
Proof.
  intros [Hpos Hbelow]. split; simpl; [lia|]. intros name' key.
  rewrite lookup_insert. case_decide; [intros [= <-]; lia|].
  intros Hkey. specialize (Hbelow _ _ Hkey). lia.
Qed.

Lemma with_entry_below (s : TextureManager) atlas_key key w h uvs :
  below s → below (with_entry atlas_key key w h uvs s).
Proof.
  intros [Hpos Hbelow]. split; simpl; [lia|]. intros name' key'.
  rewrite lookup_insert. case_decide; [intros [= <-]; lia|].
  intros Hkey. specialize (Hbelow _ _ Hkey). lia.
Qed.

Lemma load_texture_outcome (s : TextureManager) name texture :
  load_texture name texture s = (Raise KeyError, s)
  ∨ load_texture name texture s
    = (Ok (_key_count s), with_texture name texture s).
Proof.
  unfold load_texture. unfold_monad. case_decide; [by left|by right].
Qed.

Lemma load_image_outcome (s : TextureManager) source :
  (∃ e, load_image source s = (Raise e, s))
  ∨ ∃ name texture,
      load_image source s = (Ok (_key_count s), with_texture name texture s).
Proof.
  unfold load_image. unfold_monad.
  destruct (CoreImage_texture source) as [texture|e]; [|left; by eexists].
  case_decide; [left; by eexists|].
  right. by exists (path_splitext_root (path_basename source)), texture.
Qed.

Ltac case_results :=
  repeat match goal with
         | |- context [match ?r with Ok _ => _ | Raise _ => _ end] =>
             destruct r eqn:?; simpl
         end.


Lemma load_atlas_entry_returned atlas_key W H entry (s s' : TextureManager) :
  load_atlas_entry atlas_key W H entry s = (Ok tt, s') →
  ∃ key w h uvs, s' = with_entry atlas_key key w h uvs s.
Proof.
  destruct entry as [key [|x [|y [|w [|h [|? ?]]]]]]; try done.
  unfold load_atlas_entry. unfold_monad. simpl. case_results;
    intros [= <-]. by eexists _, _, _, _.
Qed.


Lemma load_atlas_image_returned dirname item (s s' : TextureManager) :
  load_atlas_image dirname item s = (Ok tt, s') → below s → below s'.
Proof.
  destruct item as [imgname atlas_content]. unfold load_atlas_image.
  unfold bind at 1, lift at 1.
  destruct (CoreImage_texture _) as [texture|]; [|done].
  unfold bind at 1, lift at 1.
  destruct (as_c_float (fst _)) as [W|]; [|done].
  unfold bind at 1, lift at 1.
  destruct (as_c_float (snd _)) as [H|]; [|done].
  unfold bind at 1.
  destruct (load_texture_outcome s (path_basename imgname) texture)
    as [-> | ->]; [done|].
  unfold bind at 1, get at 1. unfold bind at 1, lift at 1.
  destruct (getitem _ _); [|done].
  intros Hrun Hbelow.
  eapply (for_each_returns_inv below); [|by apply with_texture_below|done].
  intros entry s1 s2 Hs1 Hentry.
  apply load_atlas_entry_returned in Hentry as (? & ? & ? & ? & ->).
  by apply with_entry_below.
Qed.


Lemma load_atlas_returned source (s s' : TextureManager) :
  load_atlas source s = (Ok tt, s') → below s → below s'.
Proof.
  unfold load_atlas. unfold bind at 1, lift at 1.
  destruct (json_load source); [|done].
  intros Hrun Hbelow. eapply (for_each_returns_inv below); [|done..].
  intros item s1 s2 Hs1 Hitem. by eapply load_atlas_image_returned.
Qed.









(** A [load_atlas] that returns has not raised in the UV arithmetic. *)
Lemma images_raise_in_uvs_raise dirname (atlas_data : atlas_json) :
  ∀ s : TextureManager,
    images_raise_in_uvs dirname atlas_data s →
    fst (for_each atlas_data (load_atlas_image dirname) s) ≠ Ok tt.
Proof.
  induction atlas_data as [|item atlas_data IH]; intros s; [done|].
  rewrite for_each_cons. cbn [images_raise_in_uvs].
  destruct (load_atlas_image dirname item s) as [[[]|e] s1]; [apply IH|done].
Qed.


Lemma load_atlas_returned_counted source (s : TextureManager) :
  fst (load_atlas source s) = Ok tt → ¬ raises_in_uvs source s.
Proof.
  intros Hrun (atlas_data & Hjson & Hraise).
  unfold load_atlas in Hrun. unfold bind at 1, lift at 1 in Hrun.
  rewrite Hjson in Hrun. by eapply images_raise_in_uvs_raise.
Qed.

Lemma atlases_complete_counted (calls : list call) :
  ∀ s : TextureManager, atlases_complete calls s → atlases_counted calls s.
Proof.
  induction calls as [|c calls IH]; intros s; [done|].
  intros [Hc Hcomplete]. split; [|by apply IH].
  destruct c; try done. by apply load_atlas_returned_counted.
Qed.


Lemma history_head (calls : list call) (s : TextureManager) :
  history calls s !! 0%nat = Some s.
Proof. by destruct calls. Qed.

Lemma history_tail (c : call) (calls : list call) (s : TextureManager) (i : nat) :
  history (c :: calls) s !! S i = history calls (snd (perform c s)) !! i.
Proof. done. Qed.





(** *** What a returned [load_atlas] has recorded *)

#[local] Instance persists_refl : Reflexive persists.
Proof. intros s. by split. Qed.

#[local] Instance persists_trans : Transitive persists.
Proof.
  intros s1 s2 s3 [Hc12 Hk12] [Hc23 Hk23]. split; [lia|].
  intros key Hlt.
  destruct (Hk12 key Hlt) as (<- & <- & <-). apply Hk23. lia.
Qed.

Lemma with_texture_persists (s : TextureManager) name texture :
  persists s (with_texture name texture s).
Proof.
  split; simpl; [lia|]. intros key Hlt.
  rewrite !lookup_insert_ne by lia. done.
Qed.

Lemma with_entry_persists (s : TextureManager) atlas_key key w h uvs :
  persists s (with_entry atlas_key key w h uvs s).
Proof.
  split; simpl; [lia|]. intros key' Hlt.
  rewrite !lookup_insert_ne by lia. done.
Qed.

Lemma for_each_returned {S A} (R : S → S → Prop)
    `{!Reflexive R, !Transitive R} (l : list A) (body : A → M S unit) :
  (∀ x s s', body x s = (Ok tt, s') → R s s') →
  ∀ s s',
    for_each l body s = (Ok tt, s') →
    R s s'
    ∧ ∀ x, x ∈ l → ∃ s1 s2, R s s1 ∧ body x s1 = (Ok tt, s2) ∧ R s2 s'.
Proof.
  intros Hbody. induction l as [|y l IH]; intros s s'.
  - intros [= <-]. split; [done|].
    intros x Hin. by apply elem_of_nil in Hin.
  - rewrite for_each_cons.
    destruct (body y s) as [[[]|e] s1] eqn:Hy; [|done].
    intros Hrest. destruct (IH _ _ Hrest) as [Hrel Helems].
    pose proof (Hbody _ _ _ Hy) as Hstep.
    split; [by etrans|].
    intros x Hin. apply elem_of_cons in Hin as [->|Hin].
    + by exists s, s1.
    + destruct (Helems x Hin) as (s2 & s3 & Hbefore & Hx & Hafter).
      exists s2, s3. split; [by etrans|done].
Qed.

Lemma load_atlas_entry_returned_uvs atlas_key W H key rect
    (s s' : TextureManager) :
  load_atlas_entry atlas_key W H (key, rect) s = (Ok tt, s') →
  ∃ x y w h uvs,
    rect = [x; y; w; h]
    ∧ uv_rectangle W H x y w h = Ok uvs
    ∧ s' = with_entry atlas_key key w h uvs s.
Proof.
  destruct rect as [|x [|y [|w [|h [|? ?]]]]]; try done.
  unfold load_atlas_entry. unfold_monad. simpl. case_results;
    intros [= <-].
  eexists _, _, _, _, _. split; [done|]. split; [|done].
  unfold uv_rectangle, mbind, res_bind, mret, res_ret.
  repeat match goal with
         | E : ?lhs = Ok _ |- context [?lhs] => rewrite E
         end.
  done.
Qed.

Lemma load_atlas_entry_persists atlas_key W H entry (s s' : TextureManager) :
  load_atlas_entry atlas_key W H entry s = (Ok tt, s') → persists s s'.
Proof.
  destruct entry as [key rect]. intros Hrun.
  apply load_atlas_entry_returned_uvs in Hrun
    as (x & y & w & h & uvs & _ & _ & ->).
  apply with_entry_persists.
Qed.

Lemma load_atlas_image_returned_entries dirname imgname atlas_content
    (s s' : TextureManager) :
  load_atlas_image dirname (imgname, atlas_content) s = (Ok tt, s') →
  ∃ texture W H,
    CoreImage_texture (path_join dirname imgname) = Ok texture
    ∧ as_c_float (fst (tex_size texture)) = Ok W
    ∧ as_c_float (snd (tex_size texture)) = Ok H
    ∧ for_each atlas_content (load_atlas_entry (_key_count s) W H)
        (with_texture (path_basename imgname) texture s)
      = (Ok tt, s').
Proof.
  unfold load_atlas_image.
  unfold bind at 1, lift at 1.
  destruct (CoreImage_texture _) as [texture|]; [|done].
  unfold bind at 1, lift at 1.
  destruct (as_c_float (fst _)) as [W|] eqn:HW; [|done].
  unfold bind at 1, lift at 1.
  destruct (as_c_float (snd _)) as [H|] eqn:HH; [|done].
  unfold bind at 1.
  destruct (load_texture_outcome s (path_basename imgname) texture)
    as [-> | ->]; [done|].
  unfold bind at 1, get at 1. unfold bind at 1, lift at 1.
  destruct (getitem _ _); [|done].
  intros Hrun. by exists texture, W, H.
Qed.

Lemma load_atlas_image_persists dirname item (s s' : TextureManager) :
  load_atlas_image dirname item s = (Ok tt, s') → persists s s'.
Proof.
  destruct item as [imgname atlas_content]. intros Hrun.
  apply load_atlas_image_returned_entries in Hrun
    as (texture & W & H & _ & _ & _ & Hrun).
  etrans; [apply with_texture_persists|].
  eapply (for_each_returned persists); [|done].
  intros. by eapply load_atlas_entry_persists.
Qed.

Lemma load_atlas_images_returned dirname (atlas_data : atlas_json)
    (s s' : TextureManager) :
  for_each atlas_data (load_atlas_image dirname) s = (Ok tt, s') →
  ∀ imgname atlas_content key x y w h,
    (imgname, atlas_content) ∈ atlas_data →
    (key, [x; y; w; h]) ∈ atlas_content →
    ∃ texture W H texkey uvs,
      CoreImage_texture (path_join dirname imgname) = Ok texture
      ∧ as_c_float (fst (tex_size texture)) = Ok W
      ∧ as_c_float (snd (tex_size texture)) = Ok H
      ∧ uv_rectangle W H x y w h = Ok uvs
      ∧ _key_index s' !! texkey = Some key
      ∧ _sizes s' !! texkey = Some (w, h)
      ∧ _uvs s' !! texkey = Some uvs.
Proof.
  intros Hrun imgname atlas_content key x y w h Himage Hentry.
  destruct (for_each_returned persists _ _
              (load_atlas_image_persists dirname) _ _ Hrun) as [_ Himages].
  destruct (Himages _ Himage) as (s1 & s2 & _ & Hitem & Hafter).
  apply load_atlas_image_returned_entries in Hitem
    as (texture & W & H & Himg & HW & HH & Hentries).
  destruct (for_each_returned persists _ _
              (load_atlas_entry_persists (_key_count s1) W H) _ _ Hentries)
    as [_ Helems].
  destruct (Helems _ Hentry) as (t1 & t2 & _ & Hstep & Hrest).
  apply load_atlas_entry_returned_uvs in Hstep
    as (x' & y' & w' & h' & uvs & [= <- <- <- <-] & Huv & ->).
  exists texture, W, H, (_key_count t1), uvs.
  do 4 (split; [done|]).
  destruct Hrest as [Hcount Hrest]. destruct Hafter as [_ Hafter].
  simpl in Hcount.
  destruct (Hrest (_key_count t1)) as (Hi & Hs & Hu); [simpl; lia|].
  destruct (Hafter (_key_count t1)) as (-> & -> & ->); [lia|].
  rewrite Hi, Hs, Hu. simpl. by rewrite !lookup_insert_eq.
Qed.

(** C4: whenever [load_atlas] returns, every sub-image [key] of the atlas
    with rectangle [[x, y, w, h]] has a texkey called [key] whose recorded
    size is [(w, h)] and for which [get_uvs] returns
    [[x/W, 1 - y/H, (x+w)/W, 1 - (y+h)/H]], [W] and [H] being the pixel size
    of its image as C floats; and [load_atlas] does return, with that texkey
    the one [key] resolves to, for an atlas whose names are all different,
    whose anchors are new and whose images and rectangles are in order. *)
Theorem load_atlas_uvs (self : TextureManager) (source : string)
    (atlas_data : atlas_json) :
  json_load source = Ok atlas_data →
  (∀ self',
     load_atlas source self = (Ok tt, self') →
     ∀ imgname atlas_content key x y w h,
       (imgname, atlas_content) ∈ atlas_data →
       (key, [x; y; w; h]) ∈ atlas_content →
       ∃ texture W H texkey uvs,
         CoreImage_texture (path_join (path_dirname source) imgname)
         = Ok texture
         ∧ as_c_float (fst (tex_size texture)) = Ok W
         ∧ as_c_float (snd (tex_size texture)) = Ok H
         ∧ uv_rectangle W H x y w h = Ok uvs
         ∧ get_texname_from_texkey texkey self' = (Ok key, self')
         ∧ get_size texkey self' = (Ok (w, h), self')
         ∧ get_uvs texkey self' = (Ok uvs, self'))
  ∧ (NoDup (atlas_names atlas_data) →
     (∀ item, item ∈ atlas_data →
        image_loadable (path_dirname source) item
        ∧ _keys self !! path_basename (fst item) = None) →
     ∃ self',
       load_atlas source self = (Ok tt, self')
       ∧ ∀ imgname atlas_content texture W H key x y w h,
           (imgname, atlas_content) ∈ atlas_data →
           CoreImage_texture (path_join (path_dirname source) imgname)
           = Ok texture →
           as_c_float (fst (tex_size texture)) = Ok W →
           as_c_float (snd (tex_size texture)) = Ok H →
           (key, [x; y; w; h]) ∈ atlas_content →
           ∃ texkey uvs,
             get_texkey_from_name key self' = (Ok texkey, self')
             ∧ get_size texkey self' = (Ok (w, h), self')
             ∧ uv_rectangle W H x y w h = Ok uvs
             ∧ get_uvs texkey self' = (Ok uvs, self')).
Proof.
  intros Hjson. split; [|by apply load_atlas_returns].
  intros self'. unfold load_atlas. unfold bind at 1, lift at 1.
  rewrite Hjson. intros Hrun imgname atlas_content key x y w h Himage Hentry.
  destruct (load_atlas_images_returned _ _ _ _ Hrun _ _ _ _ _ _ _
              Himage Hentry)
    as (texture & W & H & texkey & uvs & Himg & HW & HH & Huv & Hi & Hs & Hu).
  exists texture, W, H, texkey, uvs. do 4 (split; [done|]).
  unfold get_texname_from_texkey, get_size, get_uvs. unfold_monad.
  by rewrite Hi, Hs, Hu.
Qed.

(** *** Consistent managers *)

Lemma consistent_init : consistent TextureManager_init.
Proof.
  split; [|split].
  - intros name key. simpl. by rewrite !lookup_empty.
  - intros key [name Hname]. simpl in Hname. by rewrite lookup_empty in Hname.
  - intros group_key members Hgroup. simpl in Hgroup.
    by rewrite lookup_empty in Hgroup.
Qed.

Lemma consistent_group_recorded (s : TextureManager) group_key members :
  consistent s →
  _groups s !! group_key = Some members →
  group_recorded s group_key members.
Proof.
  intros (Hnames & Hkeys & Hgroups) Hgroup.
  destruct (Hgroups _ _ Hgroup) as (Hnodup & Hin & Htexture & Hmembers).
  do 3 (split; [done|]). split.
  - intros key Hkey. destruct (Hmembers key Hkey) as [Hback [name Hname]].
    destruct (Hkeys key) as (_ & Huvs & Hsizes & _); [by eexists|].
    exists name. split; [done|]. split; [|by rewrite Hback].
    exists key. by apply Hnames.
  - intros key1 key2 name _ _ Hname1 Hname2.
    apply Hnames in Hname1, Hname2. congruence.
Qed.

Lemma consistent_counter_unused (s : TextureManager) :
  consistent s →
  _key_index s !! _key_count s = None ∧ _groups s !! _key_count s = None.
Proof.
  intros (Hnames & Hkeys & Hgroups).
  assert (_key_index s !! _key_count s = None) as Hindex.
  { destruct (_key_index s !! _key_count s) eqn:Hk; [|done].
    destruct (Hkeys (_key_count s)) as [Hlt _]; [by eexists|lia]. }
  split; [done|].
  destruct (_groups s !! _key_count s) as [members|] eqn:Hg; [|done].
  destruct (Hgroups _ _ Hg) as (_ & Hin & _ & Hmembers).
  destruct (Hmembers _ Hin) as [_ [name Hname]]. congruence.
Qed.

Lemma with_texture_consistent (s : TextureManager) name texture :
  consistent s →
  _keys s !! name = None →
  consistent (with_texture name texture s).
Proof.
  intros Hs Hfresh.
  destruct (consistent_counter_unused s Hs) as [Hindex Hgroup].
  destruct Hs as (Hnames & Hkeys & Hgroups).
  split; [|split]; simpl.
  - intros name' key. rewrite !lookup_insert.
    destruct (decide (name = name')) as [<-|Hne];
      destruct (decide (_key_count s = key)) as [<-|Hnk].
    + done.
    + split; [congruence|]. intros Hk. apply Hnames in Hk. congruence.
    + split; [|congruence]. intros Hk. apply Hnames in Hk. congruence.
    + apply Hnames.
  - intros key. rewrite !lookup_insert.
    destruct (decide (_key_count s = key)) as [<-|Hnk].
    + intros _. split; [lia|]. do 2 (split; [by eexists|]).
      exists (_key_count s), [_key_count s].
      rewrite lookup_insert_eq. split; [done|]. split; [done|]. by left.
    + intros Hk. destruct (Hkeys key Hk)
        as (Hlt & Hu & Hsz & g & members & Hback & Hg & Hin).
      split; [lia|]. do 2 (split; [done|]).
      exists g, members. split; [done|]. split; [|done].
      rewrite lookup_insert_ne; [done|congruence].
  - intros g members. rewrite lookup_insert.
    destruct (decide (_key_count s = g)) as [<-|Hng].
    + intros [= <-]. split; [apply NoDup_singleton|].
      split; [by left|]. split; [rewrite lookup_insert_eq; by eexists|].
      intros key Hin. apply list_elem_of_singleton in Hin as ->.
      rewrite !lookup_insert_eq. split; [done|by eexists].
    + intros Hg. destruct (Hgroups _ _ Hg) as (Hnodup & Hin & Htex & Hmembers).
      do 2 (split; [done|]).
      split; [by rewrite lookup_insert_ne|].
      intros key Hkey. destruct (Hmembers key Hkey) as [Hback [n Hn]].
      assert (_key_count s ≠ key) by congruence.
      rewrite !lookup_insert_ne by done. split; [done|by eexists].
Qed.

Lemma with_entry_consistent (s : TextureManager) atlas_key key w h uvs :
  consistent s →
  _keys s !! key = None →
  is_Some (_groups s !! atlas_key) →
  consistent (with_entry atlas_key key w h uvs s).
Proof.
  intros Hs Hfresh [group Hgroup].
  destruct (consistent_counter_unused s Hs) as [Hindex Hcounter].
  destruct Hs as (Hnames & Hkeys & Hgroups).
  assert (atlas_key ≠ _key_count s) as Hanchor by congruence.
  assert (_key_count s ∉ group) as Hnotin.
  { intros Hin. destruct (Hgroups _ _ Hgroup) as (_ & _ & _ & Hmembers).
    destruct (Hmembers _ Hin) as [_ [n Hn]]. congruence. }
  split; [|split]; simpl.
  - intros name' key'. rewrite !lookup_insert.
    destruct (decide (key = name')) as [<-|Hne];
      destruct (decide (_key_count s = key')) as [<-|Hnk].
    + done.
    + split; [congruence|]. intros Hk. apply Hnames in Hk. congruence.
    + split; [|congruence]. intros Hk. apply Hnames in Hk. congruence.
    + apply Hnames.
  - intros key'. rewrite !lookup_insert.
    destruct (decide (_key_count s = key')) as [<-|Hnk].
    + intros _. split; [lia|]. do 2 (split; [by eexists|]).
      exists atlas_key, (group ++ [_key_count s]).
      split; [done|]. split; [by rewrite lookup_alter_eq, Hgroup|].
      apply elem_of_app. right. by left.
    + intros Hk. destruct (Hkeys key' Hk)
        as (Hlt & Hu & Hsz & g & members & Hback & Hg & Hin).
      split; [lia|]. do 2 (split; [done|]).
      destruct (decide (atlas_key = g)) as [<-|Hng].
      * exists atlas_key, (group ++ [_key_count s]).
        split; [done|]. split; [by rewrite lookup_alter_eq, Hgroup|].
        apply elem_of_app. left. congruence.
      * exists g, members. split; [done|]. split; [|done].
        by rewrite lookup_alter_ne.
  - intros g members.
    destruct (decide (atlas_key = g)) as [<-|Hng].
    + rewrite lookup_alter_eq, Hgroup. intros [= <-].
      destruct (Hgroups _ _ Hgroup) as (Hnodup & Hin & Htex & Hmembers).
      split.
      { apply NoDup_app. split; [done|]. split; [|apply NoDup_singleton].
        intros x Hx Hx'. apply list_elem_of_singleton in Hx' as ->. done. }
      split; [apply elem_of_app; by left|]. split; [done|].
      intros key' Hkey'. rewrite !lookup_insert.
      apply elem_of_app in Hkey' as [Hkey'|Hkey'].
      * destruct (Hmembers _ Hkey') as [Hback [n Hn]].
        rewrite !decide_False by congruence. split; [done|by eexists].
      * apply list_elem_of_singleton in Hkey' as ->.
        rewrite !decide_True by done. split; [done|by eexists].
    + rewrite lookup_alter_ne by done. intros Hg.
      destruct (Hgroups _ _ Hg) as (Hnodup & Hin & Htex & Hmembers).
      do 3 (split; [done|]).
      intros key' Hkey'. destruct (Hmembers _ Hkey') as [Hback [n Hn]].
      assert (_key_count s ≠ key') by congruence.
      rewrite !lookup_insert_ne by done. split; [done|by eexists].
Qed.

Lemma load_atlas_entries_consistent atlas_key W H
    (atlas_content : list (string * list pyval)) :
  ∀ s s' : TextureManager,
    for_each atlas_content (load_atlas_entry atlas_key W H) s = (Ok tt, s') →
    consistent s →
    is_Some (_groups s !! atlas_key) →
    NoDup (map fst atlas_content) →
    (∀ name, name ∈ map fst atlas_content → _keys s !! name = None) →
    consistent s'
    ∧ ∀ name, name ∉ map fst atlas_content →
        _keys s !! name = None → _keys s' !! name = None.
Proof.
  induction atlas_content as [|[key rect] rest IH];
    intros s s' Hrun Hs Hgroup Hnodup Hnew.
  - injection Hrun as <-. by split.
  - rewrite for_each_cons in Hrun.
    destruct (load_atlas_entry atlas_key W H (key, rect) s)
      as [[[]|e] s1] eqn:Hentry; [|done].
    apply load_atlas_entry_returned_uvs in Hentry
      as (x & y & w & h & uvs & -> & _ & ->).
    simpl in Hnodup. apply NoDup_cons in Hnodup as [Hkey Hnodup].
    destruct (IH _ _ Hrun) as [Hs' Hframe].
    + apply with_entry_consistent; [done| |done]. apply Hnew. by left.
    + simpl. rewrite lookup_alter_eq. destruct Hgroup as [group ->].
      by eexists.
    + done.
    + intros name Hin. simpl. rewrite lookup_insert_ne.
      * apply Hnew. by right.
      * intros ->. done.
    + split; [done|]. intros name Hname Hnone. simpl in Hname.
      apply not_elem_of_cons in Hname as [Hne Hname].
      apply Hframe; [done|]. simpl. by rewrite lookup_insert_ne.
Qed.

Lemma load_atlas_image_consistent dirname imgname atlas_content
    (s s' : TextureManager) :
  load_atlas_image dirname (imgname, atlas_content) s = (Ok tt, s') →
  consistent s →
  NoDup (path_basename imgname :: map fst atlas_content) →
  (∀ name, name ∈ path_basename imgname :: map fst atlas_content →
     _keys s !! name = None) →
  consistent s'
  ∧ ∀ name, name ∉ path_basename imgname :: map fst atlas_content →
      _keys s !! name = None → _keys s' !! name = None.
Proof.
  intros Hrun Hs Hnodup Hnew.
  apply load_atlas_image_returned_entries in Hrun
    as (texture & W & H & _ & _ & _ & Hrun).
  apply NoDup_cons in Hnodup as [Hanchor Hnodup].
  destruct (load_atlas_entries_consistent _ _ _ _ _ _ Hrun) as [Hs' Hframe].
  - apply with_texture_consistent; [done|]. apply Hnew. by left.
  - simpl. rewrite lookup_insert_eq. by eexists.
  - done.
  - intros name Hin. simpl. rewrite lookup_insert_ne.
    + apply Hnew. by right.
    + intros <-. done.
  - split; [done|]. intros name Hname Hnone.
    apply not_elem_of_cons in Hname as [Hne Hname].
    apply Hframe; [done|]. simpl. by rewrite lookup_insert_ne.
Qed.

Lemma load_atlas_images_consistent dirname (atlas_data : atlas_json) :
  ∀ s s' : TextureManager,
    for_each atlas_data (load_atlas_image dirname) s = (Ok tt, s') →
    consistent s →
    NoDup (atlas_names atlas_data) →
    (∀ name, name ∈ atlas_names atlas_data → _keys s !! name = None) →
    consistent s'.
Proof.
  induction atlas_data as [|[imgname atlas_content] rest IH];
    intros s s' Hrun Hs Hnodup Hnew.
  - by injection Hrun as <-.
  - change (atlas_names ((imgname, atlas_content) :: rest))
      with ((path_basename imgname :: map fst atlas_content)
            ++ atlas_names rest) in *.
    apply NoDup_app in Hnodup as (Hfirst & Hdisjoint & Hrest).
    rewrite for_each_cons in Hrun.
    destruct (load_atlas_image dirname (imgname, atlas_content) s)
      as [[[]|e] s1] eqn:Himage; [|done].
    destruct (load_atlas_image_consistent _ _ _ _ _ Himage Hs Hfirst)
      as [Hs1 Hframe].
    { intros name Hin. apply Hnew, elem_of_app. by left. }
    apply (IH _ _ Hrun Hs1 Hrest).
    intros name Hin. apply Hframe.
    + intros Hin'. by apply (Hdisjoint name).
    + apply Hnew, elem_of_app. by right.
Qed.

Lemma load_atlas_consistent source (s s' : TextureManager) :
  load_atlas source s = (Ok tt, s') →
  consistent s → atlas_names_new source s → consistent s'.
Proof.
  unfold load_atlas. unfold bind at 1, lift at 1.
  destruct (json_load source) as [atlas_data|] eqn:Hjson; [|done].
  intros Hrun Hs Hnew. destruct (Hnew _ Hjson) as [Hnodup Hnone].
  by eapply load_atlas_images_consistent.
Qed.

Lemma load_texture_returned (s s' : TextureManager) name texture key :
  load_texture name texture s = (Ok key, s') →
  _keys s !! name = None ∧ s' = with_texture name texture s.
Proof.
  unfold load_texture. unfold_monad. case_decide as Hname; [done|].
  intros [= <- <-]. split; [|done].
  destruct (_keys s !! name); [|done]. by destruct Hname.
Qed.

Lemma load_image_returned (s s' : TextureManager) source key :
  load_image source s = (Ok key, s') →
  ∃ name texture,
    _keys s !! name = None ∧ s' = with_texture name texture s.
Proof.
  unfold load_image. unfold_monad.
  destruct (CoreImage_texture source) as [texture|]; [|done].
  case_decide as Hname; [done|]. intros [= <- <-].
  exists (path_splitext_root (path_basename source)), texture.
  split; [|done].
  destruct (_keys s !! _); [|done]. by destruct Hname.
Qed.

Lemma unload_texture_member_returned key (s s' : TextureManager) :
  unload_texture_member key s = (Ok tt, s') →
  ∃ name, _key_index s !! key = Some name ∧ s' = forget key name s.
Proof.
  unfold unload_texture_member, delitem. unfold_monad.
  destruct (_key_index s !! key) as [name|] eqn:Hname; [|done]. simpl.
  repeat match goal with
         | |- context [match ?o with Some _ => _ | None => _ end] =>
             destruct o; simpl; try done
         end.
  intros [= <-]. by exists name.
Qed.

Lemma unload_members_frame (members : list Z) :
  ∀ s s' : TextureManager,
    for_each members unload_texture_member s = (Ok tt, s') →
    _key_count s' = _key_count s
    ∧ (∀ key, key ∉ members →
         _key_index s' !! key = _key_index s !! key
         ∧ _uvs s' !! key = _uvs s !! key
         ∧ _texkey_index s' !! key = _texkey_index s !! key
         ∧ _sizes s' !! key = _sizes s !! key)
    ∧ (∀ name,
         (∀ key, key ∈ members → _key_index s !! key ≠ Some name) →
         _keys s' !! name = _keys s !! name).
Proof.
  induction members as [|key members IH]; intros s s' Hrun.
  - by injection Hrun as <-.
  - rewrite for_each_cons in Hrun.
    destruct (unload_texture_member key s) as [[[]|e] s1] eqn:Hmember;
      [|done].
    apply unload_texture_member_returned in Hmember as (name & Hname & ->).
    destruct (IH _ _ Hrun) as (Hcount & Hkeys & Hnames).
    split; [done|]. split.
    + intros key' Hnotin. apply not_elem_of_cons in Hnotin as [Hne Hnotin].
      destruct (Hkeys key' Hnotin) as (-> & -> & -> & ->). simpl.
      by rewrite !lookup_delete_ne.
    + intros name' Hothers. rewrite Hnames.
      * simpl. rewrite lookup_delete_ne; [done|].
        intros ->. apply (Hothers key); [by left|done].
      * intros key' Hin. simpl.
        destruct (decide (key = key')) as [<-|Hne];
          [by rewrite lookup_delete_eq|].
        rewrite lookup_delete_ne by done. apply Hothers. by right.
Qed.

Lemma unload_texture_consistent name (s : TextureManager) :
  consistent s → consistent (snd (unload_texture name s)).
Proof.
  intros Hs.
  destruct (_keys s !! name) as [key|] eqn:Hkey;
    [|by unfold unload_texture; unfold_monad; rewrite Hkey].
  destruct (_groups s !! key) as [members|] eqn:Hgroup;
    [|by unfold unload_texture; unfold_monad; rewrite Hkey; simpl;
         rewrite Hgroup].
  destruct (consistent_group_recorded _ _ _ Hs Hgroup)
    as (Hnodup & Hkeyin & Htex & Hrec & Hinj).
  destruct (unload_members_recorded members s Hnodup Hrec Hinj)
    as (s1 & Hrun & Hg & Ht & Hki & Hks & Huv & Hti & Hsz & Hgone).
  rewrite (unload_texture_anchor_run _ _ _ _ _ Hkey Hgroup Htex Hrun Hg Ht).
  destruct (unload_members_frame _ _ _ Hrun) as (Hcount & Hleft & Hleft_names).
  destruct Hs as (Hnames & Hkeys & Hgroups).
  assert (∀ k, is_Some (_key_index s1 !! k) → k ∉ members) as Hnot_member.
  { intros k [n Hn] Hin.
    destruct (Hrec k Hin) as (n' & Hn' & _).
    destruct (Hgone k n' Hin Hn') as [(Hnone & _) _]. congruence. }
  destruct (Hgroups _ _ Hgroup) as (_ & _ & _ & Hback).
  split; [|split]; simpl.
  - intros n k. split.
    + intros Hk1.
      pose proof (lookup_weaken _ _ _ _ Hk1 Hks) as Hk.
      apply Hnames in Hk.
      destruct (decide (k ∈ members)) as [Hin|Hout].
      * destruct (Hgone k n Hin Hk) as [_ Hnone]. congruence.
      * destruct (Hleft k Hout) as (-> & _). done.
    + intros Hi1.
      pose proof (Hnot_member k (ex_intro _ n Hi1)) as Hout.
      destruct (Hleft k Hout) as (Hi & _). rewrite Hi in Hi1.
      rewrite Hleft_names; [by apply Hnames|].
      intros m Hin Hm. apply Hnames in Hm, Hi1. congruence.
  - intros k Hk1. pose proof (Hnot_member k Hk1) as Hout.
    destruct (Hleft k Hout) as (Hi & Hu & Hx & Hz).
    rewrite Hi in Hk1. rewrite Hcount, Hu, Hz, Hx.
    destruct (Hkeys k Hk1) as (Hlt & Huvs & Hsizes & g & ms & Hgk & Hgm & Hin).
    do 3 (split; [done|]). exists g, ms. split; [done|]. split; [|done].
    rewrite lookup_delete_ne, Hg; [done|].
    intros <-. congruence.
  - intros g ms. rewrite lookup_delete.
    case_decide as Hne; [done|]. rewrite Hg. intros Hgm.
    destruct (Hgroups _ _ Hgm) as (Hnd & Hgin & Hgtex & Hms).
    do 2 (split; [done|]).
    split; [by rewrite lookup_delete_ne, Ht|].
    intros m Hin. destruct (Hms m Hin) as [Hmg Hmi].
    assert (m ∉ members) as Hout.
    { intros Hin'. destruct (Hback m Hin') as [Hmk _]. congruence. }
    destruct (Hleft m Hout) as (-> & _ & -> & _). done.
Qed.

Lemma perform_consistent (c : call) (s : TextureManager) :
  consistent s →
  match c with
  | Load_atlas source =>
      fst (perform c s) = Ok tt ∧ atlas_names_new source s
  | _ => True
  end →
  consistent (snd (perform c s)).
Proof.
  intros Hs Hclean.
  destruct c as [source|name texture|source|name]; simpl in *.
  - unfold void, bind.
    destruct (load_image source s) as [[key|e] s'] eqn:Hrun; simpl.
    + apply load_image_returned in Hrun as (name & texture & Hnew & ->).
      by apply with_texture_consistent.
    + destruct (load_image_outcome s source)
        as [[e' Hraise]|(name & texture & Hok)]; congruence.
  - unfold void, bind.
    destruct (load_texture name texture s) as [[key|e] s'] eqn:Hrun; simpl.
    + apply load_texture_returned in Hrun as [Hnew ->].
      by apply with_texture_consistent.
    + destruct (load_texture_outcome s name texture); congruence.
  - destruct Hclean as [Hreturns Hnew].
    destruct (load_atlas source s) as [r s'] eqn:Hrun. simpl in *. subst r.
    by eapply load_atlas_consistent.
  - by apply unload_texture_consistent.
Qed.

Lemma history_consistent (calls : list call) :
  ∀ (s : TextureManager) (i : nat) self,
    consistent s → atlases_clean calls s →
    history calls s !! i = Some self → consistent self.
Proof.
  induction calls as [|c calls IH]; intros s i self Hs Hclean.
  - destruct i; [|done]. by intros [= <-].
  - destruct Hclean as [Hc Hclean]. destruct i as [|i].
    + rewrite history_head. by intros [= <-].
    + rewrite history_tail. apply IH; [|done]. by apply perform_consistent.
Qed.

(** In every manager a session goes through whose atlases all load and
    bring only new names, unloading a texture by the name of its anchor
    unloads its whole group. *)
Lemma unload_texture_in_session (calls : list call) (i : nat)
    (self : TextureManager) name key members :
  atlases_clean calls TextureManager_init →
  history calls TextureManager_init !! i = Some self →
  _keys self !! name = Some key →
  _groups self !! key = Some members →
  unloads_group self name.
Proof.
  intros Hclean Hi Hkey Hgroup.
  apply (unload_texture_recorded_group _ _ _ _ Hkey Hgroup).
  apply consistent_group_recorded; [|done].
  by eapply history_consistent; [apply consistent_init|..].
Qed.

End TextureManagerProperties.

Section ManagersProperties.
Context {arith : PyArith} {ext : Externals}.

(** Under a model name that has a counter, without [do_copy],
    [load_model] returns the name and creates nothing, so the [KeyError]
    of a texture name that is not registered, or of a model that is not
    stored, leaves both managers as they were. *)
Lemma load_textured_rectangle_seen (models : ModelManager)
    (textures : TextureManager) (F : string) (width height w h : pyval)
    (texture_key name : string) :
  as_c_float width = Ok w →
  as_c_float height = Ok h →
  is_Some (vertex_formats !! F) →
  is_Some (_key_counts models !! name) →
  _keys textures !! texture_key = None →
  load_textured_rectangle F width height texture_key name false
    (models, textures)
  = (Raise KeyError, (models, textures)).
Proof.
  intros Hwidth Hheight Hfc Hname Htexture.
  unfold load_textured_rectangle. unfold bind at 1, lift at 1.
  rewrite Hwidth. unfold bind at 1, lift at 1. rewrite Hheight.
  unfold bind at 1. simpl.
  rewrite (load_model_seen models F 4 6 name) by done.
  unfold get_texkey_from_name. unfold_monad. simpl.
  destruct (_models models !! name); simpl; [|done].
  by rewrite Htexture.
Qed.

(** C10 (amended): [load_textured_rectangle] with a width and a height
    that convert to C floats, a registered format and a texture name that
    is not registered.  Under a model name without a counter, with pools
    for the format, the failure is not atomic: the call raises [KeyError]
    after [load_model] has done its work, and the manager is left as
    [load_model] left it, with a counter for the name and a new model,
    never written to, stored under it.  Under a model name that has a
    counter, without [do_copy], nothing was created: the call raises
    [KeyError] and leaves both managers as they were. *)
Theorem load_textured_rectangle_not_atomic (models : ModelManager)
    (textures : TextureManager) (F : string) (width height w h : pyval)
    (texture_key name : string) (fc : FormatConfig) :
  as_c_float width = Ok w →
  as_c_float height = Ok h →
  vertex_formats !! F = Some fc →
  _keys textures !! texture_key = None →
  match _key_counts models !! name with
  | None =>
      ∀ do_copy blocks,
        memory_blocks models !! F = Some blocks →
        ∃ models',
          load_textured_rectangle F width height texture_key name do_copy
            (models, textures)
          = (Raise KeyError, (models', textures))
          ∧ load_model F 4 6 name do_copy models = (Ok name, models')
          ∧ _key_counts models' !! name = Some 0
          ∧ _models models' !! name
            = Some (new_VertexModel 4 6 fc (indices_block blocks)
                      (vertices_block blocks) name)
          ∧ (∀ model, _models models' !! name = Some model →
               vm_data model = Uninitialized)
  | Some _ =>
      load_textured_rectangle F width height texture_key name false
        (models, textures)
      = (Raise KeyError, (models, textures))
  end.
Proof.
  intros Hwidth Hheight Hfc Htexture.
  destruct (_key_counts models !! name) as [count|] eqn:Hname.
  - apply (load_textured_rectangle_seen models textures F width height w h);
      try done; by eexists.
  - intros do_copy blocks Hblocks.
    pose proof (load_model_unseen models F 4 6 name do_copy fc blocks
                  Hfc Hblocks Hname) as Hload.
    eexists. split; [|split; [exact Hload|]].
    + unfold load_textured_rectangle. unfold bind at 1, lift at 1.
      rewrite Hwidth. unfold bind at 1, lift at 1. rewrite Hheight.
      unfold bind at 1. simpl.
      rewrite Hload. unfold get_texkey_from_name. unfold_monad. simpl.
      rewrite lookup_insert_eq. simpl. by rewrite Htexture.
    + simpl. rewrite !lookup_insert_eq. do 2 (split; [done|]).
      by intros model [= <-].
Qed.

End ManagersProperties.

(** * Further properties of the model manager *)

Section ModelManagerFurther.
Context {arith : PyArith} {ext : Externals}.

(** [register_entity_with_model] never raises: afterwards the entity is
    recorded with the renderer given, whatever was recorded for it before,
    every other registration is as it was, and registering the same triple
    again changes nothing. *)
Theorem register_entity_with_model_upserts (self : ModelManager)
    (entity_id : N) (system_id model_name : string) :
  ∃ self',
    register_entity_with_model entity_id system_id model_name self
    = (Ok tt, self')
    ∧ registration self' model_name entity_id = Some system_id
    ∧ (∀ m e, (m, e) ≠ (model_name, entity_id) →
         registration self' m e = registration self m e)
    ∧ register_entity_with_model entity_id system_id model_name self'
      = (Ok tt, self')
    ∧ _models self' = _models self
    ∧ _key_counts self' = _key_counts self
    ∧ memory_blocks self' = memory_blocks self.
Proof.
  unfold register_entity_with_model. unfold_monad.
  destruct (_model_register self !! model_name) as [bucket|] eqn:Hbucket.
  - eexists. split; [done|]. split; [|split; [|split]].
    + rewrite registration_insert, decide_True by done.
      apply lookup_insert_eq.
    + intros m e Hne. rewrite registration_insert.
      destruct (decide (model_name = m)) as [<-|]; [|done].
      unfold registration. rewrite Hbucket. simpl.
      apply lookup_insert_ne. congruence.
    + simpl. rewrite lookup_insert_eq. unfold set_model_register. simpl.
      by rewrite !insert_insert_eq.
    + done.
  - eexists. split; [done|]. split; [|split; [|split]].
    + rewrite registration_insert, decide_True by done.
      apply lookup_singleton_eq.
    + intros m e Hne. rewrite registration_insert.
      destruct (decide (model_name = m)) as [<-|]; [|done].
      unfold registration. rewrite Hbucket. simpl.
      apply lookup_singleton_ne. congruence.
    + simpl. rewrite lookup_insert_eq. unfold set_model_register. simpl.
      by rewrite insert_insert_eq, insert_singleton_eq.
    + done.
Qed.

(** Registering an entity that was not registered under a model and
    unregistering it again gives back every registration as it was; the
    bucket of the model stays in [model_register], empty if the entity was
    its only one. *)
Theorem register_then_unregister (self : ModelManager)
    (entity_id : N) (system_id model_name : string) :
  registration self model_name entity_id = None →
  ∃ self1 self2,
    register_entity_with_model entity_id system_id model_name self
    = (Ok tt, self1)
    ∧ unregister_entity_with_model entity_id model_name self1 = (Ok tt, self2)
    ∧ (∀ m e, registration self2 m e = registration self m e)
    ∧ is_Some (_model_register self2 !! model_name)
    ∧ (is_Some (_model_register self !! model_name) → self2 = self).
Proof.
  intros Hnone. unfold registration in Hnone.
  unfold register_entity_with_model, unregister_entity_with_model.
  unfold_monad.
  destruct (_model_register self !! model_name) as [bucket|] eqn:Hbucket;
    simpl in *.
  - eexists _, _. split; [done|]. simpl. rewrite lookup_insert_eq. simpl.
    rewrite lookup_insert_eq. split; [done|].
    rewrite delete_insert_id by done.
    assert (set_model_register <[model_name:=bucket]>
              (set_model_register <[model_name:=<[entity_id:=system_id]> bucket]>
                 self) = self) as ->.
    { destruct self. unfold set_model_register. simpl in *.
      by rewrite insert_insert_eq, insert_id. }
    split; [done|]. split; [by rewrite Hbucket|done].
  - eexists _, _. split; [done|]. simpl. rewrite lookup_insert_eq. simpl.
    rewrite lookup_singleton_eq. split; [done|].
    split; [|split].
    + intros m e. rewrite !registration_insert.
      destruct (decide (model_name = m)) as [<-|]; [|done].
      unfold registration. rewrite Hbucket. simpl.
      rewrite delete_singleton_eq. apply lookup_empty.
    + simpl. rewrite lookup_insert_eq. by eexists.
    + by intros [? ?].
Qed.

(** [unload_model] raises [KeyError] and changes nothing when no model is
    stored under the name; otherwise it takes out the model, the counter
    of the name and all the registrations under it, and leaves every other
    name and the pools as they were. *)
Theorem unload_model_forgets (self : ModelManager) (model_name : string) :
  match _models self !! model_name with
  | None => unload_model model_name self = (Raise KeyError, self)
  | Some _ =>
      ∃ self',
        unload_model model_name self = (Ok tt, self')
        ∧ _models self' !! model_name = None
        ∧ _key_counts self' !! model_name = None
        ∧ (∀ e, registration self' model_name e = None)
        ∧ (∀ n, n ≠ model_name →
             _models self' !! n = _models self !! n
             ∧ _key_counts self' !! n = _key_counts self !! n
             ∧ ∀ e, registration self' n e = registration self n e)
        ∧ memory_blocks self' = memory_blocks self
  end.
Proof.
  unfold unload_model. unfold_monad.
  destruct (_models self !! model_name) as [model|]; [|done].
  eexists. split; [done|]. simpl. unfold registration. simpl.
  rewrite !lookup_delete_eq. do 3 (split; [done|]). split; [|done].
  intros n Hne. by rewrite !lookup_delete_ne.
Qed.

(** Loading a model under a name the manager knows nothing of and
    unloading it gives back the manager exactly as it was. *)
Theorem load_then_unload_restores (self : ModelManager) (F : string)
    (v i : N) (n : string) (do_copy : bool) (fc : FormatConfig)
    (blocks : BlockPair) :
  vertex_formats !! F = Some fc →
  memory_blocks self !! F = Some blocks →
  _key_counts self !! n = None →
  _models self !! n = None →
  _model_register self !! n = None →
  ∃ self1,
    load_model F v i n do_copy self = (Ok n, self1)
    ∧ is_Some (_models self1 !! n)
    ∧ unload_model n self1 = (Ok tt, self).
Proof.
  intros Hfc Hblocks Hcount Hmodel Hregister.
  eexists. split; [by apply load_model_unseen|].
  simpl. rewrite lookup_insert_eq. split; [by eexists|].
  unfold unload_model. unfold_monad. simpl. rewrite lookup_insert_eq.
  f_equal. destruct self. unfold set_key_counts, set_model_register,
    set_models. simpl in *.
  by rewrite !delete_insert_id, delete_id.
Qed.

(** A format that is not registered makes [load_model] raise [KeyError]
    before anything is touched.  A registered format that has no pools
    makes the load of a new name raise [KeyError] after the counter of the
    name has been set: the name now counts as loaded, and a later load
    without [do_copy] returns it although no model was stored for it. *)
Theorem load_model_without_pools (self : ModelManager) (F : string)
    (v i v' i' : N) (n : string) (do_copy : bool) :
  match vertex_formats !! F with
  | None => load_model F v i n do_copy self = (Raise KeyError, self)
  | Some _ =>
      memory_blocks self !! F = None →
      _key_counts self !! n = None →
      ∃ self',
        load_model F v i n do_copy self = (Raise KeyError, self')
        ∧ _key_counts self' !! n = Some 0
        ∧ _models self' = _models self
        ∧ load_model F v' i' n false self' = (Ok n, self')
  end.
Proof.
  destruct (vertex_formats !! F) as [fc|] eqn:Hfc;
    [|by unfold load_model; unfold_monad; rewrite Hfc].
  intros Hblocks Hcount. eexists. split.
  { unfold load_model. unfold_monad. rewrite Hfc, Hcount. simpl.
    by rewrite Hblocks. }
  simpl. rewrite lookup_insert_eq. do 2 (split; [done|]).
  apply load_model_seen; [by eexists|]. simpl. rewrite lookup_insert_eq.
  by eexists.
Qed.

(** A copying load of a name that has a counter returns only when the
    derived name has a counter of its own, that is, when it was loaded
    under before.  It then advances that counter, leaves the counter of
    the base name alone, and stores a new, empty model under the derived
    name in place of whatever was stored there; no other name changes. *)
Theorem load_model_copy_replaces (self self' : ModelManager) (F : string)
    (v i : N) (n r : string) (c : Z) :
  _key_counts self !! n = Some c →
  load_model F v i n true self = (Ok r, self') →
  r = n +:+ "_" +:+ str c
  ∧ r ≠ n
  ∧ (∃ old, _key_counts self !! r = Some old
            ∧ _key_counts self' !! r = Some (old + 1))
  ∧ _key_counts self' !! n = Some c
  ∧ (∃ fc blocks,
       vertex_formats !! F = Some fc
       ∧ memory_blocks self !! F = Some blocks
       ∧ _models self' !! r
         = Some (new_VertexModel v i fc (indices_block blocks)
                   (vertices_block blocks) r))
  ∧ ∀ m, m ≠ r → _models self' !! m = _models self !! m.
Proof.
  intros Hcount Hrun.
  destruct (load_model_returned _ _ _ _ _ _ _ _ Hrun) as [[fc Hfc] _].
  rewrite (load_model_copy _ _ _ _ _ _ _ Hfc Hcount) in Hrun. simpl in Hrun.
  assert (n +:+ "_" +:+ str c ≠ n) as Hne.
  { apply append_suffix_ne. by destruct (str c). }
  destruct (_key_counts self !! (n +:+ "_" +:+ str c)) as [old|] eqn:Hold;
    [|done].
  destruct (memory_blocks self !! F) as [blocks|] eqn:Hblocks; [|done].
  injection Hrun as <- <-. split; [done|]. split; [done|]. simpl.
  rewrite !lookup_insert_eq, lookup_insert_ne by done.
  split; [by exists old|]. split; [done|].
  split; [by exists fc, blocks|].
  intros m Hm. by rewrite lookup_insert_ne.
Qed.

(** *** allocate *)

(** A loop whose every iteration returns and takes the invariant from
    the entries still to come to the rest of them returns, with the
    invariant at no entries left. *)
Lemma for_acc_returns {S A B} (P : list A → B → S → Prop)
    (body : A → B → M S B) :
  (∀ x rest acc s, P (x :: rest) acc s →
     ∃ acc' s', body x acc s = (Ok acc', s') ∧ P rest acc' s') →
  ∀ l acc s, P l acc s →
    ∃ acc' s', for_acc l acc body s = (Ok acc', s') ∧ P [] acc' s'.
Proof.
  intros Hbody l. induction l as [|x l IH]; intros acc s HP.
  - by exists acc, s.
  - destruct (Hbody _ _ _ _ HP) as (acc1 & s1 & Hx & HP1).
    destruct (IH _ _ HP1) as (acc' & s' & Hrest & HP').
    exists acc', s'. split; [|done]. simpl. unfold bind. by rewrite Hx.
Qed.

(** What every iteration keeps, returning or raising, the loop keeps. *)
Lemma for_acc_preserves {S A B} (I : S → Prop) (l : list A)
    (body : A → B → M S B) :
  (∀ x acc s, I s → I (snd (body x acc s))) →
  ∀ acc s, I s → I (snd (for_acc l acc body s)).
Proof.
  intros Hbody. induction l as [|x l IH]; intros acc s HI; [done|].
  simpl. unfold bind. specialize (Hbody x acc s HI).
  destruct (body x acc s) as [[acc'|e] s']; simpl in *; [|done].
  by apply IH.
Qed.

Lemma bytes_of_nonneg (entries : list (string * (Z * Z))) :
  (∀ entry, entry ∈ entries → 0 ≤ fst (snd entry) + snd (snd entry)) →
  0 ≤ bytes_of entries.
Proof.
  induction entries as [|entry entries IH]; intros Hall; simpl; [done|].
  assert (0 ≤ entry.2.1 + entry.2.2) by (apply Hall; left).
  assert (0 ≤ bytes_of entries) by (apply IH; intros ??; apply Hall; by right).
  lia.
Qed.

Lemma elem_of_map_to_list_keys {V} (m : gmap string V) (k : string) :
  k ∈ (map_to_list m).*1 ↔ is_Some (m !! k).
Proof.
  rewrite list_elem_of_fmap. split.
  - intros ([k' x] & -> & Hin). apply elem_of_map_to_list in Hin. by exists x.
  - intros [x Hx]. exists (k, x). split; [done|].
    by apply elem_of_map_to_list.
Qed.

(** [allocate] on the mapping it goes by, [effective]: the one handed in,
    or the default built from the registered formats when that is empty. *)
Lemma allocate_effective (self : ModelManager) (master_buffer : Buffer)
    (formats_to_allocate effective : gmap string (Z * Z)) :
  effective
  = (if decide (formats_to_allocate = ∅)
     then (λ _, (Z.of_N (allocation_size self - allocation_size self / 4),
                 Z.of_N (allocation_size self / 4))) <$> vertex_formats
     else formats_to_allocate) →
  (∀ F v i, effective !! F = Some (v, i) →
     0 ≤ v + i ∧ ∃ fc, vertex_formats !! F = Some fc ∧ _size fc ≠ 0) →
  bytes_requested effective < 2 ^ 32 →
  allocate formats_to_allocate (self, master_buffer)
  = (Ok (bytes_requested effective),
     (set_memory_blocks (union ((λ _, half_pools self) <$> effective)) self,
      master_buffer
      ++ replicate (2 * size effective) (allocation_size self / 2)%N)).
Proof.
  intros Heffective Hentries Htotal. unfold allocate.
  unfold bind at 1. unfold get at 1. simpl. rewrite <- Heffective.
  clear Heffective. set (half := (allocation_size self / 2)%N).
  pose (P := λ (rest : list (string * (Z * Z))) (acc : Z)
               (st : ModelManager * Buffer),
     (∀ entry, entry ∈ rest → entry ∈ map_to_list effective)
     ∧ 0 ≤ acc
     ∧ acc + bytes_of rest = bytes_requested effective
     ∧ allocation_size (fst st) = allocation_size self
     ∧ _models (fst st) = _models self
     ∧ _key_counts (fst st) = _key_counts self
     ∧ _model_register (fst st) = _model_register self
     ∧ (∀ F, is_Some (effective !! F) → F ∉ rest.*1 →
          memory_blocks (fst st) !! F = Some (half_pools self))
     ∧ (∀ F, effective !! F = None →
          memory_blocks (fst st) !! F = memory_blocks self !! F)
     ∧ snd st ++ replicate (2 * length rest) half
       = master_buffer ++ replicate (2 * size effective) half).
  match goal with
  | |- for_acc ?l 0 ?body _ = _ =>
      assert (∃ total st, for_acc l 0 body (self, master_buffer)
                          = (Ok total, st) ∧ P [] total st)
        as (total & [self' buffer'] & -> & Hfinal);
        [apply for_acc_returns|]
  end.
  - intros [F [vertex_size index_size]] rest acc [self1 buffer1].
    intros (Hin & Hacc & Hsum & Hsize & Hmodels & Hcounts & Hregister
            & Hdone & Hother & Hbuffer). simpl in *.
    assert (effective !! F = Some (vertex_size, index_size)) as HF.
    { apply elem_of_map_to_list, Hin. left. }
    destruct (Hentries _ _ _ HF) as (Hnonneg & fc & Hfc & Hfcsize).
    assert (0 ≤ bytes_of rest).
    { apply bytes_of_nonneg. intros [F' [v' i']] Hin'. simpl.
      apply (Hentries F'). apply elem_of_map_to_list, Hin. by right. }
    unfold_monad. rewrite Hfc. simpl.
    rewrite decide_True by (unfold bytes_requested in *; lia).
    unfold log_reserved. rewrite decide_False by done.
    eexists _, _. split; [done|]. unfold P. simpl.
    split; [intros ??; apply Hin; by right|].
    split; [lia|]. split; [lia|]. do 4 (split; [done|]).
    split; [|split].
    + intros F' Hsome Hnot. destruct (decide (F = F')) as [<-|Hne].
      * by rewrite lookup_insert_eq.
      * rewrite lookup_insert_ne by done. apply Hdone; [done|].
        intros [->|?]%elem_of_cons; done.
    + intros F' Hnone. rewrite lookup_insert_ne by congruence.
      by apply Hother.
    + rewrite <- Hbuffer. unfold allocate_memory_with_buffer. simpl.
      rewrite Nat.add_succ_r. simpl. by rewrite <- !app_assoc.
  - unfold P. simpl. split; [done|]. split; [done|].
    split; [unfold bytes_requested; lia|]. do 4 (split; [done|]).
    split; [|split].
    + intros F Hsome Hnot. destruct Hnot.
      by apply elem_of_map_to_list_keys.
    + done.
    + by rewrite length_map_to_list.
  - destruct Hfinal as (_ & _ & Hsum & Hsize & Hmodels & Hcounts & Hregister
                        & Hdone & Hother & Hbuffer). simpl in *.
    rewrite Z.add_0_r in Hsum. rewrite app_nil_r in Hbuffer. subst.
    do 2 f_equal. destruct self, self'. unfold set_memory_blocks.
    simpl in *. subst. f_equal. apply map_eq. intros F.
    rewrite lookup_union, lookup_fmap.
    destruct (effective !! F) as [sizes|] eqn:HF; simpl.
    + rewrite Hdone; [|by eexists|by intros ?%elem_of_nil].
      by destruct (memory_blocks0 !! F).
    + rewrite Hother by done. by destruct (memory_blocks0 !! F).
Qed.

(** [allocate] with a mapping of its own: when every format of the
    mapping is registered with a vertex size other than zero, no entry
    asks for a negative number of bytes and the sum fits an unsigned int,
    the call returns that sum, gives every format of the mapping a pair
    of pools of half the allocation size each, whatever the entry says,
    reserves two such blocks per format from the buffer, and touches
    nothing else. *)
Theorem allocate_reserves (self : ModelManager) (master_buffer : Buffer)
    (formats_to_allocate : gmap string (Z * Z)) :
  formats_to_allocate ≠ ∅ →
  (∀ F v i, formats_to_allocate !! F = Some (v, i) →
     0 ≤ v + i ∧ ∃ fc, vertex_formats !! F = Some fc ∧ _size fc ≠ 0) →
  bytes_requested formats_to_allocate < 2 ^ 32 →
  allocate formats_to_allocate (self, master_buffer)
  = (Ok (bytes_requested formats_to_allocate),
     (set_memory_blocks
        (union ((λ _, half_pools self) <$> formats_to_allocate)) self,
      master_buffer
      ++ replicate (2 * size formats_to_allocate)
           (allocation_size self / 2)%N)).
Proof.
  intros Hne Hentries Htotal. apply allocate_effective; [|done..].
  by rewrite decide_False.
Qed.

(** [allocate] with the empty mapping: when every registered format has
    a vertex size other than zero and the allocation size times the
    number of formats fits an unsigned int, the call returns that product
    and gives every registered format two pools of half the allocation
    size each. *)
Theorem allocate_default (self : ModelManager) (master_buffer : Buffer) :
  (∀ F fc, vertex_formats !! F = Some fc → _size fc ≠ 0) →
  Z.of_nat (size vertex_formats) * Z.of_N (allocation_size self) < 2 ^ 32 →
  allocate ∅ (self, master_buffer)
  = (Ok (Z.of_nat (size vertex_formats) * Z.of_N (allocation_size self)),
     (set_memory_blocks
        (union ((λ _, half_pools self) <$> vertex_formats)) self,
      master_buffer
      ++ replicate (2 * size vertex_formats) (allocation_size self / 2)%N)).
Proof.
  intros Hsizes Htotal.
  set (default := (λ _ : FormatConfig,
         (Z.of_N (allocation_size self - allocation_size self / 4),
          Z.of_N (allocation_size self / 4)))).
  assert (bytes_requested (default <$> vertex_formats)
          = Z.of_nat (size vertex_formats) * Z.of_N (allocation_size self))
    as Hbytes.
  { unfold bytes_requested. rewrite map_to_list_fmap, <- length_map_to_list.
    induction (map_to_list vertex_formats) as [|[F fc] entries IH];
      [done|].
    cbn [fmap list_fmap bytes_of foldr length]. fold (bytes_of (prod_map id default <$> entries)).
    rewrite IH. simpl.
    assert (allocation_size self / 4 ≤ allocation_size self)%N
      by (apply N.Div0.div_le_upper_bound; lia).
    lia. }
  rewrite (allocate_effective self master_buffer ∅ (default <$> vertex_formats)).
  - rewrite Hbytes, map_size_fmap, <- map_fmap_compose. done.
  - by rewrite decide_True.
  - intros F v i. rewrite lookup_fmap.
    destruct (vertex_formats !! F) as [fc|] eqn:Hfc; [|done].
    intros [= <- <-]. split; [lia|]. exists fc. split; [done|].
    by eapply Hsizes.
  - by rewrite Hbytes.
Qed.

(** *** load_textured_rectangle *)

(** [load_textured_rectangle] under a new model name, with a texture
    that is registered and a width and a height that convert to C floats:
    the call returns the name, the model stored under it is a new one of
    4 vertices and 6 indices on which [set_textured_rectangle] was called
    with the converted width and height and the UVs recorded for the
    texture; no other model and nothing of the texture manager changes. *)
Theorem load_textured_rectangle_new (models : ModelManager)
    (textures : TextureManager) (F : string) (width height w h : pyval)
    (texture_key name : string) (do_copy : bool)
    (fc : FormatConfig) (blocks : BlockPair) (texkey : Z)
    (uvs : list pyval) :
  as_c_float width = Ok w →
  as_c_float height = Ok h →
  vertex_formats !! F = Some fc →
  memory_blocks models !! F = Some blocks →
  _key_counts models !! name = None →
  _keys textures !! texture_key = Some texkey →
  _uvs textures !! texkey = Some uvs →
  ∃ models' model,
    load_textured_rectangle F width height texture_key name do_copy
      (models, textures)
    = (Ok name, (models', textures))
    ∧ _models models' !! name = Some model
    ∧ model = set_textured_rectangle
                (new_VertexModel 4 6 fc (indices_block blocks)
                   (vertices_block blocks) name) w h uvs
    ∧ _vertex_count model = 4%N
    ∧ _index_count model = 6%N
    ∧ vm_data model = TexturedRectangle w h uvs
    ∧ _key_counts models' !! name = Some 0
    ∧ ∀ m, m ≠ name → _models models' !! m = _models models !! m.
Proof.
  intros Hwidth Hheight Hfc Hblocks Hname Htexture Huvs.
  pose proof (load_model_unseen models F 4 6 name do_copy fc blocks
                Hfc Hblocks Hname) as Hload.
  eexists _, _. split.
  { unfold load_textured_rectangle. unfold bind at 1, lift at 1.
    rewrite Hwidth. unfold bind at 1, lift at 1. rewrite Hheight.
    unfold bind at 1. simpl.
    rewrite Hload. unfold get_texkey_from_name, get_uvs. unfold_monad. simpl.
    rewrite lookup_insert_eq. simpl. rewrite Htexture. simpl.
    by rewrite Huvs. }
  simpl. rewrite !lookup_insert_eq. do 6 (split; [done|]).
  intros m Hm. by rewrite !lookup_insert_ne.
Qed.

(** [load_textured_rectangle] without [do_copy], with a registered
    format, under a name that is already loaded creates nothing: it calls
    [set_textured_rectangle], with the converted width and height, on the
    model stored under the name, the one every earlier holder of the name
    shares, whichever registered format was asked for. *)
Theorem load_textured_rectangle_again_rewrites (models : ModelManager)
    (textures : TextureManager) (F : string) (width height w h : pyval)
    (texture_key name : string) (model : VertexModel) (texkey : Z)
    (uvs : list pyval) :
  as_c_float width = Ok w →
  as_c_float height = Ok h →
  is_Some (vertex_formats !! F) →
  is_Some (_key_counts models !! name) →
  _models models !! name = Some model →
  _keys textures !! texture_key = Some texkey →
  _uvs textures !! texkey = Some uvs →
  load_textured_rectangle F width height texture_key name false
    (models, textures)
  = (Ok name,
     (set_models <[name := set_textured_rectangle model w h uvs]> models,
      textures)).
Proof.
  intros Hwidth Hheight Hfc Hcount Hmodel Htexture Huvs.
  unfold load_textured_rectangle. unfold bind at 1, lift at 1.
  rewrite Hwidth. unfold bind at 1, lift at 1. rewrite Hheight.
  unfold bind at 1. simpl.
  rewrite (load_model_seen _ _ _ _ _ Hfc Hcount).
  unfold get_texkey_from_name, get_uvs. unfold_monad. simpl.
  rewrite Hmodel. simpl. rewrite Htexture. simpl. by rewrite Huvs.
Qed.

(** *** The counters cover the models *)

Lemma models_counted_set_models (self : ModelManager) (n : string)
    (model : VertexModel) :
  models_counted self → is_Some (_key_counts self !! n) →
  models_counted (set_models <[n := model]> self).
Proof.
  intros Hcounted Hn name. simpl.
  destruct (decide (n = name)) as [<-|Hne]; [done|].
  rewrite lookup_insert_ne by done. apply Hcounted.
Qed.

Lemma models_counted_set_key_counts (self : ModelManager) (n : string)
    (count : Z) :
  models_counted self →
  models_counted (set_key_counts <[n := count]> self).
Proof.
  intros Hcounted name Hname. simpl.
  destruct (decide (n = name)) as [<-|Hne].
  - rewrite lookup_insert_eq. by eexists.
  - rewrite lookup_insert_ne by done. by apply Hcounted.
Qed.

Lemma load_model_counted (self : ModelManager) F v i n do_copy :
  models_counted self →
  models_counted (snd (load_model F v i n do_copy self)).
Proof.
  intros Hcounted. unfold load_model. unfold_monad.
  destruct (vertex_formats !! F) as [fc|]; [|done]. simpl.
  destruct (_key_counts self !! n) as [count|] eqn:Hcount; simpl.
  - destruct do_copy; simpl; [|done].
    destruct (_key_counts self !! (n +:+ "_" +:+ str count)) as [old|];
      simpl; [|done].
    destruct (memory_blocks self !! F) as [blocks|]; simpl.
    + apply models_counted_set_models.
      * by apply models_counted_set_key_counts.
      * simpl. rewrite lookup_insert_eq. by eexists.
    + by apply models_counted_set_key_counts.
  - destruct (memory_blocks self !! F) as [blocks|]; simpl.
    + apply models_counted_set_models.
      * by apply models_counted_set_key_counts.
      * simpl. rewrite lookup_insert_eq. by eexists.
    + by apply models_counted_set_key_counts.
Qed.

(** Every method of the model manager, whether it returns or raises,
    keeps the counters covering the models: a name under which a model is
    stored has a counter.  So a load without [do_copy] under the name of
    a stored model never replaces it: it returns the name and changes
    nothing. *)
Theorem models_counted_kept (self : ModelManager) :
  models_counted self →
  (∀ e system_id m,
     models_counted (snd (register_entity_with_model e system_id m self)))
  ∧ (∀ e m, models_counted (snd (unregister_entity_with_model e m self)))
  ∧ (∀ formats_to_allocate master_buffer,
       models_counted
         (fst (snd (allocate formats_to_allocate (self, master_buffer)))))
  ∧ (∀ F v i n do_copy,
       models_counted (snd (load_model F v i n do_copy self)))
  ∧ (∀ n target, models_counted (snd (copy_model n target self)))
  ∧ (∀ F width height texture_key n do_copy (textures : TextureManager),
       models_counted
         (fst (snd (load_textured_rectangle F width height texture_key n
                      do_copy (self, textures)))))
  ∧ (∀ n, models_counted (snd (unload_model n self)))
  ∧ ∀ F v i n,
      is_Some (vertex_formats !! F) → is_Some (_models self !! n) →
      load_model F v i n false self = (Ok n, self).
Proof.
  intros Hcounted. repeat apply conj.
  - intros e system_id m. unfold register_entity_with_model. unfold_monad.
    by destruct (_model_register self !! m).
  - intros e m. unfold unregister_entity_with_model. unfold_monad.
    destruct (_model_register self !! m) as [bucket|]; simpl; [|done].
    by destruct (bucket !! e).
  - intros formats_to_allocate master_buffer. unfold allocate.
    unfold bind at 1. unfold get at 1. simpl.
    apply (for_acc_preserves (λ st, models_counted (fst st))); [|done].
    intros [F [vertex_size index_size]] acc [self1 buffer1] Hself1.
    simpl in *. unfold_monad.
    destruct (vertex_formats !! F) as [fc|]; simpl; [|done].
    destruct (decide _); simpl; [|done].
    by destruct (log_reserved fc vertex_size index_size).
  - intros. by apply load_model_counted.
  - intros n target. unfold copy_model. unfold bind at 1 2.
    unfold get at 1, lift at 1, getitem at 1.
    destruct (_models self !! n) as [model|]; [|done].
    unfold bind at 1.
    match goal with
    | |- context [load_model ?F ?v ?i ?name true self] =>
        pose proof (load_model_counted self F v i name true Hcounted)
          as Hloaded;
        destruct (load_model F v i name true self) as [[real|e] self1]
    end; simpl in *; [|done].
    unfold_monad.
    destruct (_models self1 !! real) as [target_model|] eqn:Htarget;
      simpl; [|done].
    apply models_counted_set_models; [done|].
    apply Hloaded. by eexists.
  - intros F width height texture_key n do_copy textures.
    unfold load_textured_rectangle. unfold bind at 1, lift at 1.
    destruct (as_c_float width) as [w|]; [|done].
    unfold bind at 1, lift at 1.
    destruct (as_c_float height) as [h|]; [|done].
    unfold bind at 1. simpl.
    pose proof (load_model_counted self F 4 6 n do_copy Hcounted) as Hloaded.
    destruct (load_model F 4 6 n do_copy self) as [[real|e] self1];
      simpl in *; [|done].
    unfold get_texkey_from_name, get_uvs. unfold_monad. simpl.
    destruct (_models self1 !! real) as [model|] eqn:Hmodel; simpl; [|done].
    destruct (_keys textures !! texture_key) as [texkey|]; simpl; [|done].
    destruct (_uvs textures !! texkey) as [uvs|]; simpl; [|done].
    apply models_counted_set_models; [done|].
    apply Hloaded. by eexists.
  - intros n. unfold unload_model. unfold_monad.
    destruct (_models self !! n) as [model|]; simpl; [|done].
    intros name. simpl. destruct (decide (n = name)) as [<-|Hne].
    + rewrite lookup_delete_eq. by intros [? ?].
    + rewrite !lookup_delete_ne by done. apply Hcounted.
  - intros F v i n Hfc Hmodel. apply load_model_seen; [done|].
    by apply Hcounted.
Qed.

End ModelManagerFurther.

(** * Further properties of the texture manager *)

Section TextureManagerFurther.
Context {arith : PyArith} {ext : Externals}.

(** [load_texture] raises [KeyError] and changes nothing when the name
    is registered.  Otherwise it returns the value of the counter as the
    key and advances the counter by one, and every getter answers for the
    new key: the name and the key resolve to each other, the texture, its
    size and the UVs [[0, 0, 1, 1]] are recorded, and the key is the
    anchor and a member of a group of its own.  Every other name resolves
    as before. *)
Theorem load_texture_round_trip (self : TextureManager) (name : string)
    (texture : Texture) :
  match _keys self !! name with
  | Some _ => load_texture name texture self = (Raise KeyError, self)
  | None =>
      let key := _key_count self in
      ∃ self',
        load_texture name texture self = (Ok key, self')
        ∧ _key_count self' = key + 1
        ∧ get_texkey_from_name name self' = (Ok key, self')
        ∧ get_texname_from_texkey key self' = (Ok name, self')
        ∧ get_texture key self' = (Ok texture, self')
        ∧ get_size key self' = (Ok (tex_size texture), self')
        ∧ get_uvs key self'
          = (Ok [py_float0; py_float0; py_float1; py_float1], self')
        ∧ get_groupkey_from_texkey key self' = (Ok key, self')
        ∧ get_texkey_in_group key key self' = (Ok true, self')
        ∧ ∀ other, other ≠ name → _keys self' !! other = _keys self !! other
  end.
Proof.
  destruct (_keys self !! name) as [key|] eqn:Hname.
  - unfold load_texture. unfold_monad. rewrite Hname.
    by rewrite decide_True by by eexists.
  - exists (with_texture name texture self).
    split; [by apply load_texture_unseen|]. split; [done|].
    unfold get_texkey_from_name, get_texname_from_texkey, get_texture,
      get_size, get_uvs, get_groupkey_from_texkey, get_texkey_in_group.
    unfold_monad. simpl. rewrite !lookup_insert_eq. simpl.
    do 6 (split; [done|]). split.
    + by rewrite bool_decide_eq_true_2 by left.
    + intros other Hne. by rewrite lookup_insert_ne.
Qed.

(** [load_image] is [load_texture] on the decoded image, under the base
    name of the file without its extension: the two return the same key
    and leave the same manager, and raise alike.  An image that does not
    decode leaves the manager as it was. *)
Theorem load_image_as_load_texture (self : TextureManager)
    (source : string) :
  load_image source self
  = match CoreImage_texture source with
    | Ok texture =>
        load_texture (path_splitext_root (path_basename source)) texture self
    | Raise e => (Raise e, self)
    end.
Proof.
  unfold load_image, load_texture. unfold_monad.
  destruct (CoreImage_texture source) as [texture|e]; [|done]. simpl.
  by destruct (decide _).
Qed.

Lemma texture_manager_eq (s s' : TextureManager) :
  _textures s = _textures s' → _keys s = _keys s' →
  _key_index s = _key_index s' → _texkey_index s = _texkey_index s' →
  _key_count s = _key_count s' → _sizes s = _sizes s' →
  _uvs s = _uvs s' → _groups s = _groups s' →
  s = s'.
Proof. destruct s, s'. simpl. by intros -> -> -> -> -> -> -> ->. Qed.

(** Registering a texture under a new name in a manager that has
    nothing stored under the value of its counter, and unloading it
    again, gives back the manager as it was but for the counter, which
    stays advanced: the key is not handed out again. *)
Theorem load_then_unload_texture (self : TextureManager) (name : string)
    (texture : Texture) :
  _keys self !! name = None →
  counter_free self →
  ∃ self1,
    load_texture name texture self = (Ok (_key_count self), self1)
    ∧ unload_texture name self1
      = (Ok tt, set_key_count (λ n, n + 1) self).
Proof.
  intros Hname (Htextures & Hindex & Htexkeys & Hsizes & Huvs & Hgroups).
  exists (with_texture name texture self).
  split; [by apply load_texture_unseen|].
  set (self1 := with_texture name texture self).
  assert (unload_texture_member (_key_count self) self1
          = (Ok tt, forget (_key_count self) name self1)) as Hmember.
  { apply unload_texture_member_recorded; simpl;
      rewrite lookup_insert_eq; by eexists. }
  rewrite (unload_texture_anchor_run self1
             (forget (_key_count self) name self1) name (_key_count self)
             [_key_count self]).
  - clear Hmember. subst self1. f_equal.
    apply texture_manager_eq; simpl; by rewrite ?delete_insert_id.
  - simpl. apply lookup_insert_eq.
  - simpl. apply lookup_insert_eq.
  - simpl. rewrite lookup_insert_eq. by eexists.
  - rewrite for_each_cons, Hmember. done.
  - done.
  - done.
Qed.

(** In a manager whose tables agree, the anchor of every group has a
    name, and [unload_texture] on that name returns and takes the name of
    every member of the group out. *)
Lemma consistent_unload_by_anchor (s : TextureManager) group_key members :
  consistent s →
  _groups s !! group_key = Some members →
  ∃ anchor s',
    _key_index s !! group_key = Some anchor
    ∧ _keys s !! anchor = Some group_key
    ∧ unload_texture anchor s = (Ok tt, s')
    ∧ ∀ member member_name,
        member ∈ members → _key_index s !! member = Some member_name →
        get_texkey_from_name member_name s' = (Raise KeyError, s').
Proof.
  intros Hconsistent Hgroup.
  pose proof Hconsistent as (Hnames & Hnamed & Hgroups).
  destruct (Hgroups _ _ Hgroup) as (_ & Hanchor & _ & Hmembers).
  destruct (Hmembers _ Hanchor) as [Hself [anchor Hindex]].
  assert (_keys s !! anchor = Some group_key) as Hkey by by apply Hnames.
  pose proof (consistent_group_recorded _ _ _ Hconsistent Hgroup) as Hrecorded.
  destruct (unload_texture_recorded_group _ _ _ _ Hkey Hgroup Hrecorded)
    as (key0 & group_key0 & members0 & s' & Hkey0 & Hgroup0 & Hin0 & Hrun
        & _ & Hgone).
  rewrite Hkey in Hkey0. injection Hkey0 as <-.
  destruct (Hgroups _ _ Hgroup0) as (_ & _ & _ & Hmembers0).
  destruct (Hmembers0 _ Hin0) as [Hself0 _].
  rewrite Hself in Hself0. injection Hself0 as <-.
  rewrite Hgroup in Hgroup0. injection Hgroup0 as <-.
  exists anchor, s'. do 3 (split; [done|]).
  intros member member_name Hin Hmember.
  by destruct (Hgone _ _ Hin Hmember) as (_ & _ & Hraises).
Qed.

(** In every manager of a session that starts from a new manager and in
    which every [load_atlas] returns and brings only new names, a name
    that is registered has everything the getters are asked for: its key
    is below the counter and belongs to no other name, the key resolves
    back to the name and has UVs and a size, and it is a member of a
    group whose anchor has a texture and a name; unloading that name
    returns and takes the registered name out. *)
Theorem registered_name_in_session (calls : list call) (i : nat)
    (self : TextureManager) (name : string) (key : Z) :
  atlases_clean calls TextureManager_init →
  history calls TextureManager_init !! i = Some self →
  _keys self !! name = Some key →
  key < _key_count self
  ∧ (∀ other, _keys self !! other = Some key → other = name)
  ∧ get_texname_from_texkey key self = (Ok name, self)
  ∧ (∃ uvs, get_uvs key self = (Ok uvs, self))
  ∧ (∃ size, get_size key self = (Ok size, self))
  ∧ ∃ group_key anchor texture self',
      get_groupkey_from_texkey key self = (Ok group_key, self)
      ∧ get_texkey_in_group key group_key self = (Ok true, self)
      ∧ get_texture group_key self = (Ok texture, self)
      ∧ get_texname_from_texkey group_key self = (Ok anchor, self)
      ∧ get_texkey_from_name anchor self = (Ok group_key, self)
      ∧ unload_texture anchor self = (Ok tt, self')
      ∧ get_texkey_from_name name self' = (Raise KeyError, self').
Proof.
  intros Hclean Hstate Hname.
  pose proof (history_consistent calls _ _ _ consistent_init Hclean Hstate)
    as Hconsistent.
  pose proof Hconsistent as (Hnames & Hnamed & Hgroups).
  assert (_key_index self !! key = Some name) as Hindex by by apply Hnames.
  destruct (Hnamed key) as (Hbelow & [uvs Huvs] & [size Hsize] & group_key
                            & members & Htexkey & Hgroup & Hin);
    [by eexists|].
  destruct (Hgroups _ _ Hgroup) as (_ & _ & [texture Htexture] & _).
  destruct (consistent_unload_by_anchor _ _ _ Hconsistent Hgroup)
    as (anchor & self' & Hanchor & Hanchor_key & Hrun & Hgone).
  unfold get_texname_from_texkey, get_uvs, get_size,
    get_groupkey_from_texkey, get_texkey_in_group, get_texture,
    get_texkey_from_name in *.
  unfold_monad. split; [done|]. split.
  { intros other Hother. apply Hnames in Hother. congruence. }
  rewrite Hindex, Huvs, Hsize. split; [done|].
  split; [by eexists|]. split; [by eexists|].
  exists group_key, anchor, texture, self'.
  rewrite Htexkey, Hgroup, Htexture, Hanchor, Hanchor_key. simpl.
  rewrite bool_decide_eq_true_2 by done. do 5 (split; [done|]).
  split; [done|]. by eapply Hgone.
Qed.

(** In a manager whose tables agree, [unload_texture] on the name of an
    anchor returns and touches nothing outside the group: the counter
    stays, and every name that resolves to a key outside the group still
    resolves to it, with the same UVs, size and group; the other groups
    and their textures are as they were. *)
Theorem unload_texture_keeps_others (self : TextureManager)
    (name : string) (key : Z) (members : list Z) :
  consistent self →
  _keys self !! name = Some key →
  _groups self !! key = Some members →
  ∃ self',
    unload_texture name self = (Ok tt, self')
    ∧ consistent self'
    ∧ _key_count self' = _key_count self
    ∧ (∀ other k, _keys self !! other = Some k → k ∉ members →
         _keys self' !! other = Some k
         ∧ _key_index self' !! k = Some other
         ∧ _uvs self' !! k = _uvs self !! k
         ∧ _sizes self' !! k = _sizes self !! k
         ∧ _texkey_index self' !! k = _texkey_index self !! k)
    ∧ ∀ group_key, group_key ≠ key →
        _groups self' !! group_key = _groups self !! group_key
        ∧ _textures self' !! group_key = _textures self !! group_key.
Proof.
  intros Hconsistent Hname Hgroup.
  pose proof Hconsistent as (Hnames & Hnamed & Hgroups).
  destruct (consistent_group_recorded _ _ _ Hconsistent Hgroup)
    as (Hnodup & Hanchor & Htexture & Hmembers & Hinjective).
  destruct (unload_members_recorded members self Hnodup Hmembers Hinjective)
    as (self1 & Hloop & Hgroups1 & Htextures1 & _).
  pose proof (unload_texture_anchor_run _ _ _ _ _ Hname Hgroup Htexture
                Hloop Hgroups1 Htextures1) as Hrun.
  destruct (unload_members_frame _ _ _ Hloop) as (Hcount & Hframe & Hkeys).
  eexists. split; [exact Hrun|]. split.
  { pose proof (unload_texture_consistent name self Hconsistent) as Hafter.
    by rewrite Hrun in Hafter. }
  split; [done|]. simpl. split.
  - intros other k Hother Hout.
    destruct (Hframe k Hout) as (Hindex & Huvs & Htexkeys & Hsizes).
    rewrite Hindex, Huvs, Htexkeys, Hsizes, Hkeys.
    + split; [done|]. split; [by apply Hnames|done].
    + intros member Hin Hmember. apply Hnames in Hmember. congruence.
  - intros group_key Hne. rewrite !lookup_delete_ne by done.
    by rewrite Hgroups1, Htextures1.
Qed.

(** *** The groups an atlas builds *)

Lemma load_atlas_entry_tables atlas_key W H key rect
    (s s' : TextureManager) :
  load_atlas_entry atlas_key W H (key, rect) s = (Ok tt, s') →
  _keys s' = <[key := _key_count s]> (_keys s)
  ∧ _texkey_index s' = <[_key_count s := atlas_key]> (_texkey_index s)
  ∧ _key_count s' = _key_count s + 1.
Proof.
  by intros (x & y & w & h & uvs & -> & _ & ->)%load_atlas_entry_returned_uvs.
Qed.

Lemma load_atlas_entries_grouped atlas_key W H
    (entries : list (string * list pyval)) :
  ∀ s s' : TextureManager,
    for_each entries (load_atlas_entry atlas_key W H) s = (Ok tt, s') →
    NoDup (map fst entries) →
    _key_count s ≤ _key_count s'
    ∧ (∀ name, name ∉ map fst entries → _keys s' !! name = _keys s !! name)
    ∧ (∀ k, k < _key_count s →
         _texkey_index s' !! k = _texkey_index s !! k)
    ∧ ∀ key rect, (key, rect) ∈ entries →
        ∃ texkey,
          _key_count s ≤ texkey < _key_count s'
          ∧ _keys s' !! key = Some texkey
          ∧ _texkey_index s' !! texkey = Some atlas_key.
Proof.
  induction entries as [|[key rect] entries IH]; intros s s' Hrun Hnodup.
  - injection Hrun as <-. split; [lia|]. do 2 (split; [done|]).
    intros ?? Hin. by apply elem_of_nil in Hin.
  - rewrite for_each_cons in Hrun.
    destruct (load_atlas_entry atlas_key W H (key, rect) s)
      as [[[]|e] s1] eqn:Hentry; [|done].
    apply load_atlas_entry_tables in Hentry as (Hkeys & Hindex & Hcount).
    cbn [map fst] in Hnodup |- *.
    apply NoDup_cons in Hnodup as [Hfresh Hnodup].
    destruct (IH _ _ Hrun Hnodup) as (Hle & Hframe & Hold & Hnew).
    split; [lia|]. split; [|split].
    + intros name [Hne Hname]%not_elem_of_cons.
      rewrite Hframe, Hkeys by done. by rewrite lookup_insert_ne.
    + intros k Hk. rewrite Hold, Hindex by lia.
      rewrite lookup_insert_ne; [done|lia].
    + intros key' rect' [[= -> ->]|Hin]%elem_of_cons.
      * exists (_key_count s). split; [lia|].
        rewrite Hframe, Hkeys by done. rewrite lookup_insert_eq.
        split; [done|]. rewrite Hold, Hindex by lia.
        apply lookup_insert_eq.
      * destruct (Hnew _ _ Hin) as (texkey & Hrange & ? & ?).
        exists texkey. split; [lia|done].
Qed.

Lemma load_atlas_image_grouped dirname imgname atlas_content
    (s s' : TextureManager) :
  load_atlas_image dirname (imgname, atlas_content) s = (Ok tt, s') →
  NoDup (path_basename imgname :: map fst atlas_content) →
  _key_count s ≤ _key_count s'
  ∧ (∀ name, name ∉ path_basename imgname :: map fst atlas_content →
       _keys s' !! name = _keys s !! name)
  ∧ (∀ k, k < _key_count s → _texkey_index s' !! k = _texkey_index s !! k)
  ∧ ∃ atlas_key,
      _key_count s ≤ atlas_key < _key_count s'
      ∧ _keys s' !! path_basename imgname = Some atlas_key
      ∧ ∀ key rect, (key, rect) ∈ atlas_content →
          ∃ texkey,
            _key_count s ≤ texkey < _key_count s'
            ∧ _keys s' !! key = Some texkey
            ∧ _texkey_index s' !! texkey = Some atlas_key.
Proof.
  intros (texture & W & H & _ & _ & _ & Hrun)%load_atlas_image_returned_entries.
  intros [Hfresh Hnodup]%NoDup_cons.
  destruct (load_atlas_entries_grouped _ _ _ _ _ _ Hrun Hnodup)
    as (Hle & Hframe & Hold & Hnew).
  simpl in Hle, Hframe, Hold, Hnew.
  split; [lia|]. split; [|split].
  - intros name [Hne Hname]%not_elem_of_cons.
    rewrite Hframe by done. by rewrite lookup_insert_ne.
  - intros k Hk. rewrite Hold by lia. rewrite lookup_insert_ne; [done|lia].
  - exists (_key_count s). split; [lia|]. split.
    + rewrite Hframe by done. apply lookup_insert_eq.
    + intros key rect Hin. destruct (Hnew _ _ Hin) as (texkey & Hrange & ? & ?).
      exists texkey. split; [lia|done].
Qed.

Lemma load_atlas_images_grouped dirname (atlas_data : atlas_json) :
  ∀ s s' : TextureManager,
    for_each atlas_data (load_atlas_image dirname) s = (Ok tt, s') →
    NoDup (atlas_names atlas_data) →
    _key_count s ≤ _key_count s'
    ∧ (∀ name, name ∉ atlas_names atlas_data →
         _keys s' !! name = _keys s !! name)
    ∧ (∀ k, k < _key_count s →
         _texkey_index s' !! k = _texkey_index s !! k)
    ∧ ∀ imgname atlas_content key rect,
        (imgname, atlas_content) ∈ atlas_data →
        (key, rect) ∈ atlas_content →
        ∃ atlas_key texkey,
          _keys s' !! path_basename imgname = Some atlas_key
          ∧ _keys s' !! key = Some texkey
          ∧ _texkey_index s' !! texkey = Some atlas_key.
Proof.
  induction atlas_data as [|[imgname atlas_content] atlas_data IH];
    intros s s' Hrun Hnodup.
  - injection Hrun as <-. split; [lia|]. do 2 (split; [done|]).
    intros ???? Hin. by apply elem_of_nil in Hin.
  - rewrite for_each_cons in Hrun.
    destruct (load_atlas_image dirname (imgname, atlas_content) s)
      as [[[]|e] s1] eqn:Himage; [|done].
    unfold atlas_names in Hnodup |- *. cbn [flat_map fst snd] in Hnodup |- *.
    fold (atlas_names atlas_data) in Hnodup |- *.
    apply NoDup_app in Hnodup as (Hhead & Hapart & Htail).
    destruct (load_atlas_image_grouped _ _ _ _ _ Himage Hhead)
      as (Hle1 & Hframe1 & Hold1 & atlas_key & Hrange & Hanchor & Hnew1).
    destruct (IH _ _ Hrun Htail) as (Hle & Hframe & Hold & Hnew).
    split; [lia|]. split; [|split].
    + intros name [Hhere Hthere]%not_elem_of_app.
      by rewrite Hframe, Hframe1.
    + intros k Hk. rewrite Hold, Hold1 by lia. done.
    + intros imgname' atlas_content' key rect
        [[= -> ->]|Hin]%elem_of_cons Hentry.
      * destruct (Hnew1 _ _ Hentry) as (texkey & Hrange' & Hkey & Htexkey).
        exists atlas_key, texkey.
        assert (path_basename imgname ∉ atlas_names atlas_data)
          by (apply Hapart; left).
        assert (key ∉ atlas_names atlas_data).
        { apply Hapart. right. apply list_elem_of_In, in_map_iff.
          exists (key, rect). split; [done|]. by apply list_elem_of_In. }
        rewrite !Hframe by done. rewrite Hold by lia. done.
      * by eapply Hnew.
Qed.

(** After [load_atlas] has returned on a manager whose tables agree,
    with an atlas that brings only new names, every sub-image is grouped
    under its image: the base name of the image resolves to the key of
    the anchor, the name of the sub-image resolves to a key whose group
    key is that anchor and which is a member of its group, and unloading
    the image by its base name returns and takes the sub-image out. *)
Theorem load_atlas_groups_under_anchor (source : string)
    (s s' : TextureManager) (atlas_data : atlas_json)
    (imgname : string) (atlas_content : list (string * list pyval))
    (key : string) (rect : list pyval) :
  consistent s →
  atlas_names_new source s →
  load_atlas source s = (Ok tt, s') →
  json_load source = Ok atlas_data →
  (imgname, atlas_content) ∈ atlas_data →
  (key, rect) ∈ atlas_content →
  ∃ atlas_key texkey s'',
    get_texkey_from_name (path_basename imgname) s' = (Ok atlas_key, s')
    ∧ get_texkey_from_name key s' = (Ok texkey, s')
    ∧ get_groupkey_from_texkey texkey s' = (Ok atlas_key, s')
    ∧ get_texkey_in_group texkey atlas_key s' = (Ok true, s')
    ∧ unload_texture (path_basename imgname) s' = (Ok tt, s'')
    ∧ get_texkey_from_name key s'' = (Raise KeyError, s'').
Proof.
  intros Hconsistent Hnew Hrun Hjson Himage Hentry.
  pose proof (load_atlas_consistent _ _ _ Hrun Hconsistent Hnew) as Hafter.
  destruct (Hnew _ Hjson) as [Hnodup _].
  unfold load_atlas in Hrun. unfold_monad. rewrite Hjson in Hrun.
  simpl in Hrun.
  destruct (load_atlas_images_grouped _ _ _ _ Hrun Hnodup)
    as (_ & _ & _ & Hgrouped).
  destruct (Hgrouped _ _ _ _ Himage Hentry)
    as (atlas_key & texkey & Hanchor & Hkey & Htexkey).
  pose proof Hafter as (Hnames & Hnamed & Hgroups).
  assert (_key_index s' !! texkey = Some key) as Hindex by by apply Hnames.
  destruct (Hnamed texkey) as (_ & _ & _ & group_key & members & Htexkey'
                               & Hgroup & Hin); [by eexists|].
  rewrite Htexkey in Htexkey'. injection Htexkey' as <-.
  destruct (consistent_unload_by_anchor _ _ _ Hafter Hgroup)
    as (anchor & s'' & Hanchor_name & Hanchor_key & Hunload & Hgone).
  assert (anchor = path_basename imgname) as ->.
  { apply Hnames in Hanchor. congruence. }
  exists atlas_key, texkey, s''.
  unfold get_texkey_from_name, get_groupkey_from_texkey,
    get_texkey_in_group in *.
  unfold_monad. rewrite Hanchor, Hkey, Htexkey, Hgroup. simpl.
  rewrite bool_decide_eq_true_2 by done. do 5 (split; [done|]).
  by eapply Hgone.
Qed.

Lemma for_each_app {S A} (l1 l2 : list A) (body : A → M S unit) (s : S) :
  for_each (l1 ++ l2) body s
  = match for_each l1 body s with
    | (Ok _, s') => for_each l2 body s'
    | (Raise e, s') => (Raise e, s')
    end.
Proof.
  revert s. induction l1 as [|x l1 IH]; intros s; [done|].
  rewrite <- app_comm_cons, !for_each_cons.
  by destruct (body x s) as [[[]|e] s1].
Qed.

(** [load_atlas] undoes nothing.  When the file does not load the
    manager is as it was; when one of the images named in it does not
    decode, the call raises what the decoder raised and leaves the manager
    as the images before that one left it: each of their sub-images is
    still registered under a key, and the images after it are not read. *)
Theorem load_atlas_keeps_earlier_images (source : string)
    (s : TextureManager) :
  match json_load source with
  | Raise e => load_atlas source s = (Raise e, s)
  | Ok atlas_data =>
      ∀ before imgname atlas_content rest s1 e,
        atlas_data = before ++ (imgname, atlas_content) :: rest →
        for_each before (load_atlas_image (path_dirname source)) s
        = (Ok tt, s1) →
        CoreImage_texture (path_join (path_dirname source) imgname)
        = Raise e →
        load_atlas source s = (Raise e, s1)
        ∧ ∀ imgname' atlas_content' key x y w h,
            (imgname', atlas_content') ∈ before →
            (key, [x; y; w; h]) ∈ atlas_content' →
            ∃ texkey,
              get_texname_from_texkey texkey s1 = (Ok key, s1)
              ∧ get_size texkey s1 = (Ok (w, h), s1)
  end.
Proof.
  unfold load_atlas. unfold bind at 1. unfold lift at 1.
  destruct (json_load source) as [atlas_data|e]; [|done].
  intros before imgname atlas_content rest s1 e -> Hbefore Himage. split.
  - rewrite for_each_app, Hbefore, for_each_cons.
    unfold load_atlas_image. unfold_monad. by rewrite Himage.
  - intros imgname' atlas_content' key x y w h Hin Hentry.
    destruct (load_atlas_images_returned _ _ _ _ Hbefore _ _ _ _ _ _ _
                Hin Hentry)
      as (texture & W & H & texkey & uvs & _ & _ & _ & _ & Hname & Hsize & _).
    exists texkey. unfold get_texname_from_texkey, get_size. unfold_monad.
    by rewrite Hname, Hsize.
Qed.

End TextureManagerFurther.

(** * The managers at work on the demo world *)

Section Examples.
#[local] Existing Instance Py.arith.
#[local] Existing Instance Demo.env.

(** Closes a goal [l = r] between closed terms by evaluating both sides. *)
Ltac by_evaluation :=
  lazymatch goal with
  | |- @eq ?T ?l ?r =>
      tryif has_evar r
      then (let v := eval vm_compute in l in
            unify r v; vm_cast_no_check (@eq_refl T v))
      else vm_cast_no_check (@eq_refl T r)
  | |- is_Some ?o =>
      let v := eval vm_compute in o in
      lazymatch v with
      | Some ?y => exists y; vm_cast_no_check (@eq_refl _ v)
      end
  | |- NoDup ?l =>
      refine (bool_decide_unpack _ _); vm_compute; exact I
  end.

Lemma returned_pair {A B : Type} (x : A * B) (a : A) :
  fst x = a → x = (a, snd x).
Proof. intros <-. by destruct x. Qed.

(** C1, as stated, fails: on a manager that has just been allocated the
    first copying load of ["n"] returns ["n"], not ["n_0"], and the second
    raises [KeyError]. *)
Lemma copies_named_0_and_1_fails :
  fst (load_model "vertex_format_4f" 4 6 "n" true Demo.allocated) = Ok "n"
  ∧ fst (load_model "vertex_format_4f" 4 6 "n" true
           (snd (load_model "vertex_format_4f" 4 6 "n" true Demo.allocated)))
    = Raise KeyError
  ∧ ¬ copies_named_0_and_1 Demo.allocated "vertex_format_4f" 4 6 "n".
Proof.
  assert (fst (load_model "vertex_format_4f" 4 6 "n" true Demo.allocated)
          = Ok "n") as Hfirst by by_evaluation.
  split; [done|]. split; [by_evaluation|].
  intros (self1 & self2 & Hclaimed & _).
  rewrite Hclaimed in Hfirst. discriminate Hfirst.
Qed.

Lemma load_model_copy_twice_witness :
  ∃ self1,
    load_model "vertex_format_4f" 4 6 "n" true Demo.allocated = (Ok "n", self1)
    ∧ _models self1 !! "n"
      = Some (new_VertexModel 4 6
                {| _name := "vertex_format_4f"; _size := 16 |}
                Demo.half_block Demo.half_block "n")
    ∧ _key_counts self1 !! "n" = Some 0
    ∧ ∀ r self2,
        load_model "vertex_format_4f" 4 6 "n" true self1 = (Ok r, self2) →
        r = "n_0" ∧ r ≠ "n"
        ∧ _models self2 !! "n" = _models self1 !! "n"
        ∧ _models self2 !! r
          = Some (new_VertexModel 4 6
                    {| _name := "vertex_format_4f"; _size := 16 |}
                    Demo.half_block Demo.half_block r).
Proof.
  apply (load_model_copy_twice Demo.allocated "vertex_format_4f" 4 6 "n"
           {| _name := "vertex_format_4f"; _size := 16 |} Demo.pools).
  - by_evaluation.
  - by_evaluation.
  - by_evaluation.
Defined.

Lemma allocate_pools_ignore_mapping_witness :
  allocate {[ "vertex_format_4f" := (1000, 500) ]}
    (ModelManager_init (100 * 1024), [])
  = (Ok 1500,
     (set_memory_blocks <[ "vertex_format_4f" := Demo.pools ]>
        (ModelManager_init (100 * 1024)),
      [51200%N; 51200%N])).
Proof.
  apply (allocate_pools_ignore_mapping (ModelManager_init (100 * 1024)) []
           "vertex_format_4f" 1000 500
           {| _name := "vertex_format_4f"; _size := 16 |}).
  - by_evaluation.
  - simpl. lia.
  - lia.
Defined.

(** With no mapping, the default split is not 75/25 either: both pools of
    the format get half of the 100 KiB. *)
Lemma allocate_default_pools :
  allocate ∅ (ModelManager_init (100 * 1024), [])
  = (Ok 102400,
     (set_memory_blocks <[ "vertex_format_4f" := Demo.pools ]>
        (ModelManager_init (100 * 1024)),
      [51200%N; 51200%N])).
Proof. by_evaluation. Qed.

Lemma load_model_again_shares_witness :
  load_model "vertex_format_4f" 4 6 "n" false Demo.allocated
  = (Ok "n", Demo.with_n)
  ∧ "n" = "n"
  ∧ load_model "vertex_format_4f" 8 12 "n" false Demo.with_n
    = (Ok "n", Demo.with_n).
Proof.
  assert (load_model "vertex_format_4f" 4 6 "n" false Demo.allocated
          = (Ok "n", Demo.with_n)) as Hfirst by by_evaluation.
  split; [exact Hfirst|].
  exact (load_model_again_shares Demo.allocated Demo.with_n
           "vertex_format_4f" 4 6 8 12 "n" "n" Hfirst).
Defined.

Lemma copy_model_raises_witness :
  copy_model "n" None Demo.with_n = (Raise KeyError, Demo.with_n).
Proof.
  apply (copy_model_raises Demo.with_n "n"
           (new_VertexModel 4 6 {| _name := "vertex_format_4f"; _size := 16 |}
              Demo.half_block Demo.half_block "n") 0).
  - by_evaluation.
  - exists {| _name := "vertex_format_4f"; _size := 16 |}. by_evaluation.
  - by_evaluation.
  - by_evaluation.
Defined.

Lemma unregister_entity_with_model_exact_witness :
  ∃ self',
    unregister_entity_with_model 1 "n" Demo.registered = (Ok tt, self')
    ∧ registration self' "n" 1 = None
    ∧ (∀ m e, (m, e) ≠ ("n", 1%N) →
         registration self' m e = registration Demo.registered m e)
    ∧ (∀ e, e ≠ 1%N → is_Some (registration Demo.registered "n" e) →
         ∃ self'', unregister_entity_with_model e "n" self' = (Ok tt, self''))
    ∧ _models self' = _models Demo.registered
    ∧ _key_counts self' = _key_counts Demo.registered
    ∧ memory_blocks self' = memory_blocks Demo.registered.
Proof.
  assert (registration Demo.registered "n" 1 = Some "renderer") as Hreg
    by by_evaluation.
  pose proof (unregister_entity_with_model_exact Demo.registered 1 "n") as Hexact.
  rewrite Hreg in Hexact. exact Hexact.
Defined.
(** C3, as stated, fails for a sub-texture name: ["a"] is registered and a
    member of the group of key 0, yet unloading it raises [KeyError]. *)
Lemma unload_texture_by_sub_name_fails :
  _keys Demo.with_atlas !! "a" = Some 1
  ∧ _groups Demo.with_atlas !! 0 = Some [0; 1; 2]
  ∧ fst (unload_texture "a" Demo.with_atlas) = Raise KeyError
  ∧ ¬ unloads_group Demo.with_atlas "a".
Proof.
  assert (fst (unload_texture "a" Demo.with_atlas) = Raise KeyError)
    as Hraises by by_evaluation.
  split; [by_evaluation|]. split; [by_evaluation|]. split; [done|].
  intros (key & group_key & members & self' & _ & _ & _ & Hrun & _).
  rewrite Hrun in Hraises. discriminate Hraises.
Qed.

Lemma unload_texture_by_anchor_witness :
  unloads_group Demo.with_atlas "sheet.png"
  ∧ unload_texture "a" Demo.with_atlas = (Raise KeyError, Demo.with_atlas)
  ∧ unload_texture "missing" Demo.with_atlas
    = (Raise KeyError, Demo.with_atlas).
Proof.
  assert (_keys Demo.with_atlas !! "sheet.png" = Some 0) as Hsheet
    by by_evaluation.
  assert (_groups Demo.with_atlas !! 0 = Some [0; 1; 2]) as Hgroup
    by by_evaluation.
  assert (_keys Demo.with_atlas !! "a" = Some 1) as Ha by by_evaluation.
  assert (_groups Demo.with_atlas !! 1 = None) as Hnone by by_evaluation.
  assert (_keys Demo.with_atlas !! "missing" = None) as Hmissing
    by by_evaluation.
  assert (_key_index Demo.with_atlas !! 0 = Some "sheet.png") as Hname0
    by by_evaluation.
  assert (_key_index Demo.with_atlas !! 1 = Some "a") as Hname1
    by by_evaluation.
  assert (_key_index Demo.with_atlas !! 2 = Some "b") as Hname2
    by by_evaluation.
  pose proof (unload_texture_by_anchor Demo.with_atlas "sheet.png") as Hanchor.
  rewrite Hsheet, Hgroup in Hanchor.
  pose proof (unload_texture_by_anchor Demo.with_atlas "a") as Hsub.
  rewrite Ha, Hnone in Hsub.
  pose proof (unload_texture_by_anchor Demo.with_atlas "missing") as Hunknown.
  rewrite Hmissing in Hunknown.
  split; [|by split]. apply Hanchor.
  split; [by_evaluation|]. split; [by left|]. split; [by_evaluation|].
  split.
  - intros key Hin.
    apply elem_of_cons in Hin as [->|Hin];
      [exists "sheet.png"; repeat split; by_evaluation|].
    apply elem_of_cons in Hin as [->|Hin];
      [exists "a"; repeat split; by_evaluation|].
    apply elem_of_cons in Hin as [->|Hin];
      [exists "b"; repeat split; by_evaluation|].
    apply elem_of_nil in Hin. destruct Hin.
  - clear -Hname0 Hname1 Hname2. revert Hname0 Hname1 Hname2.
    generalize (_key_index Demo.with_atlas).
    intros index Hname0 Hname1 Hname2 key1 key2 name Hin1 Hin2.
    repeat (apply elem_of_cons in Hin1 as [->|Hin1]);
      try (apply elem_of_nil in Hin1; destruct Hin1);
      repeat (apply elem_of_cons in Hin2 as [->|Hin2]);
      try (apply elem_of_nil in Hin2; destruct Hin2);
      congruence.
Defined.

(** The session of the demo world is one whose atlases load and bring new
    names, so the sheet can be unloaded by its anchor at the point where
    the session does so. *)
Lemma session_unloads_sheet :
  atlases_clean Demo.session TextureManager_init
  ∧ unloads_group
      (snd (perform (Load_atlas "atlas.json")
              (snd (perform (Load_image "sprite.png") TextureManager_init))))
      "sheet.png".
Proof.
  assert (atlases_clean Demo.session TextureManager_init) as Hclean.
  { unfold Demo.session. cbn [atlases_clean].
    split; [exact I|]. split; [|repeat split].
    split; [by_evaluation|].
    intros atlas_data Hjson.
    assert (json_load "atlas.json"
            = Ok [("sheet.png", [("a", Demo.rect 10 10 20 20);
                                 ("b", Demo.rect 40 0 8 8)])]) as Hfile
      by by_evaluation.
    rewrite Hfile in Hjson. injection Hjson as <-.
    split; [by_evaluation|].
    intros name Hin.
    apply elem_of_cons in Hin as [->|Hin]; [by_evaluation|].
    apply elem_of_cons in Hin as [->|Hin]; [by_evaluation|].
    apply elem_of_cons in Hin as [->|Hin]; [by_evaluation|].
    apply elem_of_nil in Hin. destruct Hin. }
  split; [exact Hclean|].
  apply (unload_texture_in_session Demo.session 2 _ "sheet.png" 1 [1; 2; 3]
           Hclean).
  - reflexivity.
  - by_evaluation.
  - by_evaluation.
Qed.
Lemma load_atlas_uvs_witness :
  (∀ imgname atlas_content key x y w h,
     (imgname, atlas_content)
     ∈ [("sheet.png", [("a", Demo.rect 10 10 20 20);
                       ("b", Demo.rect 40 0 8 8)])] →
     (key, [x; y; w; h]) ∈ atlas_content →
     ∃ texture W H texkey uvs,
       CoreImage_texture (path_join (path_dirname "atlas.json") imgname)
       = Ok texture
       ∧ as_c_float (fst (tex_size texture)) = Ok W
       ∧ as_c_float (snd (tex_size texture)) = Ok H
       ∧ uv_rectangle W H x y w h = Ok uvs
       ∧ get_texname_from_texkey texkey Demo.with_atlas
         = (Ok key, Demo.with_atlas)
       ∧ get_size texkey Demo.with_atlas = (Ok (w, h), Demo.with_atlas)
       ∧ get_uvs texkey Demo.with_atlas = (Ok uvs, Demo.with_atlas))
  ∧ ∃ self',
      load_atlas "atlas.json" TextureManager_init = (Ok tt, self')
      ∧ ∀ imgname atlas_content texture W H key x y w h,
          (imgname, atlas_content)
          ∈ [("sheet.png", [("a", Demo.rect 10 10 20 20);
                            ("b", Demo.rect 40 0 8 8)])] →
          CoreImage_texture (path_join (path_dirname "atlas.json") imgname)
          = Ok texture →
          as_c_float (fst (tex_size texture)) = Ok W →
          as_c_float (snd (tex_size texture)) = Ok H →
          (key, [x; y; w; h]) ∈ atlas_content →
          ∃ texkey uvs,
            get_texkey_from_name key self' = (Ok texkey, self')
            ∧ get_size texkey self' = (Ok (w, h), self')
            ∧ uv_rectangle W H x y w h = Ok uvs
            ∧ get_uvs texkey self' = (Ok uvs, self').
Proof.
  assert (json_load "atlas.json"
          = Ok [("sheet.png", [("a", Demo.rect 10 10 20 20);
                               ("b", Demo.rect 40 0 8 8)])]) as Hjson
    by by_evaluation.
  assert (fst (load_atlas "atlas.json" TextureManager_init) = Ok tt) as Hrun
    by by_evaluation.
  apply returned_pair in Hrun.
  destruct (load_atlas_uvs TextureManager_init "atlas.json" _ Hjson)
    as [Hreturned Hloads].
  split; [exact (Hreturned _ Hrun)|].
  apply Hloads.
  - by_evaluation.
  - intros item Hin. apply list_elem_of_singleton in Hin as ->.
    split; [|by_evaluation].
    eexists _, _, _. split; [by_evaluation|].
    split; [by_evaluation|]. split; [by_evaluation|].
    intros key rect Hin.
    apply elem_of_cons in Hin as [[= -> ->]|Hin];
      [eexists _, _, _, _, _; split; [reflexivity|by_evaluation]|].
    apply elem_of_cons in Hin as [[= -> ->]|Hin];
      [eexists _, _, _, _, _; split; [reflexivity|by_evaluation]|].
    apply elem_of_nil in Hin. destruct Hin.
Defined.

(** The sub-image ["a"], at [[10, 10, 20, 20]] in the 100 by 100 sheet, gets
    key 1, size (20, 20) and the doubles nearest 0.1, 0.9, 0.3 and 0.7. *)
Lemma load_atlas_uvs_of_a :
  get_texkey_from_name "a" Demo.with_atlas = (Ok 1, Demo.with_atlas)
  ∧ get_size 1 Demo.with_atlas
    = (Ok (Py.Int 20, Py.Int 20), Demo.with_atlas)
  ∧ get_uvs 1 Demo.with_atlas
    = (Ok [Py.Float (S754_finite false 7205759403792794 (-56));
           Py.Float (S754_finite false 8106479329266893 (-53));
           Py.Float (S754_finite false 5404319552844595 (-54));
           Py.Float (S754_finite false 6305039478318694 (-53))],
       Demo.with_atlas).
Proof. repeat split; by_evaluation. Qed.

(** C7: [sprite] is registered with key 0 and [load_texture] refuses to
    register the name again; loading an atlas that has a sub-image of that
    name returns without an error, hands the name to key 2 and leaves
    key 0 behind, still called [sprite]. *)
Theorem load_atlas_overwrites_name :
  _keys Demo.with_sprite !! "sprite" = Some 0
  ∧ fst (load_texture "sprite" Demo.sprite Demo.with_sprite) = Raise KeyError
  ∧ ∃ self',
      load_atlas "clash.json" Demo.with_sprite = (Ok tt, self')
      ∧ _keys self' !! "sprite" = Some 2
      ∧ _key_index self' !! 0 = Some "sprite"
      ∧ _key_index self' !! 2 = Some "sprite".
Proof.
  split; [by_evaluation|]. split; [by_evaluation|].
  exists (snd (load_atlas "clash.json" Demo.with_sprite)).
  split; [apply returned_pair; by_evaluation|].
  repeat split; by_evaluation.
Qed.



(** C10, as stated, fails under a model name that is already loaded:
    ["n"] has a counter and a model, so [load_model] returns it without
    creating anything, and the [KeyError] of the texture lookup leaves both
    managers as they were. *)
Lemma load_textured_rectangle_creates_nothing :
  _keys Demo.with_atlas !! "missing" = None
  ∧ load_textured_rectangle "vertex_format_4f" (Py.Int 32) (Py.Int 32)
      "missing" "n" false (Demo.with_n, Demo.with_atlas)
    = (Raise KeyError, (Demo.with_n, Demo.with_atlas))
  ∧ ¬ leaves_new_model Demo.with_n Demo.with_atlas "vertex_format_4f"
        (Py.Int 32) (Py.Int 32) "missing" "n" false.
Proof.
  assert (load_textured_rectangle "vertex_format_4f" (Py.Int 32) (Py.Int 32)
            "missing" "n" false (Demo.with_n, Demo.with_atlas)
          = (Raise KeyError, (Demo.with_n, Demo.with_atlas))) as Hrun.
  { apply (load_textured_rectangle_seen Demo.with_n Demo.with_atlas
             "vertex_format_4f" (Py.Int 32) (Py.Int 32)
             (Py.Float (S754_finite false 4503599627370496 (-47)))
             (Py.Float (S754_finite false 4503599627370496 (-47)))).
    - by_evaluation.
    - by_evaluation.
    - by_evaluation.
    - by_evaluation.
    - by_evaluation. }
  split; [by_evaluation|]. split; [exact Hrun|].
  intros (e & models' & textures' & real & model & Hclaimed & Hold & Hnew & _).
  rewrite Hrun in Hclaimed.
  apply (f_equal (λ outcome, fst (snd outcome))) in Hclaimed.
  cbn [fst snd] in Hclaimed. rewrite <- Hclaimed in Hnew.
  rewrite Hold in Hnew. discriminate Hnew.
Qed.

Lemma load_textured_rectangle_not_atomic_witness :
  (∀ do_copy blocks,
     memory_blocks Demo.allocated !! "vertex_format_4f" = Some blocks →
     ∃ models',
       load_textured_rectangle "vertex_format_4f" (Py.Int 32) (Py.Int 32)
         "missing" "quad" do_copy (Demo.allocated, Demo.with_atlas)
       = (Raise KeyError, (models', Demo.with_atlas))
       ∧ load_model "vertex_format_4f" 4 6 "quad" do_copy Demo.allocated
         = (Ok "quad", models')
       ∧ _key_counts models' !! "quad" = Some 0
       ∧ _models models' !! "quad"
         = Some (new_VertexModel 4 6
                   {| _name := "vertex_format_4f"; _size := 16 |}
                   (indices_block blocks) (vertices_block blocks) "quad")
       ∧ (∀ model, _models models' !! "quad" = Some model →
            vm_data model = Uninitialized))
  ∧ load_textured_rectangle "vertex_format_4f" (Py.Int 32) (Py.Int 32)
      "missing" "n" false (Demo.with_n, Demo.with_atlas)
    = (Raise KeyError, (Demo.with_n, Demo.with_atlas)).
Proof.
  assert (_key_counts Demo.allocated !! "quad" = None) as Hquad
    by by_evaluation.
  assert (_key_counts Demo.with_n !! "n" = Some 0) as Hn by by_evaluation.
  pose proof (load_textured_rectangle_not_atomic Demo.allocated
                Demo.with_atlas "vertex_format_4f" (Py.Int 32) (Py.Int 32)
                (Py.Float (S754_finite false 4503599627370496 (-47)))
                (Py.Float (S754_finite false 4503599627370496 (-47)))
                "missing" "quad"
                {| _name := "vertex_format_4f"; _size := 16 |}) as Hnew.
  rewrite Hquad in Hnew.
  pose proof (load_textured_rectangle_not_atomic Demo.with_n
                Demo.with_atlas "vertex_format_4f" (Py.Int 32) (Py.Int 32)
                (Py.Float (S754_finite false 4503599627370496 (-47)))
                (Py.Float (S754_finite false 4503599627370496 (-47)))
                "missing" "n"
                {| _name := "vertex_format_4f"; _size := 16 |}) as Hseen.
  rewrite Hn in Hseen.
  split; [apply Hnew|apply Hseen]; by_evaluation.
Defined.


(** ** The further properties on the demo world *)

Lemma register_entity_with_model_upserts_witness :
  ∃ self',
    register_entity_with_model 1 "renderer" "n" Demo.with_n = (Ok tt, self')
    ∧ registration self' "n" 1 = Some "renderer"
    ∧ (∀ m e, (m, e) ≠ ("n", 1%N) →
         registration self' m e = registration Demo.with_n m e)
    ∧ register_entity_with_model 1 "renderer" "n" self' = (Ok tt, self')
    ∧ _models self' = _models Demo.with_n
    ∧ _key_counts self' = _key_counts Demo.with_n
    ∧ memory_blocks self' = memory_blocks Demo.with_n.
Proof.
  exact (register_entity_with_model_upserts Demo.with_n 1 "renderer" "n").
Defined.

Lemma register_then_unregister_witness :
  ∃ self1 self2,
    register_entity_with_model 1 "renderer" "n" Demo.with_n = (Ok tt, self1)
    ∧ unregister_entity_with_model 1 "n" self1 = (Ok tt, self2)
    ∧ (∀ m e, registration self2 m e = registration Demo.with_n m e)
    ∧ is_Some (_model_register self2 !! "n")
    ∧ (is_Some (_model_register Demo.with_n !! "n") → self2 = Demo.with_n).
Proof.
  apply (register_then_unregister Demo.with_n 1 "renderer" "n").
  by_evaluation.
Defined.

Lemma unload_model_forgets_witness :
  ∃ self',
    unload_model "n" Demo.registered = (Ok tt, self')
    ∧ _models self' !! "n" = None
    ∧ _key_counts self' !! "n" = None
    ∧ (∀ e, registration self' "n" e = None)
    ∧ (∀ n, n ≠ "n" →
         _models self' !! n = _models Demo.registered !! n
         ∧ _key_counts self' !! n = _key_counts Demo.registered !! n
         ∧ ∀ e, registration self' n e = registration Demo.registered n e)
    ∧ memory_blocks self' = memory_blocks Demo.registered.
Proof.
  assert (_models Demo.registered !! "n"
          = Some (new_VertexModel 4 6
                    {| _name := "vertex_format_4f"; _size := 16 |}
                    Demo.half_block Demo.half_block "n")) as Hmodel
    by by_evaluation.
  pose proof (unload_model_forgets Demo.registered "n") as Hforgets.
  rewrite Hmodel in Hforgets. exact Hforgets.
Defined.

Lemma load_then_unload_restores_witness :
  ∃ self1,
    load_model "vertex_format_4f" 4 6 "n" false Demo.allocated
    = (Ok "n", self1)
    ∧ is_Some (_models self1 !! "n")
    ∧ unload_model "n" self1 = (Ok tt, Demo.allocated).
Proof.
  apply (load_then_unload_restores Demo.allocated "vertex_format_4f" 4 6
           "n" false {| _name := "vertex_format_4f"; _size := 16 |}
           Demo.pools).
  - by_evaluation.
  - by_evaluation.
  - by_evaluation.
  - by_evaluation.
  - by_evaluation.
Defined.

Lemma load_model_without_pools_witness :
  ∃ self',
    load_model "vertex_format_4f" 4 6 "n" false
      (ModelManager_init (100 * 1024))
    = (Raise KeyError, self')
    ∧ _key_counts self' !! "n" = Some 0
    ∧ _models self' = _models (ModelManager_init (100 * 1024))
    ∧ load_model "vertex_format_4f" 8 12 "n" false self' = (Ok "n", self').
Proof.
  assert (vertex_formats !! "vertex_format_4f"
          = Some {| _name := "vertex_format_4f"; _size := 16 |}) as Hfc
    by by_evaluation.
  pose proof (load_model_without_pools (ModelManager_init (100 * 1024))
                "vertex_format_4f" 4 6 8 12 "n" false) as Hpools.
  rewrite Hfc in Hpools. apply Hpools.
  - by_evaluation.
  - by_evaluation.
Defined.

Lemma copy_model_to_unseen_name_witness :
  ∃ self' copy,
    copy_model "n" (Some "m") Demo.with_n = (Ok "m", self')
    ∧ _models self' !! "m" = Some copy
    ∧ _vertex_count copy = 4%N
    ∧ _index_count copy = 6%N
    ∧ _format_config copy = {| _name := "vertex_format_4f"; _size := 16 |}
    ∧ vm_data copy = Uninitialized
    ∧ _models self' !! "n"
      = Some (new_VertexModel 4 6
                {| _name := "vertex_format_4f"; _size := 16 |}
                Demo.half_block Demo.half_block "n").
Proof.
  apply (copy_model_to_unseen_name Demo.with_n "n" "m"
           (new_VertexModel 4 6
              {| _name := "vertex_format_4f"; _size := 16 |}
              Demo.half_block Demo.half_block "n")
           {| _name := "vertex_format_4f"; _size := 16 |} Demo.pools).
  - by_evaluation.
  - by_evaluation.
  - by_evaluation.
  - by_evaluation.
  - discriminate.
Defined.

Lemma load_model_copy_replaces_witness :
  "n_0" = "n" +:+ "_" +:+ str 0
  ∧ "n_0" ≠ "n"
  ∧ (∃ old,
       _key_counts Demo.with_n_0 !! "n_0" = Some old
       ∧ _key_counts
           (snd (load_model "vertex_format_4f" 8 12 "n" true Demo.with_n_0))
         !! "n_0" = Some (old + 1))
  ∧ _key_counts
      (snd (load_model "vertex_format_4f" 8 12 "n" true Demo.with_n_0))
    !! "n" = Some 0
  ∧ (∃ fc blocks,
       vertex_formats !! "vertex_format_4f" = Some fc
       ∧ memory_blocks Demo.with_n_0 !! "vertex_format_4f" = Some blocks
       ∧ _models
           (snd (load_model "vertex_format_4f" 8 12 "n" true Demo.with_n_0))
         !! "n_0"
         = Some (new_VertexModel 8 12 fc (indices_block blocks)
                   (vertices_block blocks) "n_0"))
  ∧ ∀ m, m ≠ "n_0" →
      _models
        (snd (load_model "vertex_format_4f" 8 12 "n" true Demo.with_n_0))
      !! m = _models Demo.with_n_0 !! m.
Proof.
  assert (fst (load_model "vertex_format_4f" 8 12 "n" true Demo.with_n_0)
          = Ok "n_0") as Hrun by by_evaluation.
  apply returned_pair in Hrun.
  apply (load_model_copy_replaces Demo.with_n_0 _ "vertex_format_4f" 8 12
           "n" "n_0" 0).
  - by_evaluation.
  - exact Hrun.
Defined.

Lemma allocate_reserves_witness :
  allocate Demo.request (Demo.with_n, [7%N])
  = (Ok (bytes_requested Demo.request),
     (set_memory_blocks
        (union ((λ _, half_pools Demo.with_n) <$> Demo.request)) Demo.with_n,
      [7%N] ++ replicate (2 * size Demo.request)
                 (allocation_size Demo.with_n / 2)%N)).
Proof.
  apply (allocate_reserves Demo.with_n [7%N] Demo.request).
  - apply insert_non_empty.
  - intros F v i Hentry. unfold Demo.request in Hentry.
    apply lookup_singleton_Some in Hentry as [<- [= <- <-]]. split; [lia|].
    exists {| _name := "vertex_format_4f"; _size := 16 |}.
    split; [by_evaluation|]. simpl. lia.
  - unfold bytes_requested, Demo.request. rewrite map_to_list_singleton.
    simpl. lia.
Defined.

Lemma allocate_default_witness :
  allocate ∅ (ModelManager_init (100 * 1024), [])
  = (Ok (Z.of_nat (size vertex_formats)
         * Z.of_N (allocation_size (ModelManager_init (100 * 1024)))),
     (set_memory_blocks
        (union ((λ _, half_pools (ModelManager_init (100 * 1024)))
                <$> vertex_formats))
        (ModelManager_init (100 * 1024)),
      [] ++ replicate (2 * size vertex_formats)
              (allocation_size (ModelManager_init (100 * 1024)) / 2)%N)).
Proof.
  apply (allocate_default (ModelManager_init (100 * 1024)) []).
  - intros F fc Hfc. change vertex_formats with Demo.formats in Hfc.
    unfold Demo.formats in Hfc.
    apply lookup_singleton_Some in Hfc as [<- <-]. simpl. lia.
  - change vertex_formats with Demo.formats. unfold Demo.formats.
    rewrite map_size_singleton. simpl. lia.
Defined.

Lemma load_textured_rectangle_new_witness :
  ∃ models' model,
    load_textured_rectangle "vertex_format_4f"
      (Py.Float (S754_finite false 7205759403792794 (-56))) (Py.Int 32)
      "sheet.png" "quad" false (Demo.allocated, Demo.with_atlas)
    = (Ok "quad", (models', Demo.with_atlas))
    ∧ _models models' !! "quad" = Some model
    ∧ model = set_textured_rectangle
                (new_VertexModel 4 6
                   {| _name := "vertex_format_4f"; _size := 16 |}
                   (indices_block Demo.pools) (vertices_block Demo.pools)
                   "quad")
                (Py.Float (S754_finite false 7205759511166976 (-56)))
                (Py.Float (S754_finite false 4503599627370496 (-47)))
                [py_float0; py_float0; py_float1; py_float1]
    ∧ _vertex_count model = 4%N
    ∧ _index_count model = 6%N
    ∧ vm_data model
      = TexturedRectangle
          (Py.Float (S754_finite false 7205759511166976 (-56)))
          (Py.Float (S754_finite false 4503599627370496 (-47)))
          [py_float0; py_float0; py_float1; py_float1]
    ∧ _key_counts models' !! "quad" = Some 0
    ∧ ∀ m, m ≠ "quad" → _models models' !! m = _models Demo.allocated !! m.
Proof.
  apply (load_textured_rectangle_new Demo.allocated Demo.with_atlas
           "vertex_format_4f"
           (Py.Float (S754_finite false 7205759403792794 (-56))) (Py.Int 32)
           (Py.Float (S754_finite false 7205759511166976 (-56)))
           (Py.Float (S754_finite false 4503599627370496 (-47)))
           "sheet.png" "quad"
           false {| _name := "vertex_format_4f"; _size := 16 |} Demo.pools
           0 [py_float0; py_float0; py_float1; py_float1]).
  - by_evaluation.
  - by_evaluation.
  - by_evaluation.
  - by_evaluation.
  - by_evaluation.
  - by_evaluation.
  - by_evaluation.
Defined.

Lemma load_textured_rectangle_again_rewrites_witness :
  load_textured_rectangle "vertex_format_4f" (Py.Int 32)
    (Py.Float (S754_finite false 7205759403792794 (-56)))
    "sheet.png" "n" false (Demo.with_n, Demo.with_atlas)
  = (Ok "n",
     (set_models
        <[ "n" := set_textured_rectangle
                    (new_VertexModel 4 6
                       {| _name := "vertex_format_4f"; _size := 16 |}
                       Demo.half_block Demo.half_block "n")
                    (Py.Float (S754_finite false 4503599627370496 (-47)))
                    (Py.Float (S754_finite false 7205759511166976 (-56)))
                    [py_float0; py_float0; py_float1; py_float1] ]>
        Demo.with_n,
      Demo.with_atlas)).
Proof.
  apply (load_textured_rectangle_again_rewrites Demo.with_n Demo.with_atlas
           "vertex_format_4f" (Py.Int 32)
           (Py.Float (S754_finite false 7205759403792794 (-56)))
           (Py.Float (S754_finite false 4503599627370496 (-47)))
           (Py.Float (S754_finite false 7205759511166976 (-56)))
           "sheet.png" "n"
           (new_VertexModel 4 6
              {| _name := "vertex_format_4f"; _size := 16 |}
              Demo.half_block Demo.half_block "n")
           0 [py_float0; py_float0; py_float1; py_float1]).
  - by_evaluation.
  - by_evaluation.
  - by_evaluation.
  - by_evaluation.
  - by_evaluation.
  - by_evaluation.
  - by_evaluation.
Defined.

Lemma models_counted_kept_witness :
  is_Some (_models Demo.with_n !! "n")
  ∧ models_counted Demo.with_n
  ∧ (∀ e system_id m,
       models_counted
         (snd (register_entity_with_model e system_id m Demo.with_n)))
  ∧ (∀ e m,
       models_counted (snd (unregister_entity_with_model e m Demo.with_n)))
  ∧ (∀ formats_to_allocate master_buffer,
       models_counted
         (fst (snd (allocate formats_to_allocate
                      (Demo.with_n, master_buffer)))))
  ∧ (∀ F v i n do_copy,
       models_counted (snd (load_model F v i n do_copy Demo.with_n)))
  ∧ (∀ n target, models_counted (snd (copy_model n target Demo.with_n)))
  ∧ (∀ F width height texture_key n do_copy (textures : TextureManager),
       models_counted
         (fst (snd (load_textured_rectangle F width height texture_key n
                      do_copy (Demo.with_n, textures)))))
  ∧ (∀ n, models_counted (snd (unload_model n Demo.with_n)))
  ∧ ∀ F v i n,
      is_Some (vertex_formats !! F) → is_Some (_models Demo.with_n !! n) →
      load_model F v i n false Demo.with_n = (Ok n, Demo.with_n).
Proof.
  assert (models_counted (ModelManager_init (100 * 1024))) as Hinit.
  { intros name [model Hmodel]. simpl in Hmodel.
    rewrite lookup_empty in Hmodel. discriminate Hmodel. }
  destruct (models_counted_kept _ Hinit) as (_ & _ & Hallocate & _).
  specialize (Hallocate ∅ []).
  change (models_counted Demo.allocated) in Hallocate.
  destruct (models_counted_kept _ Hallocate) as (_ & _ & _ & Hload & _).
  specialize (Hload "vertex_format_4f" 4%N 6%N "n" false).
  change (models_counted Demo.with_n) in Hload.
  split; [by_evaluation|]. split; [exact Hload|].
  exact (models_counted_kept Demo.with_n Hload).
Defined.

Lemma load_texture_round_trip_witness :
  let key := _key_count Demo.with_atlas in
  ∃ self',
    load_texture "sprite" Demo.sprite Demo.with_atlas = (Ok key, self')
    ∧ _key_count self' = key + 1
    ∧ get_texkey_from_name "sprite" self' = (Ok key, self')
    ∧ get_texname_from_texkey key self' = (Ok "sprite", self')
    ∧ get_texture key self' = (Ok Demo.sprite, self')
    ∧ get_size key self' = (Ok (tex_size Demo.sprite), self')
    ∧ get_uvs key self'
      = (Ok [py_float0; py_float0; py_float1; py_float1], self')
    ∧ get_groupkey_from_texkey key self' = (Ok key, self')
    ∧ get_texkey_in_group key key self' = (Ok true, self')
    ∧ ∀ other, other ≠ "sprite" →
        _keys self' !! other = _keys Demo.with_atlas !! other.
Proof.
  assert (_keys Demo.with_atlas !! "sprite" = None) as Hnew by by_evaluation.
  pose proof (load_texture_round_trip Demo.with_atlas "sprite" Demo.sprite)
    as Hround.
  rewrite Hnew in Hround. exact Hround.
Defined.

Lemma load_then_unload_texture_witness :
  ∃ self1,
    load_texture "sprite" Demo.sprite TextureManager_init
    = (Ok (_key_count TextureManager_init), self1)
    ∧ unload_texture "sprite" self1
      = (Ok tt, set_key_count (λ n, n + 1) TextureManager_init).
Proof.
  apply (load_then_unload_texture TextureManager_init "sprite" Demo.sprite).
  - apply lookup_empty.
  - repeat split; apply lookup_empty.
Defined.

(** Every atlas of the session of the demo world loads and brings only
    new names. *)
Lemma session_clean : atlases_clean Demo.session TextureManager_init.
Proof.
  unfold Demo.session. cbn [atlases_clean].
  split; [exact I|]. split; [|repeat split].
  split; [by_evaluation|].
  intros atlas_data Hjson.
  assert (json_load "atlas.json"
          = Ok [("sheet.png", [("a", Demo.rect 10 10 20 20);
                               ("b", Demo.rect 40 0 8 8)])]) as Hfile
    by by_evaluation.
  rewrite Hfile in Hjson. injection Hjson as <-.
  split; [by_evaluation|].
  intros name Hin.
  apply elem_of_cons in Hin as [->|Hin]; [by_evaluation|].
  apply elem_of_cons in Hin as [->|Hin]; [by_evaluation|].
  apply elem_of_cons in Hin as [->|Hin]; [by_evaluation|].
  apply elem_of_nil in Hin. destruct Hin.
Qed.

Lemma registered_name_in_session_witness :
  2 < _key_count Demo.with_sprite_and_atlas
  ∧ (∀ other, _keys Demo.with_sprite_and_atlas !! other = Some 2 →
       other = "a")
  ∧ get_texname_from_texkey 2 Demo.with_sprite_and_atlas
    = (Ok "a", Demo.with_sprite_and_atlas)
  ∧ (∃ uvs, get_uvs 2 Demo.with_sprite_and_atlas
            = (Ok uvs, Demo.with_sprite_and_atlas))
  ∧ (∃ size, get_size 2 Demo.with_sprite_and_atlas
             = (Ok size, Demo.with_sprite_and_atlas))
  ∧ ∃ group_key anchor texture self',
      get_groupkey_from_texkey 2 Demo.with_sprite_and_atlas
      = (Ok group_key, Demo.with_sprite_and_atlas)
      ∧ get_texkey_in_group 2 group_key Demo.with_sprite_and_atlas
        = (Ok true, Demo.with_sprite_and_atlas)
      ∧ get_texture group_key Demo.with_sprite_and_atlas
        = (Ok texture, Demo.with_sprite_and_atlas)
      ∧ get_texname_from_texkey group_key Demo.with_sprite_and_atlas
        = (Ok anchor, Demo.with_sprite_and_atlas)
      ∧ get_texkey_from_name anchor Demo.with_sprite_and_atlas
        = (Ok group_key, Demo.with_sprite_and_atlas)
      ∧ unload_texture anchor Demo.with_sprite_and_atlas = (Ok tt, self')
      ∧ get_texkey_from_name "a" self' = (Raise KeyError, self').
Proof.
  apply (registered_name_in_session Demo.session 2
           Demo.with_sprite_and_atlas "a" 2 session_clean).
  - reflexivity.
  - by_evaluation.
Defined.

(** The tables of the demo manager agree after the image and the atlas
    have been loaded. *)
Lemma with_sprite_and_atlas_consistent :
  consistent Demo.with_sprite_and_atlas.
Proof.
  apply (history_consistent Demo.session TextureManager_init 2
           Demo.with_sprite_and_atlas consistent_init session_clean).
  reflexivity.
Qed.

Lemma unload_texture_keeps_others_witness :
  ∃ self',
    unload_texture "sheet.png" Demo.with_sprite_and_atlas = (Ok tt, self')
    ∧ consistent self'
    ∧ _key_count self' = _key_count Demo.with_sprite_and_atlas
    ∧ (∀ other k,
         _keys Demo.with_sprite_and_atlas !! other = Some k →
         k ∉ [1; 2; 3] →
         _keys self' !! other = Some k
         ∧ _key_index self' !! k = Some other
         ∧ _uvs self' !! k = _uvs Demo.with_sprite_and_atlas !! k
         ∧ _sizes self' !! k = _sizes Demo.with_sprite_and_atlas !! k
         ∧ _texkey_index self' !! k
           = _texkey_index Demo.with_sprite_and_atlas !! k)
    ∧ ∀ group_key, group_key ≠ 1 →
        _groups self' !! group_key
        = _groups Demo.with_sprite_and_atlas !! group_key
        ∧ _textures self' !! group_key
          = _textures Demo.with_sprite_and_atlas !! group_key.
Proof.
  apply (unload_texture_keeps_others Demo.with_sprite_and_atlas "sheet.png"
           1 [1; 2; 3] with_sprite_and_atlas_consistent).
  - by_evaluation.
  - by_evaluation.
Defined.

Lemma load_atlas_groups_under_anchor_witness :
  ∃ atlas_key texkey s'',
    get_texkey_from_name (path_basename "sheet.png") Demo.with_atlas
    = (Ok atlas_key, Demo.with_atlas)
    ∧ get_texkey_from_name "a" Demo.with_atlas = (Ok texkey, Demo.with_atlas)
    ∧ get_groupkey_from_texkey texkey Demo.with_atlas
      = (Ok atlas_key, Demo.with_atlas)
    ∧ get_texkey_in_group texkey atlas_key Demo.with_atlas
      = (Ok true, Demo.with_atlas)
    ∧ unload_texture (path_basename "sheet.png") Demo.with_atlas
      = (Ok tt, s'')
    ∧ get_texkey_from_name "a" s'' = (Raise KeyError, s'').
Proof.
  assert (json_load "atlas.json"
          = Ok [("sheet.png", [("a", Demo.rect 10 10 20 20);
                               ("b", Demo.rect 40 0 8 8)])]) as Hfile
    by by_evaluation.
  assert (fst (load_atlas "atlas.json" TextureManager_init) = Ok tt) as Hrun
    by by_evaluation.
  apply returned_pair in Hrun.
  apply (load_atlas_groups_under_anchor "atlas.json" TextureManager_init
           Demo.with_atlas
           [("sheet.png", [("a", Demo.rect 10 10 20 20);
                           ("b", Demo.rect 40 0 8 8)])]
           "sheet.png"
           [("a", Demo.rect 10 10 20 20); ("b", Demo.rect 40 0 8 8)]
           "a" (Demo.rect 10 10 20 20) consistent_init).
  - intros atlas_data Hjson. rewrite Hfile in Hjson. injection Hjson as <-.
    split; [by_evaluation|]. intros name _. apply lookup_empty.
  - exact Hrun.
  - exact Hfile.
  - left.
  - left.
Defined.

Lemma load_atlas_keeps_earlier_images_witness :
  @load_atlas Py.arith Demo.gallery "gallery.json" TextureManager_init
  = (Raise IOError,
     snd (@load_atlas_image Py.arith Demo.gallery EmptyString
            ("sheet.png", [("a", Demo.rect 10 10 20 20)])
            TextureManager_init))
  ∧ ∀ imgname' atlas_content' key x y w h,
      (imgname', atlas_content')
      ∈ [("sheet.png", [("a", Demo.rect 10 10 20 20)])] →
      (key, [x; y; w; h]) ∈ atlas_content' →
      ∃ texkey,
        get_texname_from_texkey texkey
          (snd (@load_atlas_image Py.arith Demo.gallery EmptyString
                  ("sheet.png", [("a", Demo.rect 10 10 20 20)])
                  TextureManager_init))
        = (Ok key,
           snd (@load_atlas_image Py.arith Demo.gallery EmptyString
                  ("sheet.png", [("a", Demo.rect 10 10 20 20)])
                  TextureManager_init))
        ∧ get_size texkey
            (snd (@load_atlas_image Py.arith Demo.gallery EmptyString
                    ("sheet.png", [("a", Demo.rect 10 10 20 20)])
                    TextureManager_init))
          = (Ok (w, h),
             snd (@load_atlas_image Py.arith Demo.gallery EmptyString
                    ("sheet.png", [("a", Demo.rect 10 10 20 20)])
                    TextureManager_init)).
Proof.
  assert (@json_load Py.arith Demo.gallery "gallery.json"
          = Ok [("sheet.png", [("a", Demo.rect 10 10 20 20)]);
                ("lost.png", [("c", Demo.rect 0 0 1 1)])]) as Hfile
    by by_evaluation.
  pose proof (@load_atlas_keeps_earlier_images Py.arith Demo.gallery
                "gallery.json" TextureManager_init) as Hkeeps.
  rewrite Hfile in Hkeeps.
  apply (Hkeeps [("sheet.png", [("a", Demo.rect 10 10 20 20)])] "lost.png"
           [("c", Demo.rect 0 0 1 1)] []).
  - reflexivity.
  - rewrite for_each_cons.
    assert (fst (@load_atlas_image Py.arith Demo.gallery
                   (@path_dirname Py.arith Demo.gallery "gallery.json")
                   ("sheet.png", [("a", Demo.rect 10 10 20 20)])
                   TextureManager_init) = Ok tt) as Hfirst by by_evaluation.
    apply returned_pair in Hfirst. rewrite Hfirst. reflexivity.
  - by_evaluation.
Defined.

End Examples.
